(** * N-body physics around a central black hole

    Shallow embedding of [src/objects/Object.cpp], [src/physics/BlackHole.cpp]
    and [src/physics/Physics.cpp], and of the parts of [src/utils/Config.cpp]
    and [src/utils/Logger.cpp] that work on values in memory.

    Numbers.  The C++ code computes with [float] (every [glm::vec3]
    component, radii, time deltas) and [double] (masses, distances, radii of
    the black hole, the simulated time).  Both are modelled as exact real
    numbers [R]; the casts between the two ([static_cast<float>],
    [static_cast<double>]) are therefore the identity and are left out.
    Rounding, overflow to infinity and NaN are outside this model: an
    equation proved in it holds of the code up to rounding, and a property
    that needs a squared distance or a magnitude to stay within the range of
    [float] says so in a hypothesis ([float_range], [in_float]).
    Two functions whose properties turn on rounding itself,
    [getMetricCoefficient] and [getTimeDilationFactor], take the rounding of
    [double] operations as an argument, and their properties hold for every
    rounding to nearest ([nearest]).  Module [IEEE] has the two formats bit
    for bit; the code is evaluated in it at the inputs where it overflows or
    rounds a difference away.
    [size_t] counters are integers with their 64-bit wrap-around written out.

    Logging.  The calls of [Logger::log] write to the process-wide logger
    and to no field of the three classes; the message is kept where a
    property is about what is reported ([Physics::addObject]) and left out
    elsewhere.  The logger on its own is [Logger.t], with the text written so
    far to each of its streams; the time of a call is an argument of
    [Logger.log].

    Containers.  [std::vector<Object>] is a [list Object.t] read with
    [objs !! i] and written with [<[i := o]> objs]; the references
    [auto& obj1 = m_objects[i]] of the source are read again from the list at
    every use, so that a write through one of them is seen by the next read.
    The index loops are [for_loop]s over those lists. *)

From stdpp Require Import base list strings.
From Stdlib Require Import Reals Lra Lia ZArith Ascii SpecFloat.

Open Scope R_scope.

(** ** Comparisons of the source, as booleans *)

Definition Rleb (x y : R) : bool := if Rle_dec x y then true else false.
Definition Rltb (x y : R) : bool := if Rlt_dec x y then true else false.
Definition Rgeb (x y : R) : bool := Rleb y x.
Definition Rgtb (x y : R) : bool := Rltb y x.

(** ** glm vectors *)

Record vec3 : Type := mkVec3 { vx : R; vy : R; vz : R }.
Record vec4 : Type := mkVec4 { cr : R; cg : R; cb : R; ca : R }.

(** [glm::vec3(s)] *)
Definition vec3_splat (s : R) : vec3 := mkVec3 s s s.
Definition vzero : vec3 := vec3_splat 0.

Definition vadd (a b : vec3) : vec3 := mkVec3 (vx a + vx b) (vy a + vy b) (vz a + vz b).
Definition vsub (a b : vec3) : vec3 := mkVec3 (vx a - vx b) (vy a - vy b) (vz a - vz b).
Definition vneg (a : vec3) : vec3 := mkVec3 (- vx a) (- vy a) (- vz a).
(** [v * s] and [v / s] with a scalar [s] *)
Definition vscale (a : vec3) (s : R) : vec3 := mkVec3 (vx a * s) (vy a * s) (vz a * s).
Definition vdiv (a : vec3) (s : R) : vec3 := mkVec3 (vx a / s) (vy a / s) (vz a / s).

(** [glm::dot], [glm::length], [glm::inversesqrt] and [glm::normalize],
    as GLM defines them for [vec3]. *)
Definition dot (a b : vec3) : R := vx a * vx b + vy a * vy b + vz a * vz b.
Definition length3 (a : vec3) : R := sqrt (dot a a).
Definition inversesqrt (x : R) : R := 1 / sqrt x.
Definition normalize (a : vec3) : vec3 := vscale a (inversesqrt (dot a a)).
Definition cross (a b : vec3) : vec3 :=
  mkVec3 (vy a * vz b - vz a * vy b) (vz a * vx b - vx a * vz b) (vx a * vy b - vy a * vx b).

(** ** Logger *)

Module Logger.
Inductive Level : Type := DEBUG | INFO | WARNING | ERROR | CRITICAL.
(** One call of [Logger::log]: the level and the message. *)
Definition entry : Type := (Level * string)%type.

(** The numbers of the enumeration, by which levels are compared. *)
Definition level_rank (level : Level) : Z :=
  match level with
  | DEBUG => 0 | INFO => 1 | WARNING => 2 | ERROR => 3 | CRITICAL => 4
  end.

(** The logger and the three streams it writes to, each with the text
    written so far.  The mutex and the timers are left out. *)
Record t : Type := mk {
  m_currentLevel : Level;
  m_consoleOutput : bool;
  m_fileOutput : bool;
  m_logFilename : string;
  m_logFile_is_open : bool;
  m_logFile : string;
  cout : string;
  cerr : string
}.

(** [Logger::Logger()] *)
Definition new : t := mk INFO true false "black_hole_simulation.log" false "" "" "".

Definition setLevel (level : Level) (l : t) : t :=
  mk level (m_consoleOutput l) (m_fileOutput l) (m_logFilename l)
     (m_logFile_is_open l) (m_logFile l) (cout l) (cerr l).

Definition setConsoleOutput (enabled : bool) (l : t) : t :=
  mk (m_currentLevel l) enabled (m_fileOutput l) (m_logFilename l)
     (m_logFile_is_open l) (m_logFile l) (cout l) (cerr l).

Definition levelToString (level : Level) : string :=
  match level with
  | DEBUG => "DEBUG"
  | INFO => "INFO "
  | WARNING => "WARN "
  | ERROR => "ERROR"
  | CRITICAL => "CRIT "
  end.

(** The escape character of the colour codes and the end of a line. *)
Definition esc : string := String (ascii_of_nat 27) "".
Definition endl : string := String (ascii_of_nat 10) "".

Definition colorCode (level : Level) : string :=
  match level with
  | DEBUG => esc +:+ "[36m"
  | INFO => esc +:+ "[32m"
  | WARNING => esc +:+ "[33m"
  | ERROR => esc +:+ "[31m"
  | CRITICAL => esc +:+ "[35m"
  end.

Definition writeToConsole (level : Level) (timestamp message : string) (l : t) : t :=
  let line :=
    colorCode level +:+ "[" +:+ timestamp +:+ "] " +:+ levelToString level +:+ ": "
    +:+ message +:+ esc +:+ "[0m" +:+ endl in
  match level with
  | DEBUG | INFO =>
      mk (m_currentLevel l) (m_consoleOutput l) (m_fileOutput l) (m_logFilename l)
         (m_logFile_is_open l) (m_logFile l) (cout l +:+ line) (cerr l)
  | WARNING | ERROR | CRITICAL =>
      mk (m_currentLevel l) (m_consoleOutput l) (m_fileOutput l) (m_logFilename l)
         (m_logFile_is_open l) (m_logFile l) (cout l) (cerr l +:+ line)
  end.

Definition writeToFile (level : Level) (timestamp message : string) (l : t) : t :=
  mk (m_currentLevel l) (m_consoleOutput l) (m_fileOutput l) (m_logFilename l)
     (m_logFile_is_open l)
     (m_logFile l +:+ "[" +:+ timestamp +:+ "] " +:+ levelToString level +:+ ": "
      +:+ message +:+ endl)
     (cout l) (cerr l).

(** [timestamp] is what [getCurrentTimestamp] returns at the call. *)
Definition log (level : Level) (message : string) (timestamp : string) (l : t) : t :=
  if (level_rank level <? level_rank (m_currentLevel l))%Z then l else
  let l1 := if m_consoleOutput l then writeToConsole level timestamp message l else l in
  if m_fileOutput l1 && m_logFile_is_open l1
  then writeToFile level timestamp message l1
  else l1.

End Logger.

(** ** Object *)

Module Object.

Inductive Type_ : Type := STAR | PLANET | ASTEROID | GAS_CLOUD | DEBRIS | TEST_MASS.

Record t : Type := mk {
  m_position : vec3;
  m_velocity : vec3;
  m_acceleration : vec3;
  m_mass : R;
  m_radius : R;
  m_color : vec4;
  m_name : string;
  m_type : Type_;
  m_active : bool;
  m_forceSum : vec3;
  m_positionHistory : list vec3;
  m_maxHistorySize : nat
}.

(** The constructor: zero acceleration and force, active, a history that
    starts with the initial position and is capped at 100 entries. *)
Definition new (position velocity : vec3) (mass radius : R) (color : vec4)
    (name : string) (type : Type_) : t :=
  mk position velocity (vec3_splat 0) mass radius color name type true
     (vec3_splat 0) [position] 100.

(** Field assignments. *)
Definition setPosition (p : vec3) (o : t) : t :=
  mk p (m_velocity o) (m_acceleration o) (m_mass o) (m_radius o) (m_color o)
     (m_name o) (m_type o) (m_active o) (m_forceSum o) (m_positionHistory o)
     (m_maxHistorySize o).
Definition setVelocity (v : vec3) (o : t) : t :=
  mk (m_position o) v (m_acceleration o) (m_mass o) (m_radius o) (m_color o)
     (m_name o) (m_type o) (m_active o) (m_forceSum o) (m_positionHistory o)
     (m_maxHistorySize o).
Definition setAcceleration (a : vec3) (o : t) : t :=
  mk (m_position o) (m_velocity o) a (m_mass o) (m_radius o) (m_color o)
     (m_name o) (m_type o) (m_active o) (m_forceSum o) (m_positionHistory o)
     (m_maxHistorySize o).
Definition setActive (b : bool) (o : t) : t :=
  mk (m_position o) (m_velocity o) (m_acceleration o) (m_mass o) (m_radius o)
     (m_color o) (m_name o) (m_type o) b (m_forceSum o) (m_positionHistory o)
     (m_maxHistorySize o).
Definition setForceSum (f : vec3) (o : t) : t :=
  mk (m_position o) (m_velocity o) (m_acceleration o) (m_mass o) (m_radius o)
     (m_color o) (m_name o) (m_type o) (m_active o) f (m_positionHistory o)
     (m_maxHistorySize o).
Definition setPositionHistory (h : list vec3) (o : t) : t :=
  mk (m_position o) (m_velocity o) (m_acceleration o) (m_mass o) (m_radius o)
     (m_color o) (m_name o) (m_type o) (m_active o) (m_forceSum o) h
     (m_maxHistorySize o).

Definition applyForce (force : vec3) (o : t) : t :=
  setForceSum (vadd (m_forceSum o) force) o.

Definition resetForces (o : t) : t := setForceSum (vec3_splat 0) o.

(** [push_back], then the oldest entry is erased once the cap is passed. *)
Definition updateHistory (o : t) : t :=
  let h := m_positionHistory o ++ [m_position o] in
  if (m_maxHistorySize o <? length h)%nat
  then setPositionHistory (tail h) o
  else setPositionHistory h o.

Definition updatePhysics (deltaTime : R) (o : t) : t :=
  if negb (m_active o) || Rleb deltaTime 0 then o else
  let o1 :=
    if Rgtb (m_mass o) 0
    then setAcceleration (vdiv (m_forceSum o) (m_mass o)) o
    else setAcceleration (vec3_splat 0) o in
  let o2 := setVelocity (vadd (m_velocity o1) (vscale (m_acceleration o1) deltaTime)) o1 in
  let o3 := setPosition (vadd (m_position o2) (vscale (m_velocity o2) deltaTime)) o2 in
  resetForces (updateHistory o3).

Definition getDistanceTo (o other : t) : R :=
  length3 (vsub (m_position other) (m_position o)).

Definition isCollidingWith (o other : t) : bool :=
  if negb (m_active o) || negb (m_active other) then false else
  let distance := getDistanceTo o other in
  let combinedRadii := m_radius o + m_radius other in
  Rleb distance combinedRadii.

Definition getKineticEnergy (o : t) : R :=
  if Rleb (m_mass o) 0.0 then 0.0 else
  let speedSquared := dot (m_velocity o) (m_velocity o) in
  0.5 * m_mass o * speedSquared.

(** The radius is the distance of the object from the origin. *)
Definition getOrbitalVelocity (o : t) (centralMass : R) : R :=
  let G := 6.67430e-11 in
  let radius := length3 (m_position o) in
  if Rleb radius 0.0 || Rleb centralMass 0.0 then 0.0 else
  sqrt (G * centralMass / radius).

Definition setCircularOrbit (centralMass : R) (centralPosition : vec3) (o : t) : t :=
  let displacement := vsub (m_position o) centralPosition in
  let radius := length3 displacement in
  if Rleb radius 0.0 || Rleb centralMass 0.0 then setVelocity (vec3_splat 0.0) o else
  let orbitalSpeed := getOrbitalVelocity o centralMass in
  let radialDirection := normalize displacement in
  let upVector := mkVec3 0.0 1.0 0.0 in
  let upVector :=
    if Rgtb (Rabs (dot radialDirection upVector)) 0.99
    then mkVec3 1.0 0.0 0.0 else upVector in
  let orbitalDirection := normalize (cross radialDirection upVector) in
  setVelocity (vscale orbitalDirection orbitalSpeed) o.

(** [std::vector] arguments are lists; an index is read only after the size
    has been checked.  The type is the default of the constructor. *)
Definition fromConfig (position velocity : list R) (mass radius : R)
    (color : list R) (name : string) : t :=
  let pos :=
    if (3 <=? length position)%nat
    then mkVec3 (nth 0 position 0) (nth 1 position 0) (nth 2 position 0)
    else vec3_splat 0.0 in
  let vel :=
    if (3 <=? length velocity)%nat
    then mkVec3 (nth 0 velocity 0) (nth 1 velocity 0) (nth 2 velocity 0)
    else vec3_splat 0.0 in
  let col :=
    if (4 <=? length color)%nat
    then mkVec4 (nth 0 color 0) (nth 1 color 0) (nth 2 color 0) (nth 3 color 0)
    else if (3 <=? length color)%nat
    then mkVec4 (nth 0 color 0) (nth 1 color 0) (nth 2 color 0) 1.0
    else mkVec4 1.0 1.0 1.0 1.0 in
  new pos vel mass radius col name PLANET.

End Object.

(** ** BlackHole *)

Module BlackHole.

(** Physical constants of [BlackHole.h]. *)
Definition G : R := 6.67430e-11.
Definition c : R := 299792458.0.

Record t : Type := mk {
  m_position : vec3;
  m_mass : R;
  m_schwarzschildRadius : R;
  m_name : string
}.

Definition updateSchwarzschildRadius (b : t) : t :=
  mk (m_position b) (m_mass b) ((2.0 * G * m_mass b) / (c * c)) (m_name b).

Definition new (position : vec3) (mass : R) (name : string) : t :=
  updateSchwarzschildRadius (mk position mass 0.0 name).

Definition setMass (mass : R) (b : t) : t :=
  updateSchwarzschildRadius (mk (m_position b) mass (m_schwarzschildRadius b) (m_name b)).

Definition isInsideEventHorizon (b : t) (point : vec3) : bool :=
  let distance := length3 (vsub point (m_position b)) in
  Rleb distance (m_schwarzschildRadius b).

Definition getGravitationalAcceleration (b : t) (point : vec3) : vec3 :=
  let r_vec := vsub point (m_position b) in
  let r := length3 r_vec in
  if Rltb r (m_schwarzschildRadius b * 0.1) then vec3_splat 0 else
  let acceleration_magnitude := G * m_mass b / (r * r) in
  let direction := vneg (normalize r_vec) in
  vscale direction acceleration_magnitude.

(** The properties of the next two functions turn on the rounding of
    [double] arithmetic, so they take it as an argument: every arithmetic
    operation of the source is the exact operation followed by [rnd], the
    rounding of a real number to a [double].  Comparisons and the literals
    0.0 and 1.0 are exact. *)
Definition getMetricCoefficient (rnd : R -> R) (b : t) (radius : R) : R :=
  if Rleb radius (m_schwarzschildRadius b) then 0.0
  else rnd (1.0 - rnd (m_schwarzschildRadius b / radius)).

Definition getTimeDilationFactor (rnd : R -> R) (b : t) (radius : R) : R :=
  let g_tt := getMetricCoefficient rnd b radius in
  if Rleb g_tt 0.0 then 0.0 else rnd (sqrt g_tt).

Definition hbar : R := 1.054571817e-34.
Definition k_B : R := 1.380649e-23.
(** [M_PI] of [<cmath>] *)
Definition M_PI : R := PI.

Definition getPhotonSphereRadius (b : t) : R := m_schwarzschildRadius b * 1.5.
Definition getISCORadius (b : t) : R := m_schwarzschildRadius b * 3.0.

Definition isInsidePhotonSphere (b : t) (point : vec3) : bool :=
  let distance := length3 (vsub point (m_position b)) in
  Rleb distance (getPhotonSphereRadius b).



Definition getHawkingTemperature (b : t) : R :=
  (hbar * c * c * c) / (8.0 * M_PI * G * m_mass b * k_B).

Definition getBekensteinHawkingEntropy (b : t) : R :=
  let area := 4.0 * M_PI * m_schwarzschildRadius b * m_schwarzschildRadius b in
  (k_B * c * c * c * area) / (4.0 * hbar * G).

End BlackHole.

(** ** Config *)

Module Config.
(** The queries the physics system makes: a key and the default returned
    when the key is absent or of the wrong type. *)
Record t : Type := mk {
  getDoubleArray : string -> list R -> list R;
  getDouble : string -> R -> R;
  getFloat : string -> R -> R;
  getBool : string -> bool -> bool;
  getString : string -> string -> string
}.
End Config.

(** ** Loops *)

(** [for (size_t k = i; k < i + count; ++k) s = body k s;] *)
Fixpoint for_loop {A : Type} (count i : nat) (body : nat -> A -> A) (s : A) : A :=
  match count with
  | O => s
  | S count' => for_loop count' (S i) body (body i s)
  end.

(** ** GLFW *)

Module GLFW.
(** The values of [GLFW/glfw3.h]. *)
Definition GLFW_PRESS : Z := 1.
Definition GLFW_KEY_SPACE : Z := 32.
Definition GLFW_KEY_1 : Z := 49.
Definition GLFW_KEY_2 : Z := 50.
Definition GLFW_KEY_3 : Z := 51.
Definition GLFW_KEY_G : Z := 71.
End GLFW.


(** ** Physics *)

Module Physics.

Inductive IntegrationMethod : Type := EULER | LEAPFROG | RK4.

Record t : Type := mk {
  m_config : Config.t;
  m_objects : list Object.t;
  m_blackHole : BlackHole.t;
  m_gravityEnabled : bool;
  m_integrationMethod : IntegrationMethod;
  m_timeStep : R;
  m_G : R;
  m_simulationTime : R;
  m_stepCount : Z
}.

Definition setObjects (objs : list Object.t) (p : t) : t :=
  mk (m_config p) objs (m_blackHole p) (m_gravityEnabled p) (m_integrationMethod p)
     (m_timeStep p) (m_G p) (m_simulationTime p) (m_stepCount p).
Definition setGravityEnabled (enabled : bool) (p : t) : t :=
  mk (m_config p) (m_objects p) (m_blackHole p) enabled (m_integrationMethod p)
     (m_timeStep p) (m_G p) (m_simulationTime p) (m_stepCount p).
Definition toggleGravity (p : t) : t := setGravityEnabled (negb (m_gravityEnabled p)) p.
Definition setIntegrationMethod (method : IntegrationMethod) (p : t) : t :=
  mk (m_config p) (m_objects p) (m_blackHole p) (m_gravityEnabled p) method
     (m_timeStep p) (m_G p) (m_simulationTime p) (m_stepCount p).
Definition setSimulationTime (time : R) (p : t) : t :=
  mk (m_config p) (m_objects p) (m_blackHole p) (m_gravityEnabled p) (m_integrationMethod p)
     (m_timeStep p) (m_G p) time (m_stepCount p).
Definition setStepCount (n : Z) (p : t) : t :=
  mk (m_config p) (m_objects p) (m_blackHole p) (m_gravityEnabled p) (m_integrationMethod p)
     (m_timeStep p) (m_G p) (m_simulationTime p) n.

(** [size_t] arithmetic *)
Definition size_t_incr (n : Z) : Z := ((n + 1) mod 2 ^ 64)%Z.

(** *** addObject *)

(** The new state and the one message handed to the logger. *)
Definition addObject (object : Object.t) (p : t) : t * Logger.entry :=
  if (16 <=? length (m_objects p))%nat then
    (p, (Logger.WARNING, "Cannot add object: maximum limit of 16 objects reached"%string))
  else
    (setObjects (m_objects p ++ [object]) p,
     (Logger.INFO,
      ("Object '" +:+ Object.m_name object +:+ "' added to physics simulation")%string)).

Definition removeObject (index : nat) (p : t) : t :=
  if (length (m_objects p) <=? index)%nat then p
  else setObjects (delete index (m_objects p)) p.

Definition clearObjects (p : t) : t := setObjects [] p.

(** *** resetSimulation *)

Definition resetSimulation (p : t) : t :=
  let p1 := setSimulationTime 0.0 p in
  let p2 := setStepCount 0 p1 in
  setObjects
    (map (fun object => Object.resetForces (Object.setVelocity (vec3_splat 0) object))
         (m_objects p2))
    p2.

(** *** The constructor *)

Definition parseIntegrationMethod (methodStr : string) : IntegrationMethod :=
  if String.eqb methodStr "euler" then EULER
  else if String.eqb methodStr "leapfrog" then LEAPFROG
  else RK4.

Definition initializeObjects (p : t) : t :=
  match m_objects p with
  | [] =>
      let star1 :=
        Object.new (mkVec3 4e11 0.0 0.0) (mkVec3 0.0 0.0 0.0) 1.98892e30 4e10
                   (mkVec4 1.0 1.0 0.0 1.0) "Test Star 1" Object.STAR in
      let planet1 :=
        Object.new (mkVec3 0.0 0.0 4e11) (mkVec3 0.0 0.0 0.0) 5.972e24 4e10
                   (mkVec4 1.0 0.0 0.0 1.0) "Test Planet 1" Object.PLANET in
      fst (addObject planet1 (fst (addObject star1 p)))
  | _ :: _ => p
  end.

(** Only writes to the log. *)
Definition loadObjectsFromConfig (p : t) : t := p.

(** [v[i]] of a [std::vector<double>]; the index is in range at every use
    with the default array. *)
Definition at_ (v : list R) (i : nat) : R := nth i v 0.

Definition new (config : Config.t) : t :=
  let blackHole :=
    BlackHole.new
      (mkVec3 (at_ (Config.getDoubleArray config "blackHole.position" [0.0; 0.0; 0.0]) 0)
              (at_ (Config.getDoubleArray config "blackHole.position" [0.0; 0.0; 0.0]) 1)
              (at_ (Config.getDoubleArray config "blackHole.position" [0.0; 0.0; 0.0]) 2))
      (Config.getDouble config "blackHole.mass" 8.54e36)
      (Config.getString config "blackHole.name" "Sagittarius A*") in
  let p0 :=
    mk config [] blackHole
       (Config.getBool config "physics.enableGravity" false)
       RK4
       (Config.getFloat config "physics.timeStep" 0.016666)
       (Config.getDouble config "physics.gravityConstant" 6.67430e-11)
       0.0 0 in
  let methodStr := Config.getString config "physics.integrationMethod" "rk4" in
  let p1 := setIntegrationMethod (parseIntegrationMethod methodStr) p0 in
  loadObjectsFromConfig (initializeObjects p1).

(** *** Force accumulation *)

(** The body of the inner loop of [calculateGravitationalForces]. *)
Definition gravitationalForcesBody (G : R) (i j : nat) (objs : list Object.t)
    : list Object.t :=
  match objs !! i, objs !! j with
  | Some obj1, Some obj2 =>
      if negb (Object.m_active obj2) then objs else
      let displacement := vsub (Object.m_position obj2) (Object.m_position obj1) in
      let distance := length3 displacement in
      if Rgtb distance 0.0 then
        let forceMagnitude :=
          G * Object.m_mass obj1 * Object.m_mass obj2 / (distance * distance) in
        let forceDirection := normalize displacement in
        let force := vscale forceDirection forceMagnitude in
        <[j := Object.applyForce (vneg force) obj2]>
          (<[i := Object.applyForce force obj1]> objs)
      else objs
  | _, _ => objs
  end.

Definition calculateGravitationalForces (p : t) : t :=
  setObjects
    (for_loop (length (m_objects p)) 0
       (fun i objs =>
          match objs !! i with
          | Some obj1 =>
              if negb (Object.m_active obj1) then objs else
              for_loop (length objs - S i) (S i) (gravitationalForcesBody (m_G p) i) objs
          | None => objs
          end)
       (m_objects p))
    p.

Definition applyBlackHoleGravity (p : t) : t :=
  let blackHolePos := BlackHole.m_position (m_blackHole p) in
  let blackHoleMass := BlackHole.m_mass (m_blackHole p) in
  setObjects
    (map (fun object =>
            if negb (Object.m_active object) then object else
            let displacement := vsub blackHolePos (Object.m_position object) in
            let distance := length3 displacement in
            let minDistance := BlackHole.m_schwarzschildRadius (m_blackHole p) * 0.1 in
            if Rgtb distance minDistance then
              let forceMagnitude :=
                m_G p * blackHoleMass * Object.m_mass object / (distance * distance) in
              let forceDirection := normalize displacement in
              let force := vscale forceDirection forceMagnitude in
              Object.applyForce force object
            else object)
         (m_objects p))
    p.

(** *** Integration: the three methods do nothing of their own *)

Definition integrateEuler (deltaTime : R) (p : t) : t := p.
Definition integrateLeapfrog (deltaTime : R) (p : t) : t := integrateEuler deltaTime p.
Definition integrateRK4 (deltaTime : R) (p : t) : t := integrateEuler deltaTime p.

Definition integrateMotion (deltaTime : R) (p : t) : t :=
  match m_integrationMethod p with
  | EULER => integrateEuler deltaTime p
  | LEAPFROG => integrateLeapfrog deltaTime p
  | RK4 => integrateRK4 deltaTime p
  end.

(** *** Collisions *)

(** The body of the inner loop of [handleCollisions]. *)
Definition handleCollisionsBody (i j : nat) (objs : list Object.t) : list Object.t :=
  match objs !! i, objs !! j with
  | Some obj1, Some obj2 =>
      if negb (Object.m_active obj2) then objs else
      if Object.isCollidingWith obj1 obj2 then
        if Rgeb (Object.m_mass obj1) (Object.m_mass obj2)
        then <[j := Object.setActive false obj2]> objs
        else <[i := Object.setActive false obj1]> objs
      else objs
  | _, _ => objs
  end.

Definition handleCollisions (p : t) : t :=
  setObjects
    (for_loop (length (m_objects p)) 0
       (fun i objs =>
          match objs !! i with
          | Some obj1 =>
              if negb (Object.m_active obj1) then objs else
              for_loop (length objs - S i) (S i) (handleCollisionsBody i) objs
          | None => objs
          end)
       (m_objects p))
    p.

(** *** Removal *)

(** The iterator loop: [erase] drops the entry and goes on with the next. *)
Fixpoint removeSwallowedLoop (blackHole : BlackHole.t) (objs : list Object.t)
    : list Object.t :=
  match objs with
  | [] => []
  | it :: rest =>
      if Object.m_active it
         && BlackHole.isInsideEventHorizon blackHole (Object.m_position it)
      then removeSwallowedLoop blackHole rest
      else if negb (Object.m_active it)
      then removeSwallowedLoop blackHole rest
      else it :: removeSwallowedLoop blackHole rest
  end.

Definition removeSwallowedObjects (p : t) : t :=
  setObjects (removeSwallowedLoop (m_blackHole p) (m_objects p)) p.

(** *** update *)

(** The line written to the log every 3600 steps is left out. *)
Definition update (deltaTime : R) (p : t) : t :=
  if Rleb deltaTime 0.0 then p else
  let p1 := setSimulationTime (m_simulationTime p + deltaTime) p in
  let p2 := setStepCount (size_t_incr (m_stepCount p1)) p1 in
  let p3 :=
    if m_gravityEnabled p2 then
      removeSwallowedObjects
        (handleCollisions
           (integrateMotion deltaTime
              (applyBlackHoleGravity (calculateGravitationalForces p2))))
    else p2 in
  setObjects (map (Object.updatePhysics deltaTime) (m_objects p3)) p3.

(** *** Keyboard *)

Definition processKeyboard (key action mods : Z) (p : t) : t :=
  if (action =? GLFW.GLFW_PRESS)%Z then
    if (key =? GLFW.GLFW_KEY_G)%Z then toggleGravity p
    else if (key =? GLFW.GLFW_KEY_1)%Z then setIntegrationMethod EULER p
    else if (key =? GLFW.GLFW_KEY_2)%Z then setIntegrationMethod LEAPFROG p
    else if (key =? GLFW.GLFW_KEY_3)%Z then setIntegrationMethod RK4 p
    else if (key =? GLFW.GLFW_KEY_SPACE)%Z then resetSimulation p
    else p
  else p.

(** *** Energy *)

Definition getKineticEnergy (p : t) : R :=
  foldl (fun totalKE object =>
           if Object.m_active object
           then totalKE + Object.getKineticEnergy object
           else totalKE)
        0.0 (m_objects p).

(** The body of the inner loop of [getPotentialEnergy]. *)
Definition potentialEnergyBody (G : R) (objs : list Object.t) (obj1 : Object.t)
    (j : nat) (totalPE : R) : R :=
  match objs !! j with
  | Some obj2 =>
      if negb (Object.m_active obj2) then totalPE else
      let distance := Object.getDistanceTo obj1 obj2 in
      if Rgtb distance 0.0
      then totalPE - G * Object.m_mass obj1 * Object.m_mass obj2 / distance
      else totalPE
  | None => totalPE
  end.

Definition getPotentialEnergy (p : t) : R :=
  for_loop (length (m_objects p)) 0
    (fun i totalPE =>
       match m_objects p !! i with
       | Some obj1 =>
           if negb (Object.m_active obj1) then totalPE else
           let distance :=
             length3 (vsub (Object.m_position obj1) (BlackHole.m_position (m_blackHole p))) in
           let totalPE :=
             if Rgtb distance 0.0
             then totalPE - m_G p * BlackHole.m_mass (m_blackHole p) * Object.m_mass obj1 / distance
             else totalPE in
           for_loop (length (m_objects p) - S i) (S i)
             (potentialEnergyBody (m_G p) (m_objects p) obj1) totalPE
       | None => totalPE
       end)
    0.0.

Definition getTotalEnergy (p : t) : R := getKineticEnergy p + getPotentialEnergy p.

(** *** calculateAcceleration *)


Definition integrationMethodToString (method : IntegrationMethod) : string :=
  match method with
  | EULER => "Euler"
  | LEAPFROG => "Leapfrog"
  | RK4 => "Runge-Kutta 4"
  end.

End Physics.

(** ** JSON documents and the configuration kept in one *)

Module Json.

(** The values of [nlohmann::json] that the configuration tells apart.  The
    members of an object are kept as a list of keys and values that is read
    by its first entry for a key and written in place. *)
#[local] Unset Elimination Schemes.
Inductive t : Type :=
  | null
  | boolean (b : bool)
  | number_integer (n : Z)
  | number_float (x : R)
  | string_ (s : string)
  | array (items : list t)
  | object (members : list (string * t)).
#[local] Set Elimination Schemes.

Definition is_object (j : t) : bool :=
  match j with object _ => true | _ => false end.

(** [j.contains(key)] and [j[key]] read the same entry. *)
Fixpoint find (key : string) (members : list (string * t)) : option t :=
  match members with
  | [] => None
  | (k, v) :: rest => if String.eqb k key then Some v else find key rest
  end.

(** [j[key] = value] *)
Fixpoint assign (key : string) (value : t) (members : list (string * t))
    : list (string * t) :=
  match members with
  | [] => [(key, value)]
  | (k, v) :: rest =>
      if String.eqb k key then (k, value) :: rest
      else (k, v) :: assign key value rest
  end.

(** The members of an object; none for any other value, which
    [setNestedValue] replaces by an empty object before it writes. *)
Definition members_or_empty (j : t) : list (string * t) :=
  match j with object members => members | _ => [] end.

End Json.

Module JsonConfig.

Record t : Type := mk {
  m_json : Json.t;
  m_filename : string
}.

(** [Config::Config()] *)
Definition new : t := mk (Json.object []) "".

Definition clear (c : t) : t := mk (Json.object []) "".

(** The parts that the calls of [std::getline(ss, part, '.')] return until
    the stream fails: a call succeeds when it has read a delimiter or at
    least one character.  [part] holds what the running call has read. *)
Fixpoint getline_parts (s : string) (part : string) : list string :=
  match s with
  | EmptyString => if String.eqb part "" then [] else [part]
  | String ch rest =>
      if Ascii.eqb ch "."
      then part :: getline_parts rest ""
      else getline_parts rest (part +:+ String ch EmptyString)
  end.

Definition splitKey (key : string) : list string :=
  let parts := List.filter (fun part => negb (String.eqb part "")) (getline_parts key "") in
  match parts with
  | [] => [key]
  | _ :: _ => parts
  end.

(** The loop of [getNestedValue] from the value [current] on. *)
Fixpoint getNestedValue_from (keyParts : list string) (current : Json.t) : option Json.t :=
  match keyParts with
  | [] => Some current
  | part :: rest =>
      match current with
      | Json.object members =>
          match Json.find part members with
          | Some child => getNestedValue_from rest child
          | None => None
          end
      | _ => None
      end
  end.

Definition getNestedValue (c : t) (key : string) : option Json.t :=
  getNestedValue_from (splitKey key) (m_json c).

(** [setNestedValue] from the value [current] on: the parts before the last
    are entered, an object being put where there is none, and the last part
    is assigned.  [splitKey] returns at least one part. *)
Fixpoint setNestedValue_from (keyParts : list string) (value : Json.t) (current : Json.t)
    : Json.t :=
  match keyParts with
  | [] => current
  | [part] => Json.object (Json.assign part value (Json.members_or_empty current))
  | part :: rest =>
      let members := Json.members_or_empty current in
      let child :=
        match Json.find part members with
        | Some child => child
        | None => Json.object []
        end in
      Json.object (Json.assign part (setNestedValue_from rest value child) members)
  end.

Definition setNestedValue (key : string) (value : Json.t) (c : t) : t :=
  mk (setNestedValue_from (splitKey key) value (m_json c)) (m_filename c).

(** [get<int>()] of an integer: the conversion to a 32-bit [int]. *)
Definition to_int (n : Z) : Z := ((n + 2 ^ 31) mod 2 ^ 32 - 2 ^ 31)%Z.

Definition getString (c : t) (key : string) (defaultValue : string) : string :=
  match getNestedValue c key with
  | Some (Json.string_ s) => s
  | _ => defaultValue
  end.

Definition getInt (c : t) (key : string) (defaultValue : Z) : Z :=
  match getNestedValue c key with
  | Some (Json.number_integer n) => to_int n
  | _ => defaultValue
  end.

(** [is_number()] holds of integers and of floating-point numbers. *)
Definition as_number (j : Json.t) : option R :=
  match j with
  | Json.number_integer n => Some (IZR n)
  | Json.number_float x => Some x
  | _ => None
  end.

Definition getFloat (c : t) (key : string) (defaultValue : R) : R :=
  match getNestedValue c key with
  | Some value => match as_number value with Some x => x | None => defaultValue end
  | None => defaultValue
  end.

Definition getDouble (c : t) (key : string) (defaultValue : R) : R :=
  match getNestedValue c key with
  | Some value => match as_number value with Some x => x | None => defaultValue end
  | None => defaultValue
  end.

Definition getBool (c : t) (key : string) (defaultValue : bool) : bool :=
  match getNestedValue c key with
  | Some (Json.boolean b) => b
  | _ => defaultValue
  end.

(** The items that are numbers, in order; the others are passed over. *)
Definition getDoubleArray (c : t) (key : string) (defaultValue : list R) : list R :=
  match getNestedValue c key with
  | Some (Json.array items) => omap as_number items
  | _ => defaultValue
  end.

Definition getFloatArray (c : t) (key : string) (defaultValue : list R) : list R :=
  match getNestedValue c key with
  | Some (Json.array items) => omap as_number items
  | _ => defaultValue
  end.

Definition getIntArray (c : t) (key : string) (defaultValue : list Z) : list Z :=
  match getNestedValue c key with
  | Some (Json.array items) =>
      omap (fun item => match item with
                        | Json.number_integer n => Some (to_int n)
                        | _ => None
                        end) items
  | _ => defaultValue
  end.

Definition setString (key : string) (value : string) (c : t) : t :=
  setNestedValue key (Json.string_ value) c.
Definition setInt (key : string) (value : Z) (c : t) : t :=
  setNestedValue key (Json.number_integer value) c.
Definition setFloat (key : string) (value : R) (c : t) : t :=
  setNestedValue key (Json.number_float value) c.
Definition setBool (key : string) (value : bool) (c : t) : t :=
  setNestedValue key (Json.boolean value) c.

Definition hasKey (c : t) (key : string) : bool :=
  match getNestedValue c key with Some _ => true | None => false end.

(** The queries as the physics system makes them. *)
Definition queries (c : t) : Config.t :=
  Config.mk (getDoubleArray c) (getDouble c) (getFloat c) (getBool c) (getString c).

End JsonConfig.


(** ** A default configuration and small states for the examples *)

Definition defaultConfig : Config.t :=
  Config.mk (fun _ d => d) (fun _ d => d) (fun _ d => d) (fun _ d => d) (fun _ d => d).

Definition configWithMethod (methodStr : string) : Config.t :=
  Config.mk (fun _ d => d) (fun _ d => d) (fun _ d => d) (fun _ d => d)
            (fun key d => if String.eqb key "physics.integrationMethod" then methodStr else d).

Definition testBody (position velocity : vec3) (mass radius : R) (name : string) : Object.t :=
  Object.new position velocity mass radius (mkVec4 1 1 1 1) name Object.PLANET.

(** ** The selector as the specification words it *)

Definition lower_ascii (ch : ascii) : ascii :=
  let n := nat_of_ascii ch in
  if (65 <=? n)%nat && (n <=? 90)%nat then ascii_of_nat (n + 32) else ch.

Fixpoint lower (s : string) : string :=
  match s with
  | EmptyString => EmptyString
  | String ch s' => String (lower_ascii ch) (lower s')
  end.

(** The names of the specification, compared without regard to case. *)
Definition spec_selectIntegrationMethod (selector : string) : Physics.IntegrationMethod :=
  if String.eqb (lower selector) "first-order" then Physics.EULER
  else if String.eqb (lower selector) "leapfrog" then Physics.LEAPFROG
  else Physics.RK4.

(** The black hole of the default configuration. *)
Definition sagittarius : BlackHole.t :=
  BlackHole.new (mkVec3 0 0 0) 8.54e36 "Sagittarius A*".

(** ** Vocabulary of the properties *)


(** [o'] is [o], or [o] with the activity flag cleared. *)
Definition deactivation (o o' : Object.t) : Prop :=
  o' = o \/ o' = Object.setActive false o.

(** [o'] is [o] up to the accumulated force. *)
Definition force_change (o o' : Object.t) : Prop :=
  o' = Object.setForceSum (Object.m_forceSum o') o.


(** ** The pairwise forces, pair by pair *)

(** The force that the pair of [obj1] and [obj2], in this order, puts on
    [obj1]; [obj2] receives its negation.  There is none when one of the two
    is inactive or when their separation is not positive. *)
Definition pairForce (G : R) (obj1 obj2 : Object.t) : option vec3 :=
  if Object.m_active obj1 && Object.m_active obj2 then
    let displacement := vsub (Object.m_position obj2) (Object.m_position obj1) in
    let distance := length3 displacement in
    if Rgtb distance 0 then
      Some (vscale (normalize displacement)
              (G * Object.m_mass obj1 * Object.m_mass obj2 / (distance * distance)))
    else None
  else None.

(** The pairs [(i, j)] with [i < j < n], in the order in which the two loops
    visit them. *)
Definition pairs_of_row (n i : nat) : list (nat * nat) :=
  (fun j => (i, j)) <$> seq (S i) (n - S i).
Definition all_pairs (n : nat) : list (nat * nat) :=
  seq 0 n ≫= pairs_of_row n.

(** What the pair [ij] adds to the accumulated force of body [k]. *)
Definition pairContribution (G : R) (objs : list Object.t) (k : nat)
    (ij : nat * nat) : option vec3 :=
  match objs !! ij.1, objs !! ij.2 with
  | Some obj1, Some obj2 =>
      match pairForce G obj1 obj2 with
      | Some force =>
          if decide (k = ij.1) then Some force
          else if decide (k = ij.2) then Some (vneg force)
          else None
      | None => None
      end
  | _, _ => None
  end.

(** The accumulated force of [o], body [k] of [objs], after the pairs of
    [pairs] have added theirs one after the other. *)
Definition received (G : R) (objs : list Object.t) (k : nat)
    (pairs : list (nat * nat)) (o : Object.t) : vec3 :=
  foldl vadd (Object.m_forceSum o) (omap (pairContribution G objs k) pairs).

(** [s] is [objs] after the pairs of [pairs] have acted. *)
Definition forces_after (G : R) (objs : list Object.t) (pairs : list (nat * nat))
    (s : list Object.t) : Prop :=
  length s = length objs /\
  forall (k : nat) (o : Object.t),
    objs !! k = Some o ->
    s !! k = Some (Object.setForceSum (received G objs k pairs o) o).

(** ** Following bodies through steps *)

(** [l'] holds, in order, the states under [R] of some of the bodies of [l];
    the other bodies of [l] are gone. *)
Definition survivors (R : Object.t -> Object.t -> Prop) (l l' : list Object.t) : Prop :=
  exists kept : list Object.t, kept `sublist_of` l /\ Forall2 R kept l'.

(** [o'] is a later state of the body [o] whose velocity is that of [o] if
    the body has no mass. *)
Definition massless_keeps_velocity (o o' : Object.t) : Prop :=
  Object.m_name o' = Object.m_name o /\
  Object.m_mass o' = Object.m_mass o /\
  (Object.m_mass o = 0 -> Object.m_velocity o' = Object.m_velocity o).

(** What is done to an [Object] between its construction and its removal. *)
Inductive ObjectCall : Type :=
  | CallApplyForce (force : vec3)
  | CallResetForces
  | CallUpdatePhysics (deltaTime : R)
  | CallSetActive (active : bool).

Definition object_call (call : ObjectCall) (o : Object.t) : Object.t :=
  match call with
  | CallApplyForce force => Object.applyForce force o
  | CallResetForces => Object.resetForces o
  | CallUpdatePhysics deltaTime => Object.updatePhysics deltaTime o
  | CallSetActive active => Object.setActive active o
  end.

(** What happens to the simulation between two resets: steps, and the keys
    that toggle gravity and select the integration method. *)
Inductive Event : Type :=
  | Step (deltaTime : R)
  | ToggleGravity
  | SelectMethod (method : Physics.IntegrationMethod).

Definition run_event (p : Physics.t) (e : Event) : Physics.t :=
  match e with
  | Step deltaTime => Physics.update deltaTime p
  | ToggleGravity => Physics.toggleGravity p
  | SelectMethod method => Physics.setIntegrationMethod method p
  end.

Definition run (events : list Event) (p : Physics.t) : Physics.t :=
  foldl run_event p events.

(** ** Calls of the public interface of [Physics] *)

Inductive Operation : Type :=
  | OpAddObject (object : Object.t)
  | OpRemoveObject (index : nat)
  | OpClearObjects
  | OpSetGravityEnabled (enabled : bool)
  | OpToggleGravity
  | OpSetIntegrationMethod (method : Physics.IntegrationMethod)
  | OpResetSimulation
  | OpProcessKeyboard (key action mods : Z)
  | OpUpdate (deltaTime : R).

Definition apply_operation (p : Physics.t) (op : Operation) : Physics.t :=
  match op with
  | OpAddObject object => fst (Physics.addObject object p)
  | OpRemoveObject index => Physics.removeObject index p
  | OpClearObjects => Physics.clearObjects p
  | OpSetGravityEnabled enabled => Physics.setGravityEnabled enabled p
  | OpToggleGravity => Physics.toggleGravity p
  | OpSetIntegrationMethod method => Physics.setIntegrationMethod method p
  | OpResetSimulation => Physics.resetSimulation p
  | OpProcessKeyboard key action mods => Physics.processKeyboard key action mods p
  | OpUpdate deltaTime => Physics.update deltaTime p
  end.

(** The two bodies agree on what the potential energy and the accelerations
    read: position, mass and activity. *)
Definition same_placement (o o' : Object.t) : Prop :=
  Object.m_position o' = Object.m_position o /\
  Object.m_mass o' = Object.m_mass o /\
  Object.m_active o' = Object.m_active o.




(** ** Vocabulary for configuration keys *)

(** The string holds the delimiter of the keys. *)
Fixpoint has_dot (s : string) : bool :=
  match s with
  | EmptyString => false
  | String ch rest => Ascii.eqb ch "." || has_dot rest
  end.

(** The two lists of key parts part ways at some point: after a common
    beginning each goes on with a part of its own. *)
Definition keys_diverge (parts parts' : list string) : Prop :=
  exists (common : list string) (a b : string) (rest rest' : list string),
    parts = common ++ a :: rest /\ parts' = common ++ b :: rest' /\ a <> b.

(** The text of a log line without colour: time, level and message. *)
Definition logLine (level : Logger.Level) (timestamp message : string) : string :=
  "[" +:+ timestamp +:+ "] " +:+ Logger.levelToString level +:+ ": " +:+ message.

(** A run of steps, one for each time delta of the list. *)
Definition steps (deltas : list R) (p : Physics.t) : Physics.t :=
  foldl (fun p deltaTime => Physics.update deltaTime p) p deltas.


(** ** Floating-point numbers, bit for bit *)

(** The formats binary32 ([float]) and binary64 ([double]) of IEEE 754 with
    rounding to nearest, ties to even, as [SpecFloat] defines them: signed
    zeros, infinities and NaN are values, and every operation rounds,
    overflows and underflows as the hardware does.  This is the arithmetic
    that the C++ code runs on; the functions below are evaluated in it where
    a property turns on rounding or overflow. *)
Module IEEE.

Definition float : Type := spec_float.
Definition double : Type := spec_float.

(** Operations on [float] *)
Module F.
Definition of_Z (m : Z) : float := binary_normalize 24 128 m 0 false.
Definition add : float -> float -> float := SFadd 24 128.
Definition sub : float -> float -> float := SFsub 24 128.
Definition mul : float -> float -> float := SFmul 24 128.
Definition div : float -> float -> float := SFdiv 24 128.
Definition sqrt : float -> float := SFsqrt 24 128.
Definition neg : float -> float := SFopp.
End F.

(** Operations on [double] *)
Module D.
Definition of_Z (m : Z) : double := binary_normalize 53 1024 m 0 false.
Definition add : double -> double -> double := SFadd 53 1024.
Definition sub : double -> double -> double := SFsub 53 1024.
Definition mul : double -> double -> double := SFmul 53 1024.
Definition div : double -> double -> double := SFdiv 53 1024.
Definition sqrt : double -> double := SFsqrt 53 1024.
(** The next [double] above. *)
Definition succ : double -> double := SFsucc 53 1024.
(** The literal [m]e[k] for an integer [m]: for [k >= 0] the integer
    [m * 10^k], rounded once; for [k < 0] the quotient of [m] by [10^-k],
    which is rounded once when both are [double]s, that is, when
    [|m| < 2^53] and [-k <= 22]. *)
Definition of_decimal (m k : Z) : double :=
  if (0 <=? k)%Z then of_Z (m * 10 ^ k) else div (of_Z m) (of_Z (10 ^ (- k))).
End D.

(** [static_cast<double>] of a [float], which is exact, and
    [static_cast<float>] of a [double], which rounds. *)
Definition to_double (x : float) : double :=
  match x with
  | S754_finite s m e => binary_normalize 53 1024 (cond_Zopp s (Z.pos m)) e s
  | _ => x
  end.
Definition to_float (x : double) : float :=
  match x with
  | S754_finite s m e => binary_normalize 24 128 (cond_Zopp s (Z.pos m)) e s
  | _ => x
  end.

(** The real number that a finite floating-point number stands for. *)
Definition value (x : spec_float) : R :=
  match x with
  | S754_finite s m e =>
      if (0 <=? e)%Z then IZR (cond_Zopp s (Z.pos m) * 2 ^ e)
      else IZR (cond_Zopp s (Z.pos m)) / IZR (2 ^ (- e))
  | _ => 0
  end.

(** [glm::vec3] and the operations of GLM used by [BlackHole]. *)
Record vec3 : Type := mkVec3 { vx : float; vy : float; vz : float }.

Definition vec3_splat (s : float) : vec3 := mkVec3 s s s.
Definition vsub (a b : vec3) : vec3 :=
  mkVec3 (F.sub (vx a) (vx b)) (F.sub (vy a) (vy b)) (F.sub (vz a) (vz b)).
Definition vneg (a : vec3) : vec3 := mkVec3 (F.neg (vx a)) (F.neg (vy a)) (F.neg (vz a)).
Definition vscale (a : vec3) (s : float) : vec3 :=
  mkVec3 (F.mul (vx a) s) (F.mul (vy a) s) (F.mul (vz a) s).
Definition dot (a b : vec3) : float :=
  F.add (F.add (F.mul (vx a) (vx b)) (F.mul (vy a) (vy b))) (F.mul (vz a) (vz b)).
Definition length3 (a : vec3) : float := F.sqrt (dot a a).
Definition inversesqrt (x : float) : float := F.div (F.of_Z 1) (F.sqrt x).
Definition normalize (a : vec3) : vec3 := vscale a (inversesqrt (dot a a)).

Module BlackHole.

Definition G : double := D.of_decimal 667430 (-16).
Definition c : double := D.of_Z 299792458.

Record t : Type := mk {
  m_position : vec3;
  m_mass : double;
  m_schwarzschildRadius : double;
  m_name : string
}.

Definition updateSchwarzschildRadius (b : t) : t :=
  mk (m_position b) (m_mass b)
     (D.div (D.mul (D.mul (D.of_Z 2) G) (m_mass b)) (D.mul c c))
     (m_name b).

Definition new (position : vec3) (mass : double) (name : string) : t :=
  updateSchwarzschildRadius (mk position mass (D.of_Z 0) name).

Definition getGravitationalAcceleration (b : t) (point : vec3) : vec3 :=
  let r_vec := vsub point (m_position b) in
  let r := to_double (length3 r_vec) in
  if SFltb r (D.mul (m_schwarzschildRadius b) (D.of_decimal 1 (-1)))
  then vec3_splat (F.of_Z 0) else
  let acceleration_magnitude := D.div (D.mul G (m_mass b)) (D.mul r r) in
  let direction := vneg (normalize r_vec) in
  vscale direction (to_float acceleration_magnitude).

Definition getMetricCoefficient (b : t) (radius : double) : double :=
  if SFleb radius (m_schwarzschildRadius b) then D.of_Z 0
  else D.sub (D.of_Z 1) (D.div (m_schwarzschildRadius b) radius).

End BlackHole.

(** The black hole of the default configuration, at the origin. *)
Definition sagittarius : BlackHole.t :=
  BlackHole.new (vec3_splat (F.of_Z 0)) (D.of_decimal 854 34) "Sagittarius A*".

End IEEE.


(** ** Vocabulary for rounding and for the range of [float] *)

(** What the properties use of rounding to nearest, the rounding of every
    operation on [double] whose result does not overflow: it is monotone,
    and its result is no farther from the exact value than any number of the
    format is, in particular than 0 and 1 are. *)
Definition nearest (rnd : R -> R) : Prop :=
  (forall x y : R, x <= y -> rnd x <= rnd y) /\
  (forall x : R, Rabs (rnd x - x) <= Rabs x) /\
  (forall x : R, Rabs (rnd x - x) <= Rabs (1 - x)).

(** Rounding to the nearest multiple of [2^-53], ties upwards: the spacing
    of the [double]s just below 1. *)
Definition grid (x : R) : R := IZR (Int_part (x * IZR (2 ^ 53) + / 2)) / IZR (2 ^ 53).

(** A positive quantity that a [float] holds without overflow and without
    underflow: the normal numbers of binary32 lie between 1.18e-38 and
    3.40e38. *)
Definition float_range (x : R) : Prop := 1e-37 <= x <= 1e38.

(** The array configured for the position of the black hole has the three
    entries that the constructor reads with [operator[]]. *)
Definition position_configured (config : Config.t) : Prop :=
  le 3 (length (Config.getDoubleArray config "blackHole.position" [0.0; 0.0; 0.0])).


(** ** Collisions, pair by pair *)


(** Three bodies of radius 0.5 on a line: [bodyA], of mass 3, at 2;
    [bodyB], of mass 1, at 0; [bodyC], of mass 2, at 1 between them.
    [bodyC] touches both others, which do not touch each other. *)
Definition bodyA : Object.t := testBody (mkVec3 2 0 0) (mkVec3 0 0 0) 3 0.5 "A".



(** The position [position'] lies, in each coordinate, on the side of
    [position] to which [velocity] points, or on [position] itself. *)
Definition moved_along (velocity position position' : vec3) : Prop :=
  (0 <= vx velocity -> vx position <= vx position') /\
  (vx velocity <= 0 -> vx position' <= vx position) /\
  (0 <= vy velocity -> vy position <= vy position') /\
  (vy velocity <= 0 -> vy position' <= vy position) /\
  (0 <= vz velocity -> vz position <= vz position') /\
  (vz velocity <= 0 -> vz position' <= vz position).





(** * Properties *)

(** ** Comparisons *)

Lemma Rleb_le (x y : R) : Rleb x y = true <-> x <= y.
Proof. unfold Rleb. destruct (Rle_dec x y); split; intros; try done; lra. Qed.

Lemma Rleb_gt (x y : R) : Rleb x y = false <-> y < x.
Proof. unfold Rleb. destruct (Rle_dec x y); split; intros; try done; lra. Qed.

Lemma Rltb_lt (x y : R) : Rltb x y = true <-> x < y.
Proof. unfold Rltb. destruct (Rlt_dec x y); split; intros; try done; lra. Qed.

Lemma Rltb_ge (x y : R) : Rltb x y = false <-> y <= x.
Proof. unfold Rltb. destruct (Rlt_dec x y); split; intros; try done; lra. Qed.

(** ** Vectors *)

Ltac vec_unfold :=
  unfold vadd, vsub, vneg, vscale, vdiv, vzero, vec3_splat, dot in *;
  cbn [vx vy vz] in *.

Lemma vec3_eq (a b : vec3) :
  vx a = vx b -> vy a = vy b -> vz a = vz b -> a = b.
Proof. destruct a, b. cbn. by intros -> -> ->. Qed.

(** Settles the comparisons between numerals that stand in the goal. *)
Ltac decide_cmp :=
  unfold Rgeb, Rgtb in *;
  repeat match goal with
  | |- context [Rleb ?x ?y] =>
      first [ replace (Rleb x y) with true by (symmetry; apply Rleb_le; lra)
            | replace (Rleb x y) with false by (symmetry; apply Rleb_gt; lra) ]
  | |- context [Rltb ?x ?y] =>
      first [ replace (Rltb x y) with true by (symmetry; apply Rltb_lt; lra)
            | replace (Rltb x y) with false by (symmetry; apply Rltb_ge; lra) ]
  end.

(** ** Time deltas that are not positive *)

Lemma updatePhysics_nonpositive (deltaTime : R) (o : Object.t) :
  deltaTime <= 0 -> Object.updatePhysics deltaTime o = o.
Proof.
  intros Hdt. unfold Object.updatePhysics.
  apply Rleb_le in Hdt. rewrite Hdt, orb_true_r. reflexivity.
Qed.

(** C6: a step with a time delta that is zero or negative returns the
    simulation as it was: bodies (position, velocity, forces and the rest),
    black hole, elapsed time and step count; and the per-body advance with
    such a delta returns the body as it was. *)
Theorem update_nonpositive_noop (deltaTime : R) (p : Physics.t) :
  deltaTime <= 0 ->
  Physics.update deltaTime p = p /\
  (forall o : Object.t, Object.updatePhysics deltaTime o = o).
Proof.
  intros Hdt. split.
  - unfold Physics.update.
    replace (Rleb deltaTime 0.0) with true; [reflexivity|].
    symmetry. apply Rleb_le. lra.
  - intros o. by apply updatePhysics_nonpositive.
Qed.

Lemma update_nonpositive_noop_witness :
  let p := Physics.setGravityEnabled true (Physics.new defaultConfig) in
  -1 <= 0 /\
  Physics.update (-1) p = p /\
  (forall o : Object.t, Object.updatePhysics (-1) o = o).
Proof.
  intros p. split; [lra|]. apply (update_nonpositive_noop (-1) p). lra.
Defined.

(** ** Capacity *)

(** C5: adding a body to a collection of 16 entries returns the simulation
    unchanged, still with 16 entries, and reports the rejection as a warning
    to the logger; the call returns normally. *)
Theorem addObject_full_rejected (object : Object.t) (p : Physics.t) :
  length (Physics.m_objects p) = 16%nat ->
  Physics.addObject object p =
    (p, (Logger.WARNING, "Cannot add object: maximum limit of 16 objects reached"%string)) /\
  length (Physics.m_objects (fst (Physics.addObject object p))) = 16%nat.
Proof.
  intros Hlen. unfold Physics.addObject. rewrite Hlen. simpl. done.
Qed.

Lemma addObject_full_rejected_witness :
  let o := testBody (mkVec3 1 2 3) (mkVec3 0 0 0) 5 1 "body" in
  let p := Physics.setObjects (replicate 16 o) (Physics.new defaultConfig) in
  length (Physics.m_objects p) = 16%nat /\
  Physics.addObject o p =
    (p, (Logger.WARNING, "Cannot add object: maximum limit of 16 objects reached"%string)) /\
  length (Physics.m_objects (fst (Physics.addObject o p))) = 16%nat.
Proof.
  intros o p. split; [reflexivity|]. apply (addObject_full_rejected o p). reflexivity.
Defined.

(** Below the capacity the body is appended. *)
Lemma addObject_accepted (object : Object.t) (p : Physics.t) :
  (length (Physics.m_objects p) < 16)%nat ->
  Physics.m_objects (fst (Physics.addObject object p)) = Physics.m_objects p ++ [object].
Proof.
  intros Hlen. unfold Physics.addObject.
  destruct (Nat.leb_spec 16 (length (Physics.m_objects p))); [lia|]. reflexivity.
Qed.

(** ** The integration method chosen at construction *)

Lemma addObject_integrationMethod (object : Object.t) (p : Physics.t) :
  Physics.m_integrationMethod (fst (Physics.addObject object p)) =
  Physics.m_integrationMethod p.
Proof. unfold Physics.addObject. by destruct (16 <=? _)%nat. Qed.

Lemma new_integrationMethod (config : Config.t) :
  Physics.m_integrationMethod (Physics.new config) =
  Physics.parseIntegrationMethod
    (Config.getString config "physics.integrationMethod" "rk4").
Proof.
  unfold Physics.new, Physics.loadObjectsFromConfig, Physics.initializeObjects.
  cbn [Physics.m_objects Physics.setIntegrationMethod].
  by rewrite !addObject_integrationMethod.
Qed.

(** C2, as stated, fails: the selector "LEAPFROG" is the name leapfrog up to
    case, and the constructor selects RK4 for it. *)
Lemma selector_case_counterexample :
  spec_selectIntegrationMethod "LEAPFROG" = Physics.LEAPFROG /\
  Physics.m_integrationMethod (Physics.new (configWithMethod "LEAPFROG")) = Physics.RK4 /\
  Physics.m_integrationMethod (Physics.new (configWithMethod "LEAPFROG"))
    <> spec_selectIntegrationMethod "LEAPFROG".
Proof.
  rewrite new_integrationMethod. cbn. repeat split; done.
Qed.

(** C2, amended: the selector is compared exactly, case included, with the
    two names "euler" and "leapfrog"; every other string, "rk4" and the
    absent key among them, selects RK4. *)
Theorem new_integrationMethod_exact (config : Config.t) :
  let selector := Config.getString config "physics.integrationMethod" "rk4" in
  let method := Physics.m_integrationMethod (Physics.new config) in
  (method = Physics.EULER <-> selector = "euler"%string) /\
  (method = Physics.LEAPFROG <-> selector = "leapfrog"%string) /\
  (method = Physics.RK4 <-> selector <> "euler"%string /\ selector <> "leapfrog"%string).
Proof.
  intros selector method. subst method. rewrite new_integrationMethod.
  fold selector. unfold Physics.parseIntegrationMethod.
  destruct (String.eqb_spec selector "euler") as [He|He];
    [|destruct (String.eqb_spec selector "leapfrog") as [Hl|Hl]].
  - rewrite He. repeat split; try done. intros [? _]; done.
  - rewrite Hl. repeat split; try done. intros [_ ?]; done.
  - repeat split; try done.
Qed.

(** The selectors of the configuration, evaluated. *)
Example selectors_evaluated :
  Physics.m_integrationMethod (Physics.new (configWithMethod "euler")) = Physics.EULER /\
  Physics.m_integrationMethod (Physics.new (configWithMethod "leapfrog")) = Physics.LEAPFROG /\
  Physics.m_integrationMethod (Physics.new (configWithMethod "rk4")) = Physics.RK4 /\
  Physics.m_integrationMethod (Physics.new (configWithMethod "Euler")) = Physics.RK4 /\
  Physics.m_integrationMethod (Physics.new (configWithMethod "first-order")) = Physics.RK4 /\
  Physics.m_integrationMethod (Physics.new defaultConfig) = Physics.RK4.
Proof. rewrite !new_integrationMethod. cbn. done. Qed.

(** ** Reset *)

(** C10: a reset zeroes the velocity and the accumulated force of every body
    and the two counters; the collection keeps its entries in place, each
    with its current position (no initial position is restored), mass,
    radius, activity flag and every other attribute, and the black hole and
    the settings of the simulation stay as they were. *)
Theorem resetSimulation_effect (p : Physics.t) :
  let p' := Physics.resetSimulation p in
  Physics.m_simulationTime p' = 0 /\
  Physics.m_stepCount p' = 0%Z /\
  Physics.m_blackHole p' = Physics.m_blackHole p /\
  Physics.m_gravityEnabled p' = Physics.m_gravityEnabled p /\
  Physics.m_integrationMethod p' = Physics.m_integrationMethod p /\
  Physics.m_timeStep p' = Physics.m_timeStep p /\
  Physics.m_G p' = Physics.m_G p /\
  length (Physics.m_objects p') = length (Physics.m_objects p) /\
  forall (i : nat) (o : Object.t),
    Physics.m_objects p !! i = Some o ->
    exists o' : Object.t,
      Physics.m_objects p' !! i = Some o' /\
      Object.m_velocity o' = mkVec3 0 0 0 /\
      Object.m_forceSum o' = mkVec3 0 0 0 /\
      Object.m_position o' = Object.m_position o /\
      Object.m_mass o' = Object.m_mass o /\
      Object.m_radius o' = Object.m_radius o /\
      Object.m_active o' = Object.m_active o /\
      Object.m_name o' = Object.m_name o /\
      Object.m_type o' = Object.m_type o /\
      Object.m_color o' = Object.m_color o /\
      Object.m_acceleration o' = Object.m_acceleration o /\
      Object.m_positionHistory o' = Object.m_positionHistory o /\
      Object.m_maxHistorySize o' = Object.m_maxHistorySize o.
Proof.
  intros p'. subst p'. unfold Physics.resetSimulation.
  cbn [Physics.m_simulationTime Physics.m_stepCount Physics.m_blackHole
       Physics.m_gravityEnabled Physics.m_integrationMethod Physics.m_timeStep
       Physics.m_G Physics.m_objects Physics.setObjects Physics.setStepCount
       Physics.setSimulationTime].
  repeat split; try reflexivity.
  - lra.
  - by rewrite length_map.
  - intros i o Hi.
    exists (Object.resetForces (Object.setVelocity (vec3_splat 0) o)).
    rewrite list_lookup_fmap, Hi. repeat split.
Qed.

(** After a step has moved a body, a reset leaves it where the step put it. *)
Example reset_keeps_moved_position :
  let o := testBody (mkVec3 0 0 0) (mkVec3 1 0 0) 1 1 "probe" in
  let p := Physics.setObjects [o] (Physics.new defaultConfig) in
  let p' := Physics.resetSimulation (Physics.update 1 p) in
  Object.m_position <$> Physics.m_objects p' = [mkVec3 1 0 0] /\
  Object.m_velocity <$> Physics.m_objects p' = [mkVec3 0 0 0].
Proof.
  cbn -[Rleb Rgtb]. unfold Physics.update. cbn -[Rleb Rgtb]. decide_cmp.
  cbn -[Rleb Rgtb]. unfold Object.updatePhysics. cbn -[Rleb Rgtb]. decide_cmp.
  cbn. vec_unfold. cbn. split; repeat f_equal; lra.
Qed.

(** ** Lengths of vectors *)

Lemma dot_self_nonneg (a : vec3) : 0 <= dot a a.
Proof. unfold dot. nra. Qed.

Lemma length3_nonneg (a : vec3) : 0 <= length3 a.
Proof. apply sqrt_pos. Qed.

Lemma length3_vscale (a : vec3) (s : R) : length3 (vscale a s) = Rabs s * length3 a.
Proof.
  unfold length3.
  replace (dot (vscale a s) (vscale a s)) with (Rsqr s * dot a a)
    by (vec_unfold; unfold Rsqr; ring).
  rewrite sqrt_mult_alt by apply Rle_0_sqr.
  by rewrite sqrt_Rsqr_abs.
Qed.

Lemma length3_vneg (a : vec3) : length3 (vneg a) = length3 a.
Proof. unfold length3. f_equal. vec_unfold. ring. Qed.

Lemma length3_normalize (a : vec3) : 0 < length3 a -> length3 (normalize a) = 1.
Proof.
  intros Hpos. unfold normalize, inversesqrt. rewrite length3_vscale.
  fold (length3 a). rewrite Rabs_pos_eq.
  - field. lra.
  - apply Rlt_le. apply Rdiv_lt_0_compat; lra.
Qed.

(** ** The black hole *)

Lemma G_pos : 0 < BlackHole.G.
Proof. unfold BlackHole.G. lra. Qed.

Lemma c_pos : 0 < BlackHole.c.
Proof. unfold BlackHole.c. lra. Qed.

(** The constructor and [setMass] leave the radius at [2 G m / c^2]. *)
Lemma new_schwarzschildRadius (position : vec3) (mass : R) (name : string) :
  BlackHole.m_schwarzschildRadius (BlackHole.new position mass name) =
  2 * BlackHole.G * mass / (BlackHole.c * BlackHole.c) /\
  BlackHole.m_mass (BlackHole.new position mass name) = mass.
Proof. cbn. split; [f_equal; lra | reflexivity]. Qed.

Lemma setMass_schwarzschildRadius (mass : R) (b : BlackHole.t) :
  BlackHole.m_schwarzschildRadius (BlackHole.setMass mass b) =
  2 * BlackHole.G * mass / (BlackHole.c * BlackHole.c) /\
  BlackHole.m_mass (BlackHole.setMass mass b) = mass.
Proof. cbn. split; [f_equal; lra | reflexivity]. Qed.

Lemma schwarzschildRadius_pos (mass : R) :
  0 < mass -> 0 < 2 * BlackHole.G * mass / (BlackHole.c * BlackHole.c).
Proof.
  intros Hm. pose proof G_pos. pose proof c_pos.
  apply Rdiv_lt_0_compat; nra.
Qed.

(** ** Rounding *)

Lemma Rabs_le_between (a b : R) : Rabs a <= b -> - b <= a <= b.
Proof.
  intros Hab. pose proof (Rle_abs a) as H1. pose proof (Rle_abs (- a)) as H2.
  rewrite Rabs_Ropp in H2. lra.
Qed.

Lemma nearest_0 (rnd : R -> R) : nearest rnd -> rnd 0 = 0.
Proof.
  intros (_ & H0 & _). specialize (H0 0).
  rewrite Rabs_R0 in H0. unfold Rminus in H0. rewrite Ropp_0, Rplus_0_r in H0.
  pose proof (Rabs_pos (rnd 0)) as Hpos.
  destruct (Req_dec (rnd 0) 0) as [|Hne]; [done|].
  pose proof (Rabs_pos_lt _ Hne). lra.
Qed.

Lemma nearest_1 (rnd : R -> R) : nearest rnd -> rnd 1 = 1.
Proof.
  intros (_ & _ & H1). specialize (H1 1).
  replace (1 - 1) with 0 in H1 by ring. rewrite Rabs_R0 in H1.
  destruct (Req_dec (rnd 1 - 1) 0) as [|Hne]; [lra|].
  pose proof (Rabs_pos_lt _ Hne). lra.
Qed.

Lemma nearest_unit (rnd : R -> R) (x : R) :
  nearest rnd -> 0 <= x <= 1 -> 0 <= rnd x <= 1.
Proof.
  intros Hrnd [Hx0 Hx1]. pose proof Hrnd as (Hmono & _).
  split.
  - apply Rle_trans with (rnd 0); [rewrite nearest_0 by done; lra | by apply Hmono].
  - apply Rle_trans with (rnd 1); [by apply Hmono | rewrite nearest_1 by done; lra].
Qed.

Lemma Int_part_le (x y : R) : x <= y -> (Int_part x <= Int_part y)%Z.
Proof.
  intros Hxy.
  destruct (base_Int_part x) as [Hx _]. destruct (base_Int_part y) as [_ Hy].
  apply Z.lt_succ_r. apply lt_IZR. rewrite succ_IZR. lra.
Qed.

(** Rounding to the nearest multiple of [1 / n] errs no more than the
    multiple [m / n] does. *)
Lemma Int_part_nearest (n m : Z) (x : R) :
  0 < IZR n ->
  Rabs (IZR (Int_part (x * IZR n + / 2)) / IZR n - x) <= Rabs (IZR m / IZR n - x).
Proof.
  intros Hn. set (u := x * IZR n). set (k := Int_part (u + / 2)).
  assert (Hscale : forall z : Z, Rabs (IZR z / IZR n - x) = Rabs (IZR z - u) / IZR n).
  { intros z. replace (IZR z / IZR n - x) with ((IZR z - u) / IZR n)
      by (unfold u; field; lra).
    unfold Rdiv. rewrite Rabs_mult, (Rabs_pos_eq (/ IZR n)); [done|].
    left. by apply Rinv_0_lt_compat. }
  rewrite !Hscale. apply Rmult_le_compat_r; [left; by apply Rinv_0_lt_compat|].
  destruct (base_Int_part (u + / 2)) as [Hlo Hhi]. fold k in Hlo, Hhi.
  destruct (Z.lt_trichotomy k m) as [Hkm|[->|Hkm]]; [|lra|].
  - apply Z.le_succ_l, IZR_le in Hkm. rewrite succ_IZR in Hkm.
    apply Rabs_le. split; [|].
    + apply Ropp_le_cancel. rewrite Ropp_involutive.
      apply Rle_trans with (IZR m - u); [|apply Rle_abs]. lra.
    + apply Rle_trans with (IZR m - u); [|apply Rle_abs]. lra.
  - apply Z.le_succ_l, IZR_le in Hkm. rewrite succ_IZR in Hkm.
    apply Rabs_le. split; [|].
    + apply Ropp_le_cancel. rewrite Ropp_involutive.
      rewrite <- (Rabs_Ropp (IZR m - u)).
      apply Rle_trans with (- (IZR m - u)); [|apply Rle_abs]. lra.
    + rewrite <- (Rabs_Ropp (IZR m - u)).
      apply Rle_trans with (- (IZR m - u)); [|apply Rle_abs]. lra.
Qed.

Lemma grid_nearest : nearest grid.
Proof.
  assert (Hn : 0 < IZR (2 ^ 53)) by (apply IZR_lt; reflexivity).
  unfold nearest, grid. split; [|split].
  - intros x y Hxy. apply Rmult_le_compat_r; [left; by apply Rinv_0_lt_compat|].
    apply IZR_le, Int_part_le.
    apply Rplus_le_compat_r, Rmult_le_compat_r; [lra | done].
  - intros x. pose proof (Int_part_nearest (2 ^ 53) 0 x Hn) as H.
    replace (IZR 0 / IZR (2 ^ 53) - x) with (- x) in H by (field; lra).
    by rewrite Rabs_Ropp in H.
  - intros x. pose proof (Int_part_nearest (2 ^ 53) (2 ^ 53) x Hn) as H.
    replace (IZR (2 ^ 53) / IZR (2 ^ 53) - x) with (1 - x) in H by (field; lra).
    done.
Qed.

(** ** The metric coefficient and the time dilation factor *)

Lemma metricCoefficient_inside (rnd : R -> R) (b : BlackHole.t) (r : R) :
  r <= BlackHole.m_schwarzschildRadius b -> BlackHole.getMetricCoefficient rnd b r = 0.
Proof.
  intros Hr. unfold BlackHole.getMetricCoefficient.
  apply Rleb_le in Hr. rewrite Hr. lra.
Qed.

Lemma metricCoefficient_outside (rnd : R -> R) (b : BlackHole.t) (r : R) :
  BlackHole.m_schwarzschildRadius b < r ->
  BlackHole.getMetricCoefficient rnd b r
  = rnd (1 - rnd (BlackHole.m_schwarzschildRadius b / r)).
Proof.
  intros Hr. unfold BlackHole.getMetricCoefficient.
  apply Rleb_gt in Hr. rewrite Hr. do 2 f_equal. lra.
Qed.

Lemma horizon_ratio_unit (r_h r : R) : 0 < r_h -> r_h < r -> 0 < r_h / r < 1.
Proof.
  intros Hpos Hr. split; [apply Rdiv_lt_0_compat; lra|].
  apply (Rmult_lt_reg_r r); [lra|].
  replace (r_h / r * r) with r_h by (field; lra). lra.
Qed.

Lemma metricCoefficient_unit (rnd : R -> R) (b : BlackHole.t) (r : R) :
  nearest rnd ->
  0 < BlackHole.m_schwarzschildRadius b ->
  0 <= BlackHole.getMetricCoefficient rnd b r <= 1.
Proof.
  intros Hrnd Hpos.
  destruct (Rle_lt_dec r (BlackHole.m_schwarzschildRadius b)) as [Hr|Hr].
  - rewrite metricCoefficient_inside by done. lra.
  - rewrite metricCoefficient_outside by done.
    pose proof (horizon_ratio_unit _ _ Hpos Hr) as Hq.
    pose proof (nearest_unit rnd _ Hrnd (conj (Rlt_le _ _ (proj1 Hq)) (Rlt_le _ _ (proj2 Hq)))).
    apply nearest_unit; [done | lra].
Qed.

Lemma metricCoefficient_mono (rnd : R -> R) (b : BlackHole.t) (r1 r2 : R) :
  nearest rnd ->
  0 < BlackHole.m_schwarzschildRadius b ->
  r1 <= r2 ->
  BlackHole.getMetricCoefficient rnd b r1 <= BlackHole.getMetricCoefficient rnd b r2.
Proof.
  intros Hrnd Hpos H12. pose proof Hrnd as (Hmono & _).
  destruct (Rle_lt_dec r1 (BlackHole.m_schwarzschildRadius b)) as [H1|H1].
  - rewrite (metricCoefficient_inside rnd b r1) by done.
    by apply metricCoefficient_unit.
  - rewrite !metricCoefficient_outside by lra.
    apply Hmono. apply Rplus_le_compat_l, Ropp_le_contravar, Hmono.
    unfold Rdiv. apply Rmult_le_compat_l; [lra|].
    apply Rinv_le_contravar; lra.
Qed.

(** Far from the horizon the coefficient is close to 1, rounded or not. *)
Lemma metricCoefficient_near_1 (rnd : R -> R) (b : BlackHole.t) (r : R) :
  nearest rnd ->
  0 < BlackHole.m_schwarzschildRadius b ->
  BlackHole.m_schwarzschildRadius b < r ->
  1 - 4 * (BlackHole.m_schwarzschildRadius b / r) <= BlackHole.getMetricCoefficient rnd b r.
Proof.
  intros Hrnd Hpos Hr. pose proof Hrnd as (_ & Hzero & Hone).
  rewrite metricCoefficient_outside by done.
  pose proof (horizon_ratio_unit _ _ Hpos Hr) as [Hq0 Hq1].
  set (q := BlackHole.m_schwarzschildRadius b / r) in *.
  pose proof (nearest_unit rnd q Hrnd ltac:(lra)) as [Hrq0 Hrq1].
  pose proof (Hzero q) as Hq. rewrite (Rabs_pos_eq q) in Hq by lra.
  apply Rabs_le_between in Hq.
  pose proof (Hone (1 - rnd q)) as Hy.
  replace (1 - (1 - rnd q)) with (rnd q) in Hy by ring.
  rewrite (Rabs_pos_eq (rnd q)) in Hy by done.
  apply Rabs_le_between in Hy. lra.
Qed.

Lemma sagittarius_radius_pos : 0 < BlackHole.m_schwarzschildRadius sagittarius.
Proof.
  unfold sagittarius.
  destruct (new_schwarzschildRadius (mkVec3 0 0 0) 8.54e36 "Sagittarius A*") as [-> _].
  apply schwarzschildRadius_pos. lra.
Qed.


(** C8, as stated, fails.  In [double] arithmetic, for the black hole of
    the default configuration, the coefficient at the radius 3e10, outside
    the horizon, is the same as at the next [double] above it, so it is not
    strictly increasing there; and at the radius 1e27 it is exactly 1, not
    [1 - r_h / r], which is below 1 for the positive horizon radius. *)
Lemma metricCoefficient_double_counterexample :
  let b := IEEE.sagittarius in
  let r_h := IEEE.BlackHole.m_schwarzschildRadius b in
  let r1 := IEEE.D.of_decimal 3 10 in
  let r2 := IEEE.D.succ r1 in
  SFltb (IEEE.D.of_Z 0) r_h = true /\
  SFltb r_h r1 = true /\
  SFltb r1 r2 = true /\
  IEEE.BlackHole.getMetricCoefficient b r1 = IEEE.BlackHole.getMetricCoefficient b r2 /\
  SFltb r_h (IEEE.D.of_decimal 1 27) = true /\
  IEEE.BlackHole.getMetricCoefficient b (IEEE.D.of_decimal 1 27) = IEEE.D.of_Z 1.
Proof. vm_compute. repeat split. Qed.

(** At the radius 3e10 the coefficient computed in [double] differs from
    [1 - r_h / r] by less than 1e-15. *)
Lemma metricCoefficient_evaluated :
  Rabs (IEEE.value (IEEE.BlackHole.getMetricCoefficient IEEE.sagittarius
                      (IEEE.D.of_decimal 3 10))
        - (1 - BlackHole.m_schwarzschildRadius sagittarius / 3e10)) <= 1e-15.
Proof.
  assert (H : IEEE.BlackHole.getMetricCoefficient IEEE.sagittarius (IEEE.D.of_decimal 3 10)
              = S754_finite false 5198990916319642 (-53)) by (vm_compute; reflexivity).
  rewrite H.
  change (IEEE.value (S754_finite false 5198990916319642 (-53)))
    with (IZR 5198990916319642 / IZR 9007199254740992).
  unfold sagittarius.
  destruct (new_schwarzschildRadius (mkVec3 0 0 0) 8.54e36 "Sagittarius A*") as [-> _].
  unfold BlackHole.G, BlackHole.c. apply Rabs_le. lra.
Qed.

(** C8, amended: the metric coefficient is 0 at and inside the horizon
    radius; outside it is [1 - r_h / r] as [double] arithmetic computes it,
    the quotient rounded and then the difference; it lies between 0 and 1,
    both included, is nowhere decreasing and comes as close to 1 as wanted
    for large radii (it is at least [1 - 4 r_h / r]).  The time dilation
    factor is the rounded square root of the coefficient where the
    coefficient is positive and 0 elsewhere.  This holds for every rounding
    to nearest; the horizon radius is positive. *)
Theorem metricCoefficient_properties (rnd : R -> R) (b : BlackHole.t) :
  nearest rnd ->
  0 < BlackHole.m_schwarzschildRadius b ->
  let r_h := BlackHole.m_schwarzschildRadius b in
  let g := BlackHole.getMetricCoefficient rnd b in
  (forall r : R, r <= r_h -> g r = 0) /\
  (forall r : R, r_h < r -> g r = rnd (1 - rnd (r_h / r))) /\
  (forall r1 r2 : R, r_h < r1 -> r1 <= r2 -> g r1 <= g r2) /\
  (forall r : R, r_h < r -> 0 <= g r <= 1) /\
  (forall r : R, r_h < r -> 1 - 4 * (r_h / r) <= g r) /\
  (forall eps : R, 0 < eps -> exists r0 : R, forall r : R, r0 < r -> 1 - eps < g r <= 1) /\
  (forall r : R, 0 < g r -> BlackHole.getTimeDilationFactor rnd b r = rnd (sqrt (g r))) /\
  (forall r : R, g r <= 0 -> BlackHole.getTimeDilationFactor rnd b r = 0).
Proof.
  intros Hrnd Hpos r_h g. change (0 < r_h) in Hpos. subst g.
  split; [intros r Hr; by apply metricCoefficient_inside|].
  split; [intros r Hr; by apply metricCoefficient_outside|].
  split; [intros r1 r2 _ H12; by apply metricCoefficient_mono|].
  split; [intros r _; by apply metricCoefficient_unit|].
  split; [intros r Hr; by apply metricCoefficient_near_1|].
  split; [|split].
  - intros eps Heps. exists (Rmax r_h (4 * r_h / eps)). intros r Hr.
    assert (Hout : r_h < r) by (pose proof (Rmax_l r_h (4 * r_h / eps)); lra).
    assert (Hfar : 4 * r_h / eps < r) by (pose proof (Rmax_r r_h (4 * r_h / eps)); lra).
    split; [|by apply metricCoefficient_unit].
    apply Rlt_le_trans with (1 - 4 * (r_h / r)); [|by apply metricCoefficient_near_1].
    assert (4 * (r_h / r) < eps); [|lra].
    apply (Rmult_lt_reg_r r); [lra|].
    replace (4 * (r_h / r) * r) with (4 * r_h) by (field; lra).
    apply (Rmult_lt_reg_r (/ eps)); [by apply Rinv_0_lt_compat|].
    replace (eps * r * / eps) with r by (field; lra). done.
  - intros r Hr. unfold BlackHole.getTimeDilationFactor.
    replace (Rleb (BlackHole.getMetricCoefficient rnd b r) 0.0) with false; [done|].
    symmetry. apply Rleb_gt. lra.
  - intros r Hr. unfold BlackHole.getTimeDilationFactor.
    replace (Rleb (BlackHole.getMetricCoefficient rnd b r) 0.0) with true; [lra|].
    symmetry. apply Rleb_le. lra.
Qed.

(** With the rounding to the grid of [2^-53] and the black hole of the
    default configuration. *)
Lemma metricCoefficient_properties_witness :
  nearest grid /\
  0 < BlackHole.m_schwarzschildRadius sagittarius /\
  (forall r1 r2 : R,
     BlackHole.m_schwarzschildRadius sagittarius < r1 -> r1 <= r2 ->
     BlackHole.getMetricCoefficient grid sagittarius r1 <=
     BlackHole.getMetricCoefficient grid sagittarius r2).
Proof.
  split; [exact grid_nearest|]. split; [exact sagittarius_radius_pos|].
  exact (proj1 (proj2 (proj2
           (metricCoefficient_properties grid sagittarius grid_nearest
              sagittarius_radius_pos)))).
Defined.

(** ** The acceleration towards the black hole *)



(** Within the range the two arithmetics agree: at the points (4e11, 0, 0)
    and (1e19, 0, 0) the code, evaluated in [float] and [double], returns a
    vector along the first axis, towards the black hole, whose length
    differs from [G m / r^2] by less than one part in a million. *)
Lemma gravitationalAcceleration_evaluated :
  let a1 := IEEE.BlackHole.getGravitationalAcceleration IEEE.sagittarius
              (IEEE.mkVec3 (IEEE.F.of_Z (4 * 10 ^ 11)) (IEEE.F.of_Z 0) (IEEE.F.of_Z 0)) in
  let a2 := IEEE.BlackHole.getGravitationalAcceleration IEEE.sagittarius
              (IEEE.mkVec3 (IEEE.F.of_Z (10 ^ 19)) (IEEE.F.of_Z 0) (IEEE.F.of_Z 0)) in
  let exact1 := BlackHole.G * 8.54e36 / (4e11 * 4e11) in
  let exact2 := BlackHole.G * 8.54e36 / (1e19 * 1e19) in
  IEEE.vy a1 = S754_zero true /\ IEEE.vz a1 = S754_zero true /\
  IEEE.vy a2 = S754_zero true /\ IEEE.vz a2 = S754_zero true /\
  Rabs (- IEEE.value (IEEE.vx a1) - exact1) <= 1e-6 * exact1 /\
  Rabs (- IEEE.value (IEEE.vx a2) - exact2) <= 1e-6 * exact2.
Proof.
  intros a1 a2 exact1 exact2.
  assert (H1 : a1 = IEEE.mkVec3 (S754_finite true 14591622 (-12))
                      (S754_zero true) (S754_zero true)) by (vm_compute; reflexivity).
  assert (H2 : a2 = IEEE.mkVec3 (S754_finite true 13142964 (-61))
                      (S754_zero true) (S754_zero true)) by (vm_compute; reflexivity).
  rewrite H1, H2. cbn [IEEE.vx IEEE.vy IEEE.vz].
  repeat (split; [reflexivity|]).
  change (IEEE.value (S754_finite true 14591622 (-12)))
    with (IZR (- 14591622) / IZR 4096).
  change (IEEE.value (S754_finite true 13142964 (-61)))
    with (IZR (- 13142964) / IZR 2305843009213693952).
  subst exact1 exact2. unfold BlackHole.G.
  split; apply Rabs_le; lra.
Qed.



(** ** Loops and in-place updates *)

Lemma for_loop_ind {A : Type} (P : nat -> A -> Prop) (body : nat -> A -> A)
    (count i : nat) (s : A) :
  P i s ->
  (forall k s', (i <= k < i + count)%nat -> P k s' -> P (S k) (body k s')) ->
  P (i + count)%nat (for_loop count i body s).
Proof.
  revert i s. induction count as [|count IH]; intros i s Hs Hbody; cbn.
  - by rewrite Nat.add_0_r.
  - replace (i + S count)%nat with (S i + count)%nat by lia.
    apply IH.
    + apply Hbody; [lia | done].
    + intros k s' Hk. apply Hbody. lia.
Qed.


Lemma for_loop_preserves {A : Type} (R : relation A) `{!PreOrder R}
    (body : nat -> A -> A) (count i : nat) (s : A) :
  (forall k s', R s' (body k s')) -> R s (for_loop count i body s).
Proof.
  intros Hbody.
  apply (for_loop_ind (fun _ s' => R s s') body count i s); [reflexivity|].
  intros k s' _ Hs'. by transitivity s'.
Qed.

Lemma Forall2_insert_same {A : Type} (R : relation A) `{!Reflexive R}
    (l : list A) (i : nat) (x y : A) :
  l !! i = Some x -> R x y -> Forall2 R l (<[i:=y]> l).
Proof.
  intros Hi Hxy. apply Forall2_same_length_lookup. split.
  - by rewrite length_insert.
  - intros k a b Ha Hb. destruct (decide (i = k)) as [->|Hne].
    + rewrite list_lookup_insert_eq in Hb by (by eapply lookup_lt_Some).
      congruence.
    + rewrite list_lookup_insert_ne in Hb by done.
      replace b with a by congruence. reflexivity.
Qed.

(** ** What the passes may change *)

#[local] Instance deactivation_preorder : PreOrder deactivation.
Proof.
  split.
  - intros o. by left.
  - intros o1 o2 o3 [->| ->] [->| ->]; unfold deactivation; auto.
Qed.

#[local] Instance force_change_preorder : PreOrder force_change.
Proof.
  split.
  - intros o. unfold force_change. by destruct o.
  - intros o1 o2 o3 H12 H23. unfold force_change in *.
    rewrite H23, H12. reflexivity.
Qed.

Lemma deactivation_fields (o o' : Object.t) :
  deactivation o o' ->
  Object.m_position o' = Object.m_position o /\
  Object.m_velocity o' = Object.m_velocity o /\
  Object.m_mass o' = Object.m_mass o /\
  Object.m_radius o' = Object.m_radius o /\
  Object.m_forceSum o' = Object.m_forceSum o /\
  Object.m_name o' = Object.m_name o /\
  (Object.m_active o = false -> Object.m_active o' = false).
Proof. intros [->| ->]; cbn; repeat split; done. Qed.

Lemma force_change_fields (o o' : Object.t) :
  force_change o o' ->
  Object.m_position o' = Object.m_position o /\
  Object.m_velocity o' = Object.m_velocity o /\
  Object.m_mass o' = Object.m_mass o /\
  Object.m_radius o' = Object.m_radius o /\
  Object.m_active o' = Object.m_active o /\
  Object.m_name o' = Object.m_name o.
Proof. intros ->. cbn. repeat split. Qed.

(** ** Collisions *)

Lemma handleCollisionsBody_deactivation (i j : nat) (objs : list Object.t) :
  Forall2 deactivation objs (Physics.handleCollisionsBody i j objs).
Proof.
  unfold Physics.handleCollisionsBody.
  destruct (objs !! i) as [obj1|] eqn:Hi; [|reflexivity].
  destruct (objs !! j) as [obj2|] eqn:Hj; [|reflexivity].
  destruct (negb (Object.m_active obj2)); [reflexivity|].
  destruct (Object.isCollidingWith obj1 obj2); [|reflexivity].
  destruct (Rgeb _ _).
  - eapply Forall2_insert_same; [apply _ | done | by right].
  - eapply Forall2_insert_same; [apply _ | done | by right].
Qed.

Lemma handleCollisions_row_deactivation (i : nat) (objs : list Object.t) :
  Forall2 deactivation objs
    (match objs !! i with
     | Some obj1 =>
         if negb (Object.m_active obj1) then objs else
         for_loop (length objs - S i) (S i) (Physics.handleCollisionsBody i) objs
     | None => objs
     end).
Proof.
  destruct (objs !! i) as [obj1|]; [|reflexivity].
  destruct (negb _); [reflexivity|].
  apply (for_loop_preserves (Forall2 deactivation)).
  intros k s'. apply handleCollisionsBody_deactivation.
Qed.

Lemma handleCollisions_deactivation (p : Physics.t) :
  Forall2 deactivation (Physics.m_objects p)
    (Physics.m_objects (Physics.handleCollisions p)).
Proof.
  unfold Physics.handleCollisions. cbn [Physics.m_objects Physics.setObjects].
  apply (for_loop_preserves (Forall2 deactivation)).
  intros k s'. apply handleCollisions_row_deactivation.
Qed.

Lemma getDistanceTo_sym (a b : Object.t) :
  Object.getDistanceTo a b = Object.getDistanceTo b a.
Proof.
  unfold Object.getDistanceTo. rewrite <- length3_vneg. f_equal.
  apply vec3_eq; vec_unfold; ring.
Qed.









Lemma deactivation_active (o o' : Object.t) :
  deactivation o o' -> Object.m_active o' = true -> o' = o.
Proof. by intros [->| ->]. Qed.



(** *** The pass as a sequence of turns *)












(** ** Pairwise forces *)

Lemma received_snoc (G : R) (objs : list Object.t) (k : nat)
    (pairs : list (nat * nat)) (ij : nat * nat) (o : Object.t) :
  received G objs k (pairs ++ [ij]) o =
  match pairContribution G objs k ij with
  | Some force => vadd (received G objs k pairs o) force
  | None => received G objs k pairs o
  end.
Proof.
  unfold received. rewrite omap_app, foldl_app. cbn.
  by destruct (pairContribution G objs k ij).
Qed.

Lemma received_app_none (G : R) (objs : list Object.t) (k : nat)
    (pairs pairs' : list (nat * nat)) (o : Object.t) :
  (forall ij, ij ∈ pairs' -> pairContribution G objs k ij = None) ->
  received G objs k (pairs ++ pairs') o = received G objs k pairs o.
Proof.
  intros Hnone. unfold received. rewrite omap_app, foldl_app.
  replace (omap (pairContribution G objs k) pairs') with (@nil vec3); [done|].
  symmetry. induction pairs' as [|ij pairs' IH]; [done|]. cbn.
  rewrite Hnone by left. apply IH. intros ij' Hin. apply Hnone. by right.
Qed.

Lemma forces_after_start (G : R) (objs : list Object.t) :
  forces_after G objs [] objs.
Proof.
  split; [done|]. intros k o Hk. rewrite Hk. unfold received. cbn.
  by destruct o.
Qed.

Lemma forces_after_lookup (G : R) (objs s : list Object.t)
    (pairs : list (nat * nat)) (k : nat) (o' : Object.t) :
  forces_after G objs pairs s -> s !! k = Some o' ->
  exists o : Object.t,
    objs !! k = Some o /\ o' = Object.setForceSum (received G objs k pairs o) o.
Proof.
  intros [Hlen Hs] Hk.
  destruct (objs !! k) as [o|] eqn:Ho.
  - exists o. split; [done|]. rewrite (Hs k o Ho) in Hk. congruence.
  - apply lookup_ge_None in Ho. apply lookup_lt_Some in Hk. lia.
Qed.

(** One run of the body of the inner loop is the action of one pair. *)
Lemma gravitationalForcesBody_step (G : R) (objs s : list Object.t)
    (pairs : list (nat * nat)) (i j : nat) :
  i <> j ->
  forces_after G objs pairs s ->
  (forall o : Object.t, objs !! i = Some o -> Object.m_active o = true) ->
  forces_after G objs (pairs ++ [(i, j)]) (Physics.gravitationalForcesBody G i j s).
Proof.
  intros Hne Hafter Hact. pose proof Hafter as [Hlen Hs].
  assert (Hsame : (forall k, pairContribution G objs k (i, j) = None) ->
            forces_after G objs (pairs ++ [(i, j)]) s).
  { intros Hnone. split; [done|]. intros k o Ho.
    rewrite received_snoc, Hnone. by apply Hs. }
  unfold Physics.gravitationalForcesBody.
  destruct (s !! i) as [obj1|] eqn:Hi.
  2:{ apply Hsame. intros k. unfold pairContribution. cbn.
      apply lookup_ge_None in Hi. rewrite Hlen in Hi.
      apply lookup_ge_None in Hi. by rewrite Hi. }
  destruct (s !! j) as [obj2|] eqn:Hj.
  2:{ apply Hsame. intros k. unfold pairContribution. cbn.
      apply lookup_ge_None in Hj. rewrite Hlen in Hj.
      apply lookup_ge_None in Hj. rewrite Hj. by destruct (objs !! i). }
  destruct (forces_after_lookup _ _ _ _ _ _ Hafter Hi) as (oi & Hoi & ->).
  destruct (forces_after_lookup _ _ _ _ _ _ Hafter Hj) as (oj & Hoj & ->).
  cbn [Object.m_active Object.m_position Object.m_mass Object.setForceSum].
  assert (Hcontrib : forall k, pairContribution G objs k (i, j) =
            match pairForce G oi oj with
            | Some force =>
                if decide (k = i) then Some force
                else if decide (k = j) then Some (vneg force) else None
            | None => None
            end).
  { intros k. unfold pairContribution. cbn. by rewrite Hoi, Hoj. }
  unfold pairForce in Hcontrib. rewrite (Hact oi Hoi) in Hcontrib.
  cbn [andb] in Hcontrib.
  destruct (Object.m_active oj); cbn [negb].
  2:{ apply Hsame. intros k. by rewrite Hcontrib. }
  cbn zeta in Hcontrib.
  replace 0.0 with 0 by lra.
  destruct (Rgtb (length3 (vsub (Object.m_position oj) (Object.m_position oi))) 0).
  2:{ apply Hsame. intros k. by rewrite Hcontrib. }
  split; [by rewrite !length_insert|].
  intros k o Ho. rewrite received_snoc, Hcontrib.
  destruct (decide (k = i)) as [->|Hki]; [|destruct (decide (k = j)) as [->|Hkj]].
  - rewrite list_lookup_insert_ne by done.
    rewrite list_lookup_insert_eq by (by eapply lookup_lt_Some).
    by simplify_eq.
  - rewrite list_lookup_insert_eq
      by (rewrite length_insert; by eapply lookup_lt_Some).
    by simplify_eq.
  - rewrite !list_lookup_insert_ne by done. by apply Hs.
Qed.

Lemma pairContribution_inactive_row (G : R) (objs : list Object.t) (n i k : nat)
    (ij : nat * nat) :
  (forall o : Object.t, objs !! i = Some o -> Object.m_active o = false) ->
  ij ∈ pairs_of_row n i -> pairContribution G objs k ij = None.
Proof.
  intros Hinact Hin. unfold pairs_of_row in Hin.
  apply list_elem_of_fmap in Hin as (j & -> & _).
  unfold pairContribution. cbn.
  destruct (objs !! i) as [oi|] eqn:Hoi; [|done].
  destruct (objs !! j) as [oj|]; [|done].
  unfold pairForce. by rewrite (Hinact oi).
Qed.

(** The inner loop for an active [obj1] is the action of the pairs of row
    [i], one after the other. *)
Lemma gravitationalForces_row (G : R) (objs s : list Object.t)
    (pairs : list (nat * nat)) (i : nat) :
  (i < length objs)%nat ->
  forces_after G objs pairs s ->
  (forall o : Object.t, objs !! i = Some o -> Object.m_active o = true) ->
  forces_after G objs (pairs ++ pairs_of_row (length objs) i)
    (for_loop (length s - S i) (S i) (Physics.gravitationalForcesBody G i) s).
Proof.
  intros Hi Hafter Hact. pose proof Hafter as [Hlen _].
  pose (Inv := fun (j : nat) (s' : list Object.t) =>
    forces_after G objs (pairs ++ ((fun j' => (i, j')) <$> seq (S i) (j - S i))) s').
  assert (HInv : Inv (S i + (length s - S i))%nat
            (for_loop (length s - S i) (S i) (Physics.gravitationalForcesBody G i) s)).
  { apply (for_loop_ind Inv).
    - unfold Inv. rewrite Nat.sub_diag. cbn. by rewrite app_nil_r.
    - intros j s' Hj HI. unfold Inv in *.
      replace (S j - S i)%nat with (S (j - S i)) by lia.
      rewrite seq_S, fmap_app, app_assoc. cbn [fmap list_fmap].
      replace (S i + (j - S i))%nat with j by lia.
      apply gravitationalForcesBody_step; [lia|done..]. }
  unfold Inv in HInv. unfold pairs_of_row.
  replace (S i + (length s - S i) - S i)%nat with (length objs - S i)%nat in HInv by lia.
  done.
Qed.

(** The whole pass is the action of all pairs. *)
Lemma calculateGravitationalForces_after (p : Physics.t) :
  forces_after (Physics.m_G p) (Physics.m_objects p)
    (all_pairs (length (Physics.m_objects p)))
    (Physics.m_objects (Physics.calculateGravitationalForces p)).
Proof.
  unfold Physics.calculateGravitationalForces.
  cbn [Physics.m_objects Physics.setObjects].
  set (objs := Physics.m_objects p). set (G := Physics.m_G p).
  pose (Inv := fun (i : nat) (s : list Object.t) =>
    forces_after G objs (seq 0 i ≫= pairs_of_row (length objs)) s).
  change (Inv (0 + length objs)%nat
    (for_loop (length objs) 0
       (fun (i : nat) (objs0 : list Object.t) =>
          match objs0 !! i with
          | Some obj1 =>
              if negb (Object.m_active obj1) then objs0
              else for_loop (length objs0 - S i) (S i)
                     (Physics.gravitationalForcesBody G i) objs0
          | None => objs0
          end) objs)).
  apply (for_loop_ind Inv).
  - apply forces_after_start.
  - intros i s Hi HI. unfold Inv in *.
    rewrite seq_S, bind_app, bind_singleton. cbn [Nat.add].
    pose proof HI as [Hlen Hs].
    destruct (s !! i) as [obj1|] eqn:Hobj1.
    2:{ apply lookup_ge_None in Hobj1. lia. }
    destruct (forces_after_lookup _ _ _ _ _ _ HI Hobj1) as (oi & Hoi & ->).
    cbn [Object.m_active Object.setForceSum].
    destruct (Object.m_active oi) eqn:Hact; cbn [negb].
    + apply gravitationalForces_row; [lia|done|].
      intros o Ho. congruence.
    + split; [done|]. intros k o Ho. rewrite received_app_none; [by apply Hs|].
      intros ij Hin. eapply pairContribution_inactive_row; [|done].
      intros o' Ho'. congruence.
Qed.

Lemma all_pairs_elem (n i j : nat) : (i, j) ∈ all_pairs n <-> (i < j < n)%nat.
Proof.
  unfold all_pairs, pairs_of_row. rewrite list_elem_of_bind. split.
  - intros (i' & Hin & Hi'). apply list_elem_of_fmap in Hin as (j' & Heq & Hj').
    apply elem_of_seq in Hi'. apply elem_of_seq in Hj'. simplify_eq. lia.
  - intros Hij. exists i. split.
    + apply list_elem_of_fmap. exists j. split; [done|]. apply elem_of_seq. lia.
    + apply elem_of_seq. lia.
Qed.

Lemma all_pairs_NoDup (n : nat) : NoDup (all_pairs n).
Proof.
  unfold all_pairs, pairs_of_row. apply NoDup_bind.
  - intros i1 i2 ij _ _ H1 H2.
    apply list_elem_of_fmap in H1 as (j1 & -> & _).
    apply list_elem_of_fmap in H2 as (j2 & Heq & _). by simplify_eq.
  - intros i _. apply NoDup_fmap_2; [|apply NoDup_seq].
    intros j1 j2 Heq. by simplify_eq.
  - apply NoDup_seq.
Qed.

Lemma pairForce_some (G : R) (oi oj : Object.t) :
  Object.m_active oi = true -> Object.m_active oj = true ->
  Object.getDistanceTo oi oj <> 0 ->
  pairForce G oi oj =
  Some (vscale (normalize (vsub (Object.m_position oj) (Object.m_position oi)))
          (G * Object.m_mass oi * Object.m_mass oj /
           (Object.getDistanceTo oi oj * Object.getDistanceTo oi oj))).
Proof.
  intros Hi Hj Hd. unfold pairForce. rewrite Hi, Hj. cbn [andb].
  fold (Object.getDistanceTo oi oj).
  replace (Rgtb (Object.getDistanceTo oi oj) 0) with true; [done|].
  symmetry. apply Rltb_lt.
  pose proof (length3_nonneg (vsub (Object.m_position oj) (Object.m_position oi))).
  unfold Object.getDistanceTo in *. lra.
Qed.

Lemma pairForce_zero_separation (G : R) (oi oj : Object.t) :
  Object.getDistanceTo oi oj = 0 -> pairForce G oi oj = None.
Proof.
  intros Hd. unfold pairForce. fold (Object.getDistanceTo oi oj). rewrite Hd.
  destruct (_ && _); [|done].
  replace (Rgtb 0 0) with false; [done|]. symmetry. apply Rltb_ge. lra.
Qed.

(** C9: one pass of [calculateGravitationalForces] is the action, one after
    the other, of the unordered pairs of bodies, each pair once.  A pair adds
    to the force of its second body the exact negation of what it adds to the
    force of its first body and adds nothing to any other body; two active
    bodies at nonzero separation do exchange the force [G m1 m2 / r^2] along
    the unit separation vector; a pair at zero separation adds nothing to
    either body.  For two bodies that start without force, the forces after
    the pass are negations of each other. *)
Theorem calculateGravitationalForces_third_law (p : Physics.t) :
  let G := Physics.m_G p in
  let objs := Physics.m_objects p in
  let objs' := Physics.m_objects (Physics.calculateGravitationalForces p) in
  let pairs := all_pairs (length objs) in
  forces_after G objs pairs objs' /\
  (forall i j : nat, (i, j) ∈ pairs <-> (i < j < length objs)%nat) /\
  NoDup pairs /\
  (forall (i j : nat) (oi oj : Object.t),
     i <> j -> objs !! i = Some oi -> objs !! j = Some oj ->
     pairContribution G objs j (i, j) = vneg <$> pairContribution G objs i (i, j) /\
     (Object.m_active oi = true -> Object.m_active oj = true ->
      Object.getDistanceTo oi oj <> 0 ->
      pairContribution G objs i (i, j) =
        Some (vscale (normalize (vsub (Object.m_position oj) (Object.m_position oi)))
                (G * Object.m_mass oi * Object.m_mass oj /
                 (Object.getDistanceTo oi oj * Object.getDistanceTo oi oj)))) /\
     (Object.getDistanceTo oi oj = 0 ->
      pairContribution G objs i (i, j) = None /\
      pairContribution G objs j (i, j) = None) /\
     (forall k : nat, k <> i -> k <> j -> pairContribution G objs k (i, j) = None)) /\
  (forall a b a' b' : Object.t,
     objs = [a; b] -> objs' = [a'; b'] ->
     Object.m_forceSum a = mkVec3 0 0 0 -> Object.m_forceSum b = mkVec3 0 0 0 ->
     Object.m_forceSum b' = vneg (Object.m_forceSum a')).
Proof.
  intros G objs objs' pairs.
  assert (Hafter : forces_after G objs pairs objs')
    by apply calculateGravitationalForces_after.
  split; [done|]. split; [apply all_pairs_elem|]. split; [apply all_pairs_NoDup|].
  split.
  - intros i j oi oj Hne Hoi Hoj.
    assert (Hc : forall k, pairContribution G objs k (i, j) =
              match pairForce G oi oj with
              | Some force =>
                  if decide (k = i) then Some force
                  else if decide (k = j) then Some (vneg force) else None
              | None => None
              end).
    { intros k. unfold pairContribution. cbn. by rewrite Hoi, Hoj. }
    repeat split.
    + rewrite !Hc. destruct (pairForce G oi oj); [|done].
      rewrite (decide_False (P := j = i)) by congruence.
      by rewrite !decide_True by done.
    + intros Hai Haj Hd. rewrite Hc, (pairForce_some G oi oj) by done.
      by rewrite decide_True.
    + rewrite Hc. by rewrite pairForce_zero_separation.
    + rewrite Hc. by rewrite pairForce_zero_separation.
    + intros k Hki Hkj. rewrite Hc. destruct (pairForce G oi oj); [|done].
      by rewrite !decide_False by done.
  - intros a b a' b' Hobjs Hobjs' Hfa Hfb.
    destruct Hafter as [_ Hs]. subst pairs. rewrite Hobjs' in Hs.
    pose proof (Hs 0%nat a) as H0. pose proof (Hs 1%nat b) as H1.
    rewrite Hobjs in H0, H1. cbn in H0, H1.
    specialize (H0 eq_refl). specialize (H1 eq_refl). simplify_eq.
    cbn [Object.m_forceSum Object.setForceSum].
    change (all_pairs 2) with [(0, 1)%nat].
    unfold received, pairContribution. cbn. rewrite Hfa, Hfb.
    destruct (pairForce G a b) as [force|]; repeat (case_decide; try done); cbn;
      apply vec3_eq; vec_unfold; ring.
Qed.

(** ** The passes of a step with gravity *)

Lemma forces_after_force_change (G : R) (objs s : list Object.t)
    (pairs : list (nat * nat)) :
  forces_after G objs pairs s -> Forall2 force_change objs s.
Proof.
  intros [Hlen Hs]. apply Forall2_same_length_lookup_2; [done|].
  intros k o o' Ho Ho'. rewrite (Hs k o Ho) in Ho'. by simplify_eq.
Qed.

Lemma calculateGravitationalForces_force_change (p : Physics.t) :
  Forall2 force_change (Physics.m_objects p)
    (Physics.m_objects (Physics.calculateGravitationalForces p)).
Proof.
  eapply forces_after_force_change. apply calculateGravitationalForces_after.
Qed.

Lemma applyBlackHoleGravity_force_change (p : Physics.t) :
  Forall2 force_change (Physics.m_objects p)
    (Physics.m_objects (Physics.applyBlackHoleGravity p)).
Proof.
  unfold Physics.applyBlackHoleGravity. cbn [Physics.m_objects Physics.setObjects].
  apply Forall2_fmap_r, Forall_Forall2_diag, Forall_forall.
  pose proof (@reflexivity _ force_change _) as Hrefl.
  intros o _. unfold compose. cbv beta zeta.
  destruct (negb (Object.m_active o)); [apply Hrefl|].
  match goal with |- context [Rgtb ?x ?y] => destruct (Rgtb x y) end; [|apply Hrefl].
  unfold force_change. by destruct o.
Qed.

Lemma integrateMotion_id (deltaTime : R) (p : Physics.t) :
  Physics.integrateMotion deltaTime p = p.
Proof. unfold Physics.integrateMotion. by destruct (Physics.m_integrationMethod p). Qed.

(** The removal keeps, in order, the entries that are active and outside the
    horizon. *)
Lemma removeSwallowedLoop_kept (blackHole : BlackHole.t) (l k : list Object.t) :
  Forall2 (fun o o3 => exists o2, force_change o o2 /\ deactivation o2 o3) l k ->
  exists kept : list Object.t,
    kept `sublist_of` l /\
    Forall (fun o => Object.m_active o = true /\
                     BlackHole.isInsideEventHorizon blackHole (Object.m_position o) = false)
           kept /\
    Forall2 force_change kept (Physics.removeSwallowedLoop blackHole k).
Proof.
  induction 1 as [|o o3 l k (o2 & Hf & Hd) _ (kept & Hsub & Hall & Hrel)]; cbn.
  - exists []. by repeat split.
  - destruct (Object.m_active o3) eqn:Hact; cbn [andb negb].
    + apply deactivation_active in Hd; [|done]. subst o3.
      destruct (force_change_fields _ _ Hf) as (Hpos & _ & _ & _ & Hact' & _).
      destruct (BlackHole.isInsideEventHorizon blackHole (Object.m_position o2)) eqn:Hin.
      * exists kept. split; [by apply sublist_cons|done].
      * exists (o :: kept). split; [by apply sublist_skip|].
        split; [|by constructor].
        constructor; [|done]. split; congruence.
    + exists kept. split; [by apply sublist_cons|done].
Qed.

(** What a step with gravity does before the bodies advance. *)
Lemma gravity_passes_kept (deltaTime : R) (p : Physics.t) :
  let p3 :=
    Physics.removeSwallowedObjects
      (Physics.handleCollisions
         (Physics.integrateMotion deltaTime
            (Physics.applyBlackHoleGravity (Physics.calculateGravitationalForces p)))) in
  exists kept : list Object.t,
    kept `sublist_of` Physics.m_objects p /\
    Forall (fun o => Object.m_active o = true /\
                     BlackHole.isInsideEventHorizon (Physics.m_blackHole p)
                       (Object.m_position o) = false)
           kept /\
    Forall2 force_change kept (Physics.m_objects p3).
Proof.
  intros p3. subst p3. rewrite integrateMotion_id.
  set (p1 := Physics.applyBlackHoleGravity (Physics.calculateGravitationalForces p)).
  unfold Physics.removeSwallowedObjects. cbn [Physics.m_objects Physics.setObjects].
  change (Physics.m_blackHole (Physics.handleCollisions p1)) with (Physics.m_blackHole p).
  apply removeSwallowedLoop_kept.
  assert (Hforces : Forall2 force_change (Physics.m_objects p) (Physics.m_objects p1)).
  { transitivity (Physics.m_objects (Physics.calculateGravitationalForces p)).
    - apply calculateGravitationalForces_force_change.
    - apply applyBlackHoleGravity_force_change. }
  eapply Forall2_trans; [|exact Hforces|apply (handleCollisions_deactivation p1)].
  intros o o2 o3 Hf Hd. by exists o2.
Qed.

(** ** Removal of swallowed and inactive bodies *)



(** What the advance of an active body by a positive time delta returns. *)
Lemma updatePhysics_active (deltaTime : R) (o : Object.t) :
  0 < deltaTime -> Object.m_active o = true ->
  let a := if Rgtb (Object.m_mass o) 0
           then vdiv (Object.m_forceSum o) (Object.m_mass o) else vec3_splat 0 in
  let v := vadd (Object.m_velocity o) (vscale a deltaTime) in
  let o' := Object.updatePhysics deltaTime o in
  Object.m_acceleration o' = a /\
  Object.m_velocity o' = v /\
  Object.m_position o' = vadd (Object.m_position o) (vscale v deltaTime) /\
  Object.m_forceSum o' = vec3_splat 0 /\
  Object.m_name o' = Object.m_name o /\
  Object.m_mass o' = Object.m_mass o /\
  Object.m_radius o' = Object.m_radius o /\
  Object.m_active o' = true.
Proof.
  intros Hdt Hact a v o'. subst o'. unfold Object.updatePhysics.
  rewrite Hact. replace (Rleb deltaTime 0) with false by (symmetry; apply Rleb_gt; lra).
  cbn [negb orb]. subst v a. unfold Object.updateHistory.
  destruct (Rgtb (Object.m_mass o) 0);
    match goal with |- context [(?n <? ?m)%nat] => destruct (n <? m)%nat end;
    cbn; repeat split; done.
Qed.

Lemma updatePhysics_inactive (deltaTime : R) (o : Object.t) :
  Object.m_active o = false -> Object.updatePhysics deltaTime o = o.
Proof. intros Hact. unfold Object.updatePhysics. by rewrite Hact. Qed.




(** ** Bodies without mass *)

Lemma updatePhysics_massless (deltaTime : R) (o : Object.t) :
  massless_keeps_velocity o (Object.updatePhysics deltaTime o).
Proof.
  destruct (Object.m_active o) eqn:Hact.
  2:{ rewrite updatePhysics_inactive by done. by repeat split. }
  destruct (Rle_dec deltaTime 0) as [Hdt|Hdt].
  { rewrite updatePhysics_nonpositive by done. by repeat split. }
  destruct (updatePhysics_active deltaTime o ltac:(lra) Hact)
    as (_ & Hv & _ & _ & Hname & Hmass & _).
  split; [done|]. split; [done|]. intros Hm. rewrite Hv, Hm.
  replace (Rgtb 0 0) with false by (symmetry; apply Rltb_ge; lra).
  apply vec3_eq; vec_unfold; ring.
Qed.

#[local] Instance massless_keeps_velocity_preorder : PreOrder massless_keeps_velocity.
Proof.
  split.
  - intros o. by repeat split.
  - intros o1 o2 o3 (Hn1 & Hm1 & Hv1) (Hn2 & Hm2 & Hv2). repeat split.
    + congruence.
    + congruence.
    + intros Hm. rewrite Hv2 by congruence. by apply Hv1.
Qed.

Lemma force_change_massless (o o' : Object.t) :
  force_change o o' -> massless_keeps_velocity o o'.
Proof.
  intros Hf. destruct (force_change_fields _ _ Hf) as (_ & Hv & Hm & _ & _ & Hn).
  by repeat split.
Qed.

Lemma Forall2_sublist_pull {A B : Type} (R : A -> B -> Prop) (l : list A) (k k' : list B) :
  Forall2 R l k -> k' `sublist_of` k ->
  exists l' : list A, l' `sublist_of` l /\ Forall2 R l' k'.
Proof.
  intros Hrel. revert k'. induction Hrel as [|x y l k Hxy _ IH]; intros k' Hsub.
  - apply sublist_nil_r in Hsub as ->. by exists [].
  - apply sublist_cons_r in Hsub as [Hsub|(k'' & -> & Hsub)].
    + destruct (IH _ Hsub) as (l' & Hl' & Hrel'). exists l'.
      split; [by apply sublist_cons|done].
    + destruct (IH _ Hsub) as (l' & Hl' & Hrel'). exists (x :: l').
      split; [by apply sublist_skip|by constructor].
Qed.

Lemma survivors_refl (R : relation Object.t) `{!Reflexive R} (l : list Object.t) :
  survivors R l l.
Proof. exists l. split; reflexivity. Qed.

Lemma survivors_trans (R : relation Object.t) `{!Transitive R}
    (l1 l2 l3 : list Object.t) :
  survivors R l1 l2 -> survivors R l2 l3 -> survivors R l1 l3.
Proof.
  intros (kept1 & Hsub1 & Hrel1) (kept2 & Hsub2 & Hrel2).
  destruct (Forall2_sublist_pull R kept1 l2 kept2 Hrel1 Hsub2) as (kept0 & Hsub0 & Hrel0).
  exists kept0. split; [by transitivity kept1|].
  eapply Forall2_trans; [|exact Hrel0|exact Hrel2].
  intros x y z Hxy Hyz. by transitivity y.
Qed.

Lemma update_survivors (deltaTime : R) (p : Physics.t) :
  survivors massless_keeps_velocity (Physics.m_objects p)
    (Physics.m_objects (Physics.update deltaTime p)).
Proof.
  unfold Physics.update. destruct (Rleb deltaTime 0.0).
  { apply survivors_refl, _. }
  set (p2 := Physics.setStepCount _ _).
  change (Physics.m_objects p) with (Physics.m_objects p2).
  destruct (Physics.m_gravityEnabled p2); cbn [Physics.m_objects Physics.setObjects].
  - destruct (gravity_passes_kept deltaTime p2) as (kept & Hsub & _ & Hrel).
    exists kept. split; [done|].
    apply Forall2_fmap_r. eapply Forall2_impl; [done|].
    intros o o3 Hf. unfold compose.
    transitivity o3.
    + by apply force_change_massless.
    + apply updatePhysics_massless.
  - exists (Physics.m_objects p2). split; [done|].
    apply Forall2_fmap_r, Forall_Forall2_diag, Forall_forall.
    intros o _. unfold compose. apply updatePhysics_massless.
Qed.

(** C7: a body of mass zero keeps its velocity, and its mass, under every
    sequence of forces applied to it and of advances by any time delta, its
    acceleration being set to zero; and after every sequence of simulation
    steps, with gravity switched on or off in between, each body in the
    collection is a body of the initial collection, in the same order, that
    has its initial velocity if it has no mass. *)
Theorem massless_velocity_constant :
  (forall (calls : list ObjectCall) (o : Object.t),
     Object.m_mass o = 0 ->
     let o' := foldl (fun o c => object_call c o) o calls in
     Object.m_velocity o' = Object.m_velocity o /\ Object.m_mass o' = 0) /\
  (forall (deltaTime : R) (o : Object.t),
     Object.m_mass o = 0 -> Object.m_active o = true -> 0 < deltaTime ->
     Object.m_acceleration (Object.updatePhysics deltaTime o) = mkVec3 0 0 0) /\
  (forall (events : list Event) (p : Physics.t),
     survivors massless_keeps_velocity
       (Physics.m_objects p) (Physics.m_objects (run events p))).
Proof.
  split; [|split].
  - intros calls. induction calls as [|call calls IH]; intros o Hm; [done|].
    cbn [foldl].
    assert (Hstep : Object.m_velocity (object_call call o) = Object.m_velocity o /\
                    Object.m_mass (object_call call o) = 0).
    { destruct call; cbn [object_call]; try done.
      destruct (updatePhysics_massless deltaTime o) as (_ & Hm' & Hv).
      split; [by apply Hv|congruence]. }
    destruct Hstep as [Hv' Hm']. destruct (IH _ Hm') as [Hv'' Hm''].
    split; [congruence|done].
  - intros deltaTime o Hm Hact Hdt.
    destruct (updatePhysics_active deltaTime o Hdt Hact) as (Ha & _).
    rewrite Ha, Hm.
    by replace (Rgtb 0 0) with false by (symmetry; apply Rltb_ge; lra).
  - intros events. induction events as [|e events IH]; intros p.
    + apply survivors_refl, _.
    + cbn [run foldl]. eapply survivors_trans; [apply _| |apply IH].
      destruct e; cbn [run_event].
      * apply update_survivors.
      * apply survivors_refl, _.
      * apply survivors_refl, _.
Qed.

(** * Further properties of the code *)

(** ** Object: the position history *)

Lemma updateHistory_bounded (o : Object.t) :
  (length (Object.m_positionHistory o) <= Object.m_maxHistorySize o)%nat ->
  (length (Object.m_positionHistory (Object.updateHistory o)) <= Object.m_maxHistorySize o)%nat /\
  Object.m_maxHistorySize (Object.updateHistory o) = Object.m_maxHistorySize o.
Proof.
  intros Hle. unfold Object.updateHistory.
  destruct (Nat.ltb_spec (Object.m_maxHistorySize o)
              (length (Object.m_positionHistory o ++ [Object.m_position o]))) as [Hlt|Hge];
    cbn [Object.setPositionHistory Object.m_positionHistory Object.m_maxHistorySize];
    (split; [|done]).
  - rewrite length_app in Hlt. cbn in Hlt.
    destruct (Object.m_positionHistory o) as [|x h]; cbn in *; [lia|].
    rewrite length_app. cbn. lia.
  - lia.
Qed.

Lemma object_call_history_bounded (call : ObjectCall) (o : Object.t) :
  (length (Object.m_positionHistory o) <= Object.m_maxHistorySize o)%nat ->
  (length (Object.m_positionHistory (object_call call o))
     <= Object.m_maxHistorySize (object_call call o))%nat /\
  Object.m_maxHistorySize (object_call call o) = Object.m_maxHistorySize o.
Proof.
  intros Hle. destruct call; cbn [object_call]; try done.
  unfold Object.updatePhysics.
  destruct (negb (Object.m_active o) || Rleb deltaTime 0); [done|].
  set (o3 := Object.setPosition _ _).
  assert (Hle3 : (length (Object.m_positionHistory o3) <= Object.m_maxHistorySize o3)%nat).
  { subst o3. by destruct (Rgtb (Object.m_mass o) 0). }
  assert (Hmax3 : Object.m_maxHistorySize o3 = Object.m_maxHistorySize o).
  { subst o3. by destruct (Rgtb (Object.m_mass o) 0). }
  destruct (updateHistory_bounded o3 Hle3) as [Hlen Hmax].
  cbn [Object.resetForces Object.setForceSum Object.m_positionHistory
       Object.m_maxHistorySize].
  rewrite Hmax, Hmax3. split; [lia|done].
Qed.

(** X1: the position history of an object made by the constructor never
    holds more than 100 entries, whatever forces are applied to it and
    however often it is advanced, reset or switched. *)
Theorem history_capped (position velocity : vec3) (mass radius : R) (color : vec4)
    (name : string) (type : Object.Type_) (calls : list ObjectCall) :
  let o := Object.new position velocity mass radius color name type in
  let o' := foldl (fun o c => object_call c o) o calls in
  (length (Object.m_positionHistory o') <= 100)%nat /\
  Object.m_maxHistorySize o' = 100%nat.
Proof.
  intros o o'. subst o'.
  assert (Hgen : forall o0 : Object.t,
    (length (Object.m_positionHistory o0) <= Object.m_maxHistorySize o0)%nat ->
    let o' := foldl (fun o c => object_call c o) o0 calls in
    (length (Object.m_positionHistory o') <= Object.m_maxHistorySize o')%nat /\
    Object.m_maxHistorySize o' = Object.m_maxHistorySize o0).
  { induction calls as [|call calls IH]; intros o0 Hle; [done|].
    cbn [foldl].
    destruct (object_call_history_bounded call o0 Hle) as [Hle' Hmax'].
    destruct (IH _ Hle') as [Hle'' Hmax'']. split; [done|congruence]. }
  destruct (Hgen o) as [Hle Hmax]; [cbn; lia|].
  change (Object.m_maxHistorySize o) with 100%nat in Hmax.
  split; [|done]. by rewrite <- Hmax.
Qed.

(** ** Object: the collision test *)

(** X2: the collision test is symmetric in the two bodies, and so is the
    distance; the distance is never negative. *)
Theorem isCollidingWith_sym (a b : Object.t) :
  Object.isCollidingWith a b = Object.isCollidingWith b a /\
  Object.getDistanceTo a b = Object.getDistanceTo b a /\
  0 <= Object.getDistanceTo a b.
Proof.
  split; [|split; [apply getDistanceTo_sym | apply length3_nonneg]].
  unfold Object.isCollidingWith.
  rewrite (orb_comm (negb (Object.m_active b))).
  destruct (negb (Object.m_active a) || negb (Object.m_active b)); [done|].
  by rewrite (getDistanceTo_sym b a), (Rplus_comm (Object.m_radius b)).
Qed.

(** ** Object: kinetic energy *)

Lemma object_kineticEnergy_nonneg (o : Object.t) : 0 <= Object.getKineticEnergy o.
Proof.
  unfold Object.getKineticEnergy.
  destruct (Rleb (Object.m_mass o) 0.0) eqn:Hm; [lra|].
  apply Rleb_gt in Hm. pose proof (dot_self_nonneg (Object.m_velocity o)). nra.
Qed.

Lemma object_kineticEnergy_at_rest (o : Object.t) :
  Object.m_velocity o = mkVec3 0 0 0 -> Object.getKineticEnergy o = 0.
Proof.
  intros Hv. unfold Object.getKineticEnergy. rewrite Hv.
  destruct (Rleb (Object.m_mass o) 0.0); [lra|]. vec_unfold. ring.
Qed.

Lemma physics_kineticEnergy_fold (acc : R) (objs : list Object.t) :
  0 <= acc ->
  0 <= foldl (fun totalKE object =>
                if Object.m_active object
                then totalKE + Object.getKineticEnergy object
                else totalKE) acc objs.
Proof.
  revert acc. induction objs as [|o objs IH]; intros acc Hacc; [done|].
  cbn [foldl]. apply IH. destruct (Object.m_active o); [|done].
  pose proof (object_kineticEnergy_nonneg o). lra.
Qed.

(** X3: the kinetic energy of a body and of the simulation is never
    negative, and a body whose mass is zero or negative has none. *)
Theorem kineticEnergy_nonneg (p : Physics.t) :
  0 <= Physics.getKineticEnergy p /\
  (forall o : Object.t, 0 <= Object.getKineticEnergy o) /\
  (forall o : Object.t, Object.m_mass o <= 0 -> Object.getKineticEnergy o = 0).
Proof.
  split; [|split].
  - unfold Physics.getKineticEnergy. apply physics_kineticEnergy_fold. lra.
  - apply object_kineticEnergy_nonneg.
  - intros o Hm. unfold Object.getKineticEnergy.
    replace (Rleb (Object.m_mass o) 0.0) with true; [lra|].
    symmetry. apply Rleb_le. lra.
Qed.

(** ** Object: circular orbits *)

(** X4: for a positive central mass and a body whose squared distance
    [r^2] from the origin is within the range of [float], the orbital speed
    [v] is positive and satisfies [v^2 r = G M], up to rounding; for a body
    at the origin or a central mass that is not positive it is 0. *)
Theorem getOrbitalVelocity_spec (o : Object.t) (centralMass : R) :
  let r := length3 (Object.m_position o) in
  let v := Object.getOrbitalVelocity o centralMass in
  (float_range (r * r) -> 0 < centralMass ->
   0 < v /\ v * v * r = 6.67430e-11 * centralMass) /\
  (r <= 0 \/ centralMass <= 0 -> v = 0).
Proof.
  intros r v. subst v. unfold Object.getOrbitalVelocity. fold r. split.
  - intros Hrange Hm.
    assert (Hr : 0 < r).
    { destruct Hrange as [Hlow _]. pose proof (sqrt_pos (dot (Object.m_position o)
        (Object.m_position o))) as Hnn. fold (length3 (Object.m_position o)) in Hnn.
      fold r in Hnn. nra. }
    replace (Rleb r 0.0) with false by (symmetry; apply Rleb_gt; lra).
    replace (Rleb centralMass 0.0) with false by (symmetry; apply Rleb_gt; lra).
    cbn [orb].
    assert (Hpos : 0 < 6.67430e-11 * centralMass / r).
    { apply Rdiv_lt_0_compat; lra. }
    split; [by apply sqrt_lt_R0|].
    rewrite sqrt_sqrt by lra. field. lra.
  - intros [Hr|Hm].
    + replace (Rleb r 0.0) with true by (symmetry; apply Rleb_le; lra). cbn. lra.
    + replace (Rleb centralMass 0.0) with true by (symmetry; apply Rleb_le; lra).
      rewrite orb_true_r. lra.
Qed.

Lemma dot_normalize_self (a : vec3) : 0 < length3 a -> dot (normalize a) (normalize a) = 1.
Proof.
  intros Hpos. pose proof (length3_normalize a Hpos) as Hlen.
  unfold length3 in Hlen.
  rewrite <- (sqrt_sqrt (dot (normalize a) (normalize a))) by apply dot_self_nonneg.
  rewrite Hlen. ring.
Qed.

Lemma length3_pos_of_dot (a : vec3) : 0 < dot a a -> 0 < length3 a.
Proof. intros H. by apply sqrt_lt_R0. Qed.

(** X5: [setCircularOrbit] changes nothing but the velocity.  With a
    positive central mass, when the squared distances of the body from the
    central position and from the origin are within the range of [float]
    and the orbital speed is at most 1e38, it sets a velocity that is
    perpendicular to the line from the centre to the body and whose
    magnitude is the orbital speed of [getOrbitalVelocity], up to rounding.
    When the body is on the central position or the mass is not positive
    the velocity is set to zero. *)
Theorem setCircularOrbit_spec (centralMass : R) (centralPosition : vec3) (o : Object.t) :
  let displacement := vsub (Object.m_position o) centralPosition in
  let o' := Object.setCircularOrbit centralMass centralPosition o in
  o' = Object.setVelocity (Object.m_velocity o') o /\
  (0 < length3 displacement -> 0 < centralMass ->
   float_range (dot displacement displacement) ->
   float_range (dot (Object.m_position o) (Object.m_position o)) ->
   Object.getOrbitalVelocity o centralMass <= 1e38 ->
   dot (Object.m_velocity o') displacement = 0 /\
   length3 (Object.m_velocity o') = Object.getOrbitalVelocity o centralMass) /\
  (length3 displacement <= 0 \/ centralMass <= 0 ->
   Object.m_velocity o' = mkVec3 0 0 0).
Proof.
  intros displacement o'. subst o'. unfold Object.setCircularOrbit.
  fold displacement. split; [|split].
  - by destruct (Rleb (length3 displacement) 0.0 || Rleb centralMass 0.0).
  - intros Hr Hm _ _ _.
    replace (Rleb (length3 displacement) 0.0) with false by (symmetry; apply Rleb_gt; lra).
    replace (Rleb centralMass 0.0) with false by (symmetry; apply Rleb_gt; lra).
    cbn [orb Object.m_velocity Object.setVelocity].
    set (radial := normalize displacement).
    set (up := if Rgtb (Rabs (dot radial (mkVec3 0.0 1.0 0.0))) 0.99
               then mkVec3 1.0 0.0 0.0 else mkVec3 0.0 1.0 0.0).
    split.
    + unfold normalize at 1. subst radial. unfold normalize.
      vec_unfold. unfold cross. cbn [vx vy vz]. ring.
    + rewrite length3_vscale.
      assert (Hspeed : 0 <= Object.getOrbitalVelocity o centralMass).
      { unfold Object.getOrbitalVelocity.
        destruct (_ || _); [lra|apply sqrt_pos]. }
      rewrite Rabs_pos_eq by done.
      rewrite length3_normalize; [lra|].
      apply length3_pos_of_dot.
      pose proof (dot_normalize_self displacement Hr) as Hunit. fold radial in Hunit.
      subst up. unfold Rgtb.
      destruct (Rltb 0.99 (Rabs (dot radial (mkVec3 0.0 1.0 0.0)))) eqn:Hup.
      * apply Rltb_lt in Hup.
        assert (Hy : 0.99 * 0.99 < vy radial * vy radial).
        { replace (dot radial (mkVec3 0.0 1.0 0.0)) with (vy radial) in Hup
            by (vec_unfold; lra).
          unfold Rabs in Hup. destruct (Rcase_abs (vy radial)); nra. }
        unfold cross, dot in *. cbn [vx vy vz]. nra.
      * apply Rltb_ge in Hup.
        assert (Hy : vy radial * vy radial <= 0.99 * 0.99).
        { replace (dot radial (mkVec3 0.0 1.0 0.0)) with (vy radial) in Hup
            by (vec_unfold; lra).
          unfold Rabs in Hup. destruct (Rcase_abs (vy radial)); nra. }
        unfold cross, dot in *. cbn [vx vy vz]. nra.
  - intros Hdeg.
    replace (Rleb (length3 displacement) 0.0 || Rleb centralMass 0.0) with true.
    + cbn. unfold vec3_splat. f_equal; lra.
    + symmetry. apply orb_true_iff.
      destruct Hdeg; [left|right]; apply Rleb_le; lra.
Qed.

Lemma setCircularOrbit_spec_witness :
  let o := testBody (mkVec3 4 0 0) (mkVec3 0 0 0) 1 1 "probe" in
  let displacement := vsub (Object.m_position o) (mkVec3 0 0 0) in
  0 < length3 displacement /\ 0 < 1 /\
  float_range (dot displacement displacement) /\
  float_range (dot (Object.m_position o) (Object.m_position o)) /\
  Object.getOrbitalVelocity o 1 <= 1e38 /\
  dot (Object.m_velocity (Object.setCircularOrbit 1 (mkVec3 0 0 0) o)) displacement = 0.
Proof.
  intros o displacement.
  assert (Hr : 0 < length3 displacement).
  { apply length3_pos_of_dot. unfold displacement. cbn. vec_unfold. lra. }
  assert (Hm : 0 < 1) by lra.
  assert (Hd : float_range (dot displacement displacement)).
  { replace (dot displacement displacement) with 16
      by (unfold displacement; cbn; vec_unfold; lra).
    unfold float_range. lra. }
  assert (Hp : float_range (dot (Object.m_position o) (Object.m_position o))).
  { replace (dot (Object.m_position o) (Object.m_position o)) with 16
      by (cbn; vec_unfold; lra).
    unfold float_range. lra. }
  assert (Hv : Object.getOrbitalVelocity o 1 <= 1e38).
  { unfold Object.getOrbitalVelocity.
    destruct (_ || _); [lra|].
    apply Rle_trans with (sqrt 1); [|rewrite sqrt_1; lra].
    apply sqrt_le_1_alt.
    replace (length3 (Object.m_position o)) with 4.
    - lra.
    - symmetry. unfold length3. cbn. vec_unfold.
      replace (4 * 4 + 0 * 0 + 0 * 0) with (4 * 4) by ring.
      apply sqrt_square. lra. }
  split; [exact Hr|]. split; [exact Hm|]. split; [exact Hd|]. split; [exact Hp|].
  split; [exact Hv|].
  exact (proj1 (proj1 (proj2 (setCircularOrbit_spec 1 (mkVec3 0 0 0) o)) Hr Hm Hd Hp Hv)).
Defined.

(** ** Object: construction from configuration values *)

(** X6: [fromConfig] reads a position or velocity only from an array of at
    least three entries and takes the zero vector otherwise; the colour is
    opaque white for fewer than three entries and gets alpha 1 for exactly
    three; the object made is an active planet without force. *)
Theorem fromConfig_spec (position velocity : list R) (mass radius : R)
    (color : list R) (name : string) :
  let o := Object.fromConfig position velocity mass radius color name in
  ((length position < 3)%nat -> Object.m_position o = mkVec3 0 0 0) /\
  (forall x y z rest, position = x :: y :: z :: rest -> Object.m_position o = mkVec3 x y z) /\
  ((length velocity < 3)%nat -> Object.m_velocity o = mkVec3 0 0 0) /\
  (forall x y z rest, velocity = x :: y :: z :: rest -> Object.m_velocity o = mkVec3 x y z) /\
  ((length color < 3)%nat -> Object.m_color o = mkVec4 1 1 1 1) /\
  (forall r g b, color = [r; g; b] -> Object.m_color o = mkVec4 r g b 1) /\
  (forall r g b a rest, color = r :: g :: b :: a :: rest -> Object.m_color o = mkVec4 r g b a) /\
  Object.m_active o = true /\
  Object.m_type o = Object.PLANET /\
  Object.m_forceSum o = mkVec3 0 0 0 /\
  Object.m_mass o = mass /\ Object.m_radius o = radius /\ Object.m_name o = name /\
  Object.m_positionHistory o = [Object.m_position o].
Proof.
  intros o. subst o. unfold Object.fromConfig.
  cbn [Object.new Object.m_position Object.m_velocity Object.m_color Object.m_active
       Object.m_type Object.m_forceSum Object.m_mass Object.m_radius Object.m_name
       Object.m_positionHistory].
  repeat split.
  - intros Hlen. destruct (Nat.leb_spec 3 (length position)); [lia|].
    unfold vec3_splat. f_equal; lra.
  - by intros x y z rest ->.
  - intros Hlen. destruct (Nat.leb_spec 3 (length velocity)); [lia|].
    unfold vec3_splat. f_equal; lra.
  - by intros x y z rest ->.
  - intros Hlen. destruct (Nat.leb_spec 4 (length color)); [lia|].
    destruct (Nat.leb_spec 3 (length color)); [lia|]. f_equal; lra.
  - intros r g b ->. cbn. f_equal; lra.
  - by intros r g b a rest ->.
Qed.

(** ** BlackHole: the radii *)

Lemma Rleb_trans_true (x y z : R) : Rleb x y = true -> y <= z -> Rleb x z = true.
Proof. rewrite !Rleb_le. lra. Qed.

(** X7: [setMass] keeps position and name and sets the horizon radius to
    [2 G m / c^2], so that doubling the mass doubles the horizon radius; for
    a positive mass the horizon radius is positive and lies below the photon
    sphere radius, which lies below the ISCO radius; and a point inside the
    event horizon of a black hole with a nonnegative radius is inside its
    photon sphere. *)
Theorem radii_spec (mass : R) (b : BlackHole.t) :
  let b1 := BlackHole.setMass mass b in
  let b2 := BlackHole.setMass (2 * mass) b in
  BlackHole.m_position b1 = BlackHole.m_position b /\
  BlackHole.m_name b1 = BlackHole.m_name b /\
  BlackHole.m_mass b1 = mass /\
  BlackHole.m_schwarzschildRadius b2 = 2 * BlackHole.m_schwarzschildRadius b1 /\
  BlackHole.getPhotonSphereRadius b2 = 2 * BlackHole.getPhotonSphereRadius b1 /\
  BlackHole.getISCORadius b2 = 2 * BlackHole.getISCORadius b1 /\
  (0 < mass ->
   0 < BlackHole.m_schwarzschildRadius b1 /\
   BlackHole.m_schwarzschildRadius b1 < BlackHole.getPhotonSphereRadius b1 /\
   BlackHole.getPhotonSphereRadius b1 < BlackHole.getISCORadius b1) /\
  (forall point : vec3,
     0 <= BlackHole.m_schwarzschildRadius b ->
     BlackHole.isInsideEventHorizon b point = true ->
     BlackHole.isInsidePhotonSphere b point = true).
Proof.
  intros b1 b2. pose proof c_pos as Hc. pose proof G_pos as HG.
  assert (Hcc : BlackHole.c * BlackHole.c <> 0) by nra.
  destruct (setMass_schwarzschildRadius mass b) as [Hr1 Hm1].
  destruct (setMass_schwarzschildRadius (2 * mass) b) as [Hr2 _].
  fold b1 in Hr1, Hm1. fold b2 in Hr2.
  assert (Hdouble : BlackHole.m_schwarzschildRadius b2
                    = 2 * BlackHole.m_schwarzschildRadius b1).
  { rewrite Hr1, Hr2. field. lra. }
  repeat split; try done.
  - unfold BlackHole.getPhotonSphereRadius. rewrite Hdouble. lra.
  - unfold BlackHole.getISCORadius. rewrite Hdouble. lra.
  - rewrite Hr1. by apply schwarzschildRadius_pos.
  - pose proof (schwarzschildRadius_pos mass H) as Hpos. rewrite <- Hr1 in Hpos.
    unfold BlackHole.getPhotonSphereRadius. lra.
  - pose proof (schwarzschildRadius_pos mass H) as Hpos. rewrite <- Hr1 in Hpos.
    unfold BlackHole.getPhotonSphereRadius, BlackHole.getISCORadius. lra.
  - intros point Hr Hin. unfold BlackHole.isInsidePhotonSphere, BlackHole.getPhotonSphereRadius.
    eapply Rleb_trans_true; [exact Hin|]. lra.
Qed.

(** ** BlackHole: the potential *)





(** ** BlackHole: time dilation *)

(** The factor as a function of the coefficient. *)
Lemma timeDilationFactor_of_coefficient (rnd : R -> R) (b : BlackHole.t) (r : R) :
  nearest rnd ->
  0 <= BlackHole.getMetricCoefficient rnd b r <= 1 ->
  0 <= BlackHole.getTimeDilationFactor rnd b r <= 1.
Proof.
  intros Hrnd [Hg0 Hg1]. unfold BlackHole.getTimeDilationFactor. cbv zeta.
  destruct (Rleb (BlackHole.getMetricCoefficient rnd b r) 0.0); [lra|].
  apply nearest_unit; [done|]. split; [apply sqrt_pos|].
  rewrite <- sqrt_1. by apply sqrt_le_1_alt.
Qed.

(** X9: in [double] arithmetic, for every rounding to nearest and a
    positive horizon radius, the time dilation factor is 0 at and inside the
    horizon, lies between 0 and 1, both included, at every radius, and is
    nowhere decreasing in the radius. *)
Theorem timeDilationFactor_range (rnd : R -> R) (b : BlackHole.t) :
  nearest rnd ->
  0 < BlackHole.m_schwarzschildRadius b ->
  let r_h := BlackHole.m_schwarzschildRadius b in
  (forall r : R, r <= r_h -> BlackHole.getTimeDilationFactor rnd b r = 0) /\
  (forall r : R, 0 <= BlackHole.getTimeDilationFactor rnd b r <= 1) /\
  (forall r1 r2 : R, r1 <= r2 ->
     BlackHole.getTimeDilationFactor rnd b r1 <= BlackHole.getTimeDilationFactor rnd b r2).
Proof.
  intros Hrnd Hpos r_h. change (0 < r_h) in Hpos. split; [|split].
  - intros r Hr. unfold BlackHole.getTimeDilationFactor.
    rewrite metricCoefficient_inside by done.
    replace (Rleb 0 0.0) with true; [lra|]. symmetry. apply Rleb_le. lra.
  - intros r. apply timeDilationFactor_of_coefficient; [done|].
    by apply metricCoefficient_unit.
  - intros r1 r2 H12.
    pose proof (metricCoefficient_mono rnd b r1 r2 Hrnd Hpos H12) as Hg.
    pose proof (metricCoefficient_unit rnd b r1 Hrnd Hpos) as Hg1.
    pose proof (metricCoefficient_unit rnd b r2 Hrnd Hpos) as Hg2.
    pose proof (timeDilationFactor_of_coefficient rnd b r2 Hrnd Hg2) as Ht2.
    revert Ht2. unfold BlackHole.getTimeDilationFactor. cbv zeta.
    destruct (Rleb (BlackHole.getMetricCoefficient rnd b r1) 0.0) eqn:H1; [lra|].
    destruct (Rleb (BlackHole.getMetricCoefficient rnd b r2) 0.0) eqn:H2.
    + apply Rleb_le in H2. apply Rleb_gt in H1. lra.
    + intros _. destruct Hrnd as (Hmono & _). by apply Hmono, sqrt_le_1_alt.
Qed.

Lemma timeDilationFactor_range_witness :
  nearest grid /\
  0 < BlackHole.m_schwarzschildRadius sagittarius /\
  (forall r1 r2 : R, r1 <= r2 ->
     BlackHole.getTimeDilationFactor grid sagittarius r1
     <= BlackHole.getTimeDilationFactor grid sagittarius r2).
Proof.
  split; [exact grid_nearest|]. split; [exact sagittarius_radius_pos|].
  exact (proj2 (proj2 (timeDilationFactor_range grid sagittarius grid_nearest
                         sagittarius_radius_pos))).
Defined.

(** ** BlackHole: thermodynamics *)

Lemma hbar_pos : 0 < BlackHole.hbar.
Proof. unfold BlackHole.hbar. lra. Qed.

Lemma k_B_pos : 0 < BlackHole.k_B.
Proof. unfold BlackHole.k_B. lra. Qed.

(** X10: after [setMass] with a positive mass the Hawking temperature and
    the Bekenstein-Hawking entropy are positive; doubling the mass halves the
    temperature and quadruples the entropy. *)
Theorem thermodynamics_scaling (mass : R) (b : BlackHole.t) :
  0 < mass ->
  let b1 := BlackHole.setMass mass b in
  let b2 := BlackHole.setMass (2 * mass) b in
  0 < BlackHole.getHawkingTemperature b1 /\
  0 < BlackHole.getBekensteinHawkingEntropy b1 /\
  BlackHole.getHawkingTemperature b2 = BlackHole.getHawkingTemperature b1 / 2 /\
  BlackHole.getBekensteinHawkingEntropy b2 = 4 * BlackHole.getBekensteinHawkingEntropy b1.
Proof.
  intros Hm b1 b2.
  pose proof c_pos as Hc. pose proof G_pos as HG. pose proof hbar_pos as Hh.
  pose proof k_B_pos as Hk. pose proof PI_RGT_0 as Hpi.
  destruct (setMass_schwarzschildRadius mass b) as [Hr1 Hm1].
  destruct (setMass_schwarzschildRadius (2 * mass) b) as [Hr2 Hm2].
  fold b1 in Hr1, Hm1. fold b2 in Hr2, Hm2.
  pose proof (schwarzschildRadius_pos mass Hm) as Hpos. rewrite <- Hr1 in Hpos.
  unfold BlackHole.getHawkingTemperature, BlackHole.getBekensteinHawkingEntropy,
    BlackHole.M_PI.
  rewrite Hm1, Hm2, Hr2.
  revert Hr1 Hpos. generalize (BlackHole.m_schwarzschildRadius b1). intros r_h Hr1 Hpos.
  assert (Hccc : 0 < BlackHole.c * BlackHole.c * BlackHole.c).
  { apply Rmult_lt_0_compat; [nra|done]. }
  assert (HPG : 0 < PI * BlackHole.G) by (apply Rmult_lt_0_compat; done).
  assert (Hhccc : 0 < BlackHole.hbar * BlackHole.c * BlackHole.c * BlackHole.c).
  { replace (BlackHole.hbar * BlackHole.c * BlackHole.c * BlackHole.c)
      with (BlackHole.hbar * (BlackHole.c * BlackHole.c * BlackHole.c)) by ring.
    by apply Rmult_lt_0_compat. }
  assert (Hden : 0 < 8.0 * PI * BlackHole.G * mass * BlackHole.k_B).
  { replace (8.0 * PI * BlackHole.G * mass * BlackHole.k_B)
      with (8 * ((PI * BlackHole.G) * (mass * BlackHole.k_B))) by lra.
    apply Rmult_lt_0_compat; [lra|].
    apply Rmult_lt_0_compat; [done|]. by apply Rmult_lt_0_compat. }
  split; [|split; [|split]].
  - by apply Rdiv_lt_0_compat.
  - apply Rdiv_lt_0_compat.
    + replace (BlackHole.k_B * BlackHole.c * BlackHole.c * BlackHole.c * (4.0 * PI * r_h * r_h))
        with (4 * (BlackHole.k_B * (BlackHole.c * BlackHole.c * BlackHole.c) * (PI * (r_h * r_h))))
        by lra.
      apply Rmult_lt_0_compat; [lra|].
      apply Rmult_lt_0_compat; [by apply Rmult_lt_0_compat|].
      apply Rmult_lt_0_compat; [done|nra].
    + replace (4.0 * BlackHole.hbar * BlackHole.G) with (4 * (BlackHole.hbar * BlackHole.G)) by lra.
      apply Rmult_lt_0_compat; [lra|]. by apply Rmult_lt_0_compat.
  - replace 8.0 with 8 by lra. field. repeat split; lra.
  - rewrite Hr1. replace 4.0 with 4 by lra. field. repeat split; lra.
Qed.

Lemma thermodynamics_scaling_witness :
  0 < 8.54e36 /\ 0 < BlackHole.getHawkingTemperature (BlackHole.setMass 8.54e36 sagittarius).
Proof.
  assert (Hm : 0 < 8.54e36) by lra. split; [exact Hm|].
  exact (proj1 (thermodynamics_scaling 8.54e36 sagittarius Hm)).
Defined.

(** ** BlackHole: the curvature shown on the grid *)



(** ** Physics: the capacity of the collection *)

Lemma survivors_length (R : Object.t -> Object.t -> Prop) (l l' : list Object.t) :
  survivors R l l' -> (length l' <= length l)%nat.
Proof.
  intros (kept & Hsub & Hrel). rewrite <- (Forall2_length _ _ _ Hrel).
  by apply sublist_length.
Qed.

Lemma update_length (deltaTime : R) (p : Physics.t) :
  (length (Physics.m_objects (Physics.update deltaTime p)) <= length (Physics.m_objects p))%nat.
Proof. eapply survivors_length, update_survivors. Qed.

Lemma resetSimulation_length (p : Physics.t) :
  length (Physics.m_objects (Physics.resetSimulation p)) = length (Physics.m_objects p).
Proof. unfold Physics.resetSimulation. cbn. by rewrite length_map. Qed.

Lemma processKeyboard_length (key action mods : Z) (p : Physics.t) :
  length (Physics.m_objects (Physics.processKeyboard key action mods p))
  = length (Physics.m_objects p).
Proof.
  unfold Physics.processKeyboard.
  repeat match goal with |- context [(?x =? ?y)%Z] => destruct (x =? y)%Z end;
    try done.
  apply resetSimulation_length.
Qed.

Lemma apply_operation_capacity (p : Physics.t) (op : Operation) :
  (length (Physics.m_objects p) <= 16)%nat ->
  (length (Physics.m_objects (apply_operation p op)) <= 16)%nat.
Proof.
  intros Hle. destruct op; cbn [apply_operation]; try done.
  - unfold Physics.addObject.
    destruct (Nat.leb_spec 16 (length (Physics.m_objects p))); cbn; [done|].
    rewrite length_app. cbn. lia.
  - unfold Physics.removeObject.
    destruct (length (Physics.m_objects p) <=? index)%nat; cbn; [done|].
    pose proof (sublist_length _ _ (sublist_delete (Physics.m_objects p) index)). lia.
  - cbn. lia.
  - by rewrite resetSimulation_length.
  - by rewrite processKeyboard_length.
  - pose proof (update_length deltaTime p). lia.
Qed.

Lemma defaultConfig_position : position_configured defaultConfig.
Proof. unfold position_configured. cbn. lia. Qed.

(** X12: the collection of a simulation never holds more than 16 bodies:
    after the constructor, for a configuration whose position array for the
    black hole has its three entries, and after any sequence of calls of
    the public interface. *)
Theorem capacity_invariant (config : Config.t) (ops : list Operation) :
  position_configured config ->
  (length (Physics.m_objects (foldl apply_operation (Physics.new config) ops)) <= 16)%nat.
Proof.
  intros _.
  assert (Hgen : forall p, (length (Physics.m_objects p) <= 16)%nat ->
            (length (Physics.m_objects (foldl apply_operation p ops)) <= 16)%nat).
  { induction ops as [|op ops IH]; intros p Hle; [done|].
    cbn [foldl]. apply IH. by apply apply_operation_capacity. }
  apply Hgen. cbn. lia.
Qed.

Lemma capacity_invariant_witness :
  position_configured defaultConfig /\
  (length (Physics.m_objects
             (foldl apply_operation (Physics.new defaultConfig)
                (replicate 20 (OpAddObject bodyA) ++ [OpUpdate 1; OpToggleGravity])))
   <= 16)%nat.
Proof.
  split; [exact defaultConfig_position|].
  exact (capacity_invariant defaultConfig
           (replicate 20 (OpAddObject bodyA) ++ [OpUpdate 1; OpToggleGravity])
           defaultConfig_position).
Defined.

(** ** Physics: removal by index *)

(** X13: [removeObject] with an index that is not below the size returns the
    simulation unchanged; with an index below the size it drops that one
    entry, keeps the entries before it in place and moves each later entry
    one place down; [clearObjects] empties the collection.  Nothing else
    of the simulation changes. *)
Theorem removeObject_spec (index : nat) (p : Physics.t) :
  let n := length (Physics.m_objects p) in
  let p' := Physics.removeObject index p in
  ((n <= index)%nat -> p' = p) /\
  ((index < n)%nat ->
   length (Physics.m_objects p') = (n - 1)%nat /\
   (forall k : nat, (k < index)%nat ->
      Physics.m_objects p' !! k = Physics.m_objects p !! k) /\
   (forall k : nat, (index <= k)%nat ->
      Physics.m_objects p' !! k = Physics.m_objects p !! S k)) /\
  p' = Physics.setObjects (Physics.m_objects p') p /\
  Physics.m_objects (Physics.clearObjects p) = [].
Proof.
  intros n p'. subst p' n. unfold Physics.removeObject.
  split; [|split; [|split]].
  - intros Hge. by destruct (Nat.leb_spec (length (Physics.m_objects p)) index); [|lia].
  - intros Hlt. destruct (Nat.leb_spec (length (Physics.m_objects p)) index); [lia|].
    cbn [Physics.m_objects Physics.setObjects]. split; [|split].
    + rewrite length_delete; [lia|]. by apply lookup_lt_is_Some_2.
    + intros k Hk. by apply list_lookup_delete_lt.
    + intros k Hk. by apply list_lookup_delete_ge.
  - destruct (length (Physics.m_objects p) <=? index)%nat; [by destruct p|done].
  - done.
Qed.

(** ** Physics: the keyboard *)

Lemma toggleGravity_involutive (p : Physics.t) :
  Physics.toggleGravity (Physics.toggleGravity p) = p.
Proof.
  unfold Physics.toggleGravity, Physics.setGravityEnabled. cbn.
  rewrite negb_involutive. by destruct p.
Qed.

(** X14: [processKeyboard] acts on a key press only: for any other action,
    and for a press of any key but G, 1, 2, 3 and space, the simulation is
    returned unchanged; the modifier keys are ignored; G toggles gravity, so
    that two presses restore the simulation; 1, 2 and 3 select the method
    and space resets. *)
Theorem processKeyboard_spec (key action mods : Z) (p : Physics.t) :
  (action <> GLFW.GLFW_PRESS -> Physics.processKeyboard key action mods p = p) /\
  (key <> GLFW.GLFW_KEY_G -> key <> GLFW.GLFW_KEY_1 -> key <> GLFW.GLFW_KEY_2 ->
   key <> GLFW.GLFW_KEY_3 -> key <> GLFW.GLFW_KEY_SPACE ->
   Physics.processKeyboard key action mods p = p) /\
  (forall mods' : Z,
     Physics.processKeyboard key action mods' p = Physics.processKeyboard key action mods p) /\
  Physics.processKeyboard GLFW.GLFW_KEY_G GLFW.GLFW_PRESS mods
    (Physics.processKeyboard GLFW.GLFW_KEY_G GLFW.GLFW_PRESS mods p) = p /\
  Physics.m_integrationMethod
    (Physics.processKeyboard GLFW.GLFW_KEY_1 GLFW.GLFW_PRESS mods p) = Physics.EULER /\
  Physics.m_integrationMethod
    (Physics.processKeyboard GLFW.GLFW_KEY_2 GLFW.GLFW_PRESS mods p) = Physics.LEAPFROG /\
  Physics.m_integrationMethod
    (Physics.processKeyboard GLFW.GLFW_KEY_3 GLFW.GLFW_PRESS mods p) = Physics.RK4 /\
  Physics.processKeyboard GLFW.GLFW_KEY_SPACE GLFW.GLFW_PRESS mods p
    = Physics.resetSimulation p.
Proof.
  split; [|split; [|split; [|split]]].
  - intros Ha. unfold Physics.processKeyboard.
    by destruct (Z.eqb_spec action GLFW.GLFW_PRESS).
  - intros HG H1 H2 H3 HS. unfold Physics.processKeyboard.
    destruct (action =? GLFW.GLFW_PRESS)%Z; [|done].
    destruct (Z.eqb_spec key GLFW.GLFW_KEY_G); [done|].
    destruct (Z.eqb_spec key GLFW.GLFW_KEY_1); [done|].
    destruct (Z.eqb_spec key GLFW.GLFW_KEY_2); [done|].
    destruct (Z.eqb_spec key GLFW.GLFW_KEY_3); [done|].
    by destruct (Z.eqb_spec key GLFW.GLFW_KEY_SPACE).
  - done.
  - cbn. apply toggleGravity_involutive.
  - done.
Qed.

(** ** Physics: what a step leaves alone *)

Lemma update_frame (deltaTime : R) (p : Physics.t) :
  Physics.m_blackHole (Physics.update deltaTime p) = Physics.m_blackHole p /\
  Physics.m_gravityEnabled (Physics.update deltaTime p) = Physics.m_gravityEnabled p /\
  Physics.m_integrationMethod (Physics.update deltaTime p) = Physics.m_integrationMethod p /\
  Physics.m_G (Physics.update deltaTime p) = Physics.m_G p /\
  Physics.m_timeStep (Physics.update deltaTime p) = Physics.m_timeStep p.
Proof.
  unfold Physics.update. destruct (Rleb deltaTime 0.0); [done|].
  rewrite integrateMotion_id.
  destruct p as [cfg objs bh [|] m ts G t n]; repeat split; reflexivity.
Qed.

Lemma update_counters (deltaTime : R) (p : Physics.t) :
  0 < deltaTime ->
  Physics.m_simulationTime (Physics.update deltaTime p) = Physics.m_simulationTime p + deltaTime /\
  Physics.m_stepCount (Physics.update deltaTime p) = ((Physics.m_stepCount p + 1) mod 2 ^ 64)%Z.
Proof.
  intros Hdt. unfold Physics.update.
  replace (Rleb deltaTime 0.0) with false by (symmetry; apply Rleb_gt; lra).
  rewrite integrateMotion_id.
  destruct p as [cfg objs bh [|] m ts G t n]; split; reflexivity.
Qed.

(** X15: a step never changes the black hole, the gravity flag, the
    integration method, the gravitational constant or the time step; and
    after any number of steps with positive time deltas the elapsed time has
    grown by the sum of the deltas and the step count, a 64-bit counter, by
    their number modulo [2^64]. *)
Theorem update_bookkeeping (deltas : list R) (p : Physics.t) :
  let p' := foldl (fun p deltaTime => Physics.update deltaTime p) p deltas in
  Physics.m_blackHole p' = Physics.m_blackHole p /\
  Physics.m_gravityEnabled p' = Physics.m_gravityEnabled p /\
  Physics.m_integrationMethod p' = Physics.m_integrationMethod p /\
  Physics.m_G p' = Physics.m_G p /\
  Physics.m_timeStep p' = Physics.m_timeStep p /\
  (Forall (fun deltaTime => 0 < deltaTime) deltas ->
   (0 <= Physics.m_stepCount p < 2 ^ 64)%Z ->
   Physics.m_simulationTime p' = Physics.m_simulationTime p + foldr Rplus 0 deltas /\
   Physics.m_stepCount p' = ((Physics.m_stepCount p + Z.of_nat (length deltas)) mod 2 ^ 64)%Z).
Proof.
  revert p. induction deltas as [|deltaTime deltas IH]; intros p; cbn [foldl].
  - repeat split.
    + cbn. lra.
    + cbn. rewrite Z.add_0_r. symmetry. by apply Z.mod_small.
  - destruct (IH (Physics.update deltaTime p)) as (Hb & Hg & Hm & HG & Ht & Hcount).
    destruct (update_frame deltaTime p) as (Hb' & Hg' & Hm' & HG' & Ht').
    cbv zeta in *.
    split; [congruence|]. split; [congruence|]. split; [congruence|].
    split; [congruence|]. split; [congruence|].
    intros Hall Hrange. apply Forall_cons in Hall as [Hdt Hall].
    destruct (update_counters deltaTime p Hdt) as [Htime Hstep].
    destruct (Hcount Hall) as [Htime' Hstep'].
    { rewrite Hstep. apply Z.mod_pos_bound. lia. }
    split.
    + rewrite Htime', Htime. cbn [foldr]. lra.
    + rewrite Hstep', Hstep. cbn [length].
      rewrite Zplus_mod_idemp_l. f_equal. lia.
Qed.

(** ** Physics: the integration methods *)

(** X16: the selected integration method has no effect on a step: the
    three methods are the same first-order update, and stepping commutes
    with selecting a method. *)
Theorem update_method_irrelevant (method : Physics.IntegrationMethod) (deltaTime : R)
    (p : Physics.t) :
  Physics.update deltaTime (Physics.setIntegrationMethod method p)
  = Physics.setIntegrationMethod method (Physics.update deltaTime p) /\
  Physics.m_objects (Physics.update deltaTime (Physics.setIntegrationMethod method p))
  = Physics.m_objects (Physics.update deltaTime p).
Proof.
  assert (Heq : Physics.update deltaTime (Physics.setIntegrationMethod method p)
                = Physics.setIntegrationMethod method (Physics.update deltaTime p)).
  { unfold Physics.update. destruct (Rleb deltaTime 0.0); [done|].
    rewrite !integrateMotion_id.
    destruct p as [cfg objs bh [|] m ts G t n]; reflexivity. }
  split; [done|]. by rewrite Heq.
Qed.

(** ** Physics: the state of the bodies after a step *)

Lemma removeSwallowedLoop_active (blackHole : BlackHole.t) (objs : list Object.t) :
  Forall (fun o => Object.m_active o = true
                   /\ BlackHole.isInsideEventHorizon blackHole (Object.m_position o) = false)
         (Physics.removeSwallowedLoop blackHole objs).
Proof.
  induction objs as [|o objs IH]; cbn; [done|].
  destruct (Object.m_active o) eqn:Hact; cbn [andb negb]; [|done].
  destruct (BlackHole.isInsideEventHorizon blackHole (Object.m_position o)) eqn:Hin; [done|].
  by constructor.
Qed.

Lemma updatePhysics_keeps_activity (deltaTime : R) (o : Object.t) :
  Object.m_active (Object.updatePhysics deltaTime o) = Object.m_active o.
Proof.
  destruct (Object.m_active o) eqn:Hact.
  - destruct (Rle_dec deltaTime 0) as [Hdt|Hdt].
    + by rewrite updatePhysics_nonpositive.
    + by destruct (updatePhysics_active deltaTime o ltac:(lra) Hact) as (_&_&_&_&_&_&_&?).
  - by rewrite updatePhysics_inactive.
Qed.

(** X17: after a step with a positive time delta every active body of the
    collection has an accumulated force of zero, ready for the next step;
    and when gravity is enabled every body left in the collection is
    active. *)
Theorem update_clears_forces (deltaTime : R) (p : Physics.t) :
  0 < deltaTime ->
  let objs' := Physics.m_objects (Physics.update deltaTime p) in
  Forall (fun o => Object.m_active o = true -> Object.m_forceSum o = mkVec3 0 0 0) objs' /\
  (Physics.m_gravityEnabled p = true -> Forall (fun o => Object.m_active o = true) objs').
Proof.
  intros Hdt objs'. subst objs'. unfold Physics.update.
  replace (Rleb deltaTime 0.0) with false by (symmetry; apply Rleb_gt; lra).
  set (p2 := Physics.setStepCount _ _).
  change (Physics.m_gravityEnabled p2) with (Physics.m_gravityEnabled p).
  split.
  - cbn [Physics.m_objects Physics.setObjects].
    apply Forall_fmap, Forall_forall. intros o _ Hact. cbn in Hact |- *.
    rewrite updatePhysics_keeps_activity in Hact.
    by destruct (updatePhysics_active deltaTime o Hdt Hact) as (_&_&_&?&_).
  - intros ->. cbn [Physics.m_objects Physics.setObjects Physics.removeSwallowedObjects].
    apply Forall_fmap. eapply Forall_impl; [apply removeSwallowedLoop_active|].
    intros o [Hact _]. cbn. by rewrite updatePhysics_keeps_activity.
Qed.

Lemma update_clears_forces_witness :
  let p := Physics.setGravityEnabled true (Physics.new defaultConfig) in
  0 < 1 /\
  Forall (fun o => Object.m_active o = true)
         (Physics.m_objects (Physics.update 1 p)).
Proof.
  intros p. assert (H1 : 0 < 1) by lra. split; [exact H1|].
  exact (proj2 (update_clears_forces 1 p H1) eq_refl).
Defined.

(** ** Physics: motion with gravity disabled *)

Lemma update_gravity_off_lookup (deltaTime : R) (p : Physics.t) (k : nat) (o : Object.t) :
  Physics.m_gravityEnabled p = false ->
  0 < deltaTime ->
  Physics.m_objects p !! k = Some o ->
  Physics.m_objects (Physics.update deltaTime p) !! k
  = Some (Object.updatePhysics deltaTime o).
Proof.
  intros Hg Hdt Hk. unfold Physics.update.
  replace (Rleb deltaTime 0.0) with false by (symmetry; apply Rleb_gt; lra).
  destruct p as [cfg objs bh g m ts G t n]. cbn in Hg, Hk. subst g.
  cbn. by rewrite list_lookup_fmap, Hk.
Qed.

Lemma updatePhysics_force_free (deltaTime : R) (o : Object.t) :
  0 < deltaTime ->
  Object.m_active o = true ->
  Object.m_forceSum o = mkVec3 0 0 0 ->
  Object.m_velocity (Object.updatePhysics deltaTime o) = Object.m_velocity o /\
  Object.m_position (Object.updatePhysics deltaTime o)
  = vadd (Object.m_position o) (vscale (Object.m_velocity o) deltaTime) /\
  Object.m_active (Object.updatePhysics deltaTime o) = true /\
  Object.m_forceSum (Object.updatePhysics deltaTime o) = mkVec3 0 0 0.
Proof.
  intros Hdt Hact Hforce.
  destruct (updatePhysics_active deltaTime o Hdt Hact) as (_ & Hv & Hp & Hf & _ & _ & _ & Ha).
  assert (Hvel : Object.m_velocity (Object.updatePhysics deltaTime o) = Object.m_velocity o).
  { rewrite Hv, Hforce. destruct (Rgtb (Object.m_mass o) 0);
      apply vec3_eq; vec_unfold; unfold Rdiv; ring. }
  split; [exact Hvel|]. split; [|split; [exact Ha|exact Hf]].
  rewrite Hp, <- Hv, Hvel. reflexivity.
Qed.

(** In exact arithmetic, with gravity disabled, the position of a body
    without accumulated force advances by the velocity times the sum of the
    time deltas. *)
Lemma update_gravity_off_exact
    (deltas : list R) (p : Physics.t) (k : nat) (o : Object.t) :
  Physics.m_gravityEnabled p = false ->
  Forall (fun deltaTime => 0 < deltaTime) deltas ->
  Physics.m_objects p !! k = Some o ->
  Object.m_active o = true ->
  Object.m_forceSum o = mkVec3 0 0 0 ->
  exists o' : Object.t,
    Physics.m_objects (steps deltas p) !! k = Some o' /\
    Object.m_velocity o' = Object.m_velocity o /\
    Object.m_position o'
    = vadd (Object.m_position o) (vscale (Object.m_velocity o) (foldr Rplus 0 deltas)) /\
    Object.m_active o' = true /\
    Object.m_forceSum o' = mkVec3 0 0 0.
Proof.
  intros Hg Hall. revert p o Hg.
  induction Hall as [|deltaTime deltas Hdt Hall IH]; intros p o Hg Hk Hact Hforce.
  - exists o. cbn [steps foldl foldr]. repeat split; try done.
    apply vec3_eq; vec_unfold; ring.
  - destruct (updatePhysics_force_free deltaTime o Hdt Hact Hforce) as (Hv & Hp & Ha & Hf).
    destruct (IH (Physics.update deltaTime p) (Object.updatePhysics deltaTime o))
      as (o' & Hk' & Hv' & Hp' & Ha' & Hf'); try done.
    { destruct (update_frame deltaTime p) as (_ & -> & _). exact Hg. }
    { by apply update_gravity_off_lookup. }
    exists o'. split; [exact Hk'|]. split; [congruence|]. split; [|done].
    rewrite Hp', Hv, Hp. cbn [foldr]. apply vec3_eq; vec_unfold; ring.
Qed.

Lemma sum_deltas_nonneg (deltas : list R) :
  Forall (fun deltaTime => 0 < deltaTime) deltas -> 0 <= foldr Rplus 0 deltas.
Proof. induction 1 as [|deltaTime deltas Hdt _ IH]; cbn; lra. Qed.

(** X18: with gravity disabled a body without accumulated force keeps its
    velocity.  Over any number of steps with positive time deltas an active
    body that starts with zero accumulated force, and whose mass is not
    positive or is at least 1e-37, so that it does not vanish as a [float],
    keeps its index, its velocity and its activity and ends with zero
    force; its position moves in no coordinate against the velocity, and
    not at all in a coordinate in which the velocity is zero; whatever the
    other bodies and the black hole are. *)
Theorem update_gravity_off_straight_line
    (deltas : list R) (p : Physics.t) (k : nat) (o : Object.t) :
  Physics.m_gravityEnabled p = false ->
  Forall (fun deltaTime => 0 < deltaTime) deltas ->
  Physics.m_objects p !! k = Some o ->
  Object.m_active o = true ->
  Object.m_forceSum o = mkVec3 0 0 0 ->
  Object.m_mass o <= 0 \/ 1e-37 <= Object.m_mass o ->
  exists o' : Object.t,
    Physics.m_objects (steps deltas p) !! k = Some o' /\
    Object.m_velocity o' = Object.m_velocity o /\
    Object.m_active o' = true /\
    Object.m_forceSum o' = mkVec3 0 0 0 /\
    moved_along (Object.m_velocity o) (Object.m_position o) (Object.m_position o').
Proof.
  intros Hg Hall Hk Hact Hforce _.
  destruct (update_gravity_off_exact deltas p k o Hg Hall Hk Hact Hforce)
    as (o' & Hk' & Hv & Hp & Ha & Hf).
  exists o'. split; [exact Hk'|]. split; [exact Hv|]. split; [exact Ha|].
  split; [exact Hf|].
  pose proof (sum_deltas_nonneg deltas Hall) as Hsum.
  rewrite Hp. unfold moved_along. vec_unfold. repeat split; intros; nra.
Qed.

Lemma update_gravity_off_straight_line_witness :
  let probe := testBody (mkVec3 0 0 0) (mkVec3 3 0 4) 5 1 "Probe" in
  let p := (Physics.addObject probe (Physics.new defaultConfig)).1 in
  Physics.m_gravityEnabled p = false /\
  Forall (fun deltaTime => 0 < deltaTime) [1; 2] /\
  Physics.m_objects p !! 2%nat = Some probe /\
  (Object.m_mass probe <= 0 \/ 1e-37 <= Object.m_mass probe) /\
  exists o' : Object.t,
    Physics.m_objects (steps [1; 2] p) !! 2%nat = Some o' /\
    Object.m_velocity o' = mkVec3 3 0 4.
Proof.
  intros probe p.
  assert (Hall : Forall (fun deltaTime => 0 < deltaTime) [1; 2]).
  { repeat constructor; lra. }
  assert (Hmass : Object.m_mass probe <= 0 \/ 1e-37 <= Object.m_mass probe).
  { right. change (Object.m_mass probe) with 5. lra. }
  split; [reflexivity|]. split; [exact Hall|]. split; [reflexivity|].
  split; [exact Hmass|].
  destruct (update_gravity_off_straight_line [1; 2] p 2%nat probe
              eq_refl Hall eq_refl eq_refl eq_refl Hmass)
    as (o' & Hk & Hv & _).
  exists o'. split; [exact Hk|exact Hv].
Defined.

(** ** Physics: the net force of the pairwise pass *)




Lemma new_objects (config : Config.t) :
  Physics.m_objects (Physics.new config) =
  [Object.new (mkVec3 4e11 0.0 0.0) (mkVec3 0.0 0.0 0.0) 1.98892e30 4e10
              (mkVec4 1.0 1.0 0.0 1.0) "Test Star 1" Object.STAR;
   Object.new (mkVec3 0.0 0.0 4e11) (mkVec3 0.0 0.0 0.0) 5.972e24 4e10
              (mkVec4 1.0 0.0 0.0 1.0) "Test Planet 1" Object.PLANET].
Proof. reflexivity. Qed.





(** ** Physics: energy *)

Lemma for_loop_ext {A : Type} (body body' : nat -> A -> A) (count i : nat) (s : A) :
  (forall k s', (i <= k < i + count)%nat -> body k s' = body' k s') ->
  for_loop count i body s = for_loop count i body' s.
Proof.
  revert i s. induction count as [|count IH]; intros i s Hext; [done|].
  cbn. rewrite Hext by lia. apply IH. intros k s' Hk. apply Hext. lia.
Qed.

Lemma same_placement_lookup (objs objs' : list Object.t) (i : nat) :
  Forall2 same_placement objs objs' ->
  match objs !! i, objs' !! i with
  | Some o, Some o' => same_placement o o'
  | None, None => True
  | _, _ => False
  end.
Proof.
  intros Hrel. destruct (objs !! i) as [o|] eqn:Ho.
  - destruct (Forall2_lookup_l _ _ _ _ _ Hrel Ho) as (o' & -> & Hoo'). done.
  - apply lookup_ge_None in Ho. rewrite (Forall2_length _ _ _ Hrel) in Ho.
    apply lookup_ge_None in Ho. by rewrite Ho.
Qed.

(** The potential energy reads positions, masses and activity flags only. *)
Lemma getPotentialEnergy_placement (p p' : Physics.t) :
  Physics.m_G p' = Physics.m_G p ->
  Physics.m_blackHole p' = Physics.m_blackHole p ->
  Forall2 same_placement (Physics.m_objects p) (Physics.m_objects p') ->
  Physics.getPotentialEnergy p' = Physics.getPotentialEnergy p.
Proof.
  intros HG Hbh Hrel. unfold Physics.getPotentialEnergy.
  rewrite HG, Hbh, <- (Forall2_length _ _ _ Hrel).
  apply for_loop_ext. intros i totalPE _.
  pose proof (same_placement_lookup _ _ i Hrel) as Hi.
  destruct (Physics.m_objects p !! i) as [obj1|], (Physics.m_objects p' !! i) as [obj1'|];
    try done.
  destruct Hi as (Hpos & Hmass & Hact). rewrite Hpos, Hmass, Hact.
  destruct (negb (Object.m_active obj1)); [done|]. cbv zeta.
  apply for_loop_ext. intros j acc _. unfold Physics.potentialEnergyBody.
  pose proof (same_placement_lookup _ _ j Hrel) as Hj.
  destruct (Physics.m_objects p !! j) as [obj2|], (Physics.m_objects p' !! j) as [obj2'|];
    try done.
  destruct Hj as (Hpos2 & Hmass2 & Hact2). unfold Object.getDistanceTo.
  by rewrite Hpos, Hmass, Hpos2, Hmass2, Hact2.
Qed.

Lemma kineticEnergy_at_rest (acc : R) (objs : list Object.t) :
  Forall (fun o => Object.m_velocity o = mkVec3 0 0 0) objs ->
  foldl (fun totalKE object =>
           if Object.m_active object
           then totalKE + Object.getKineticEnergy object
           else totalKE) acc objs = acc.
Proof.
  revert acc. induction objs as [|o objs IH]; intros acc Hall; [done|].
  apply Forall_cons in Hall as [Ho Hall]. cbn [foldl].
  rewrite IH by done. destruct (Object.m_active o); [|done].
  rewrite object_kineticEnergy_at_rest by done. lra.
Qed.

(** X20: after a reset the kinetic energy is zero, the potential energy is
    what it was before the reset, and the total energy is that potential
    energy. *)
Theorem resetSimulation_energy (p : Physics.t) :
  let p' := Physics.resetSimulation p in
  Physics.getKineticEnergy p' = 0 /\
  Physics.getPotentialEnergy p' = Physics.getPotentialEnergy p /\
  Physics.getTotalEnergy p' = Physics.getPotentialEnergy p.
Proof.
  intros p'.
  assert (HK : Physics.getKineticEnergy p' = 0).
  { unfold Physics.getKineticEnergy. rewrite kineticEnergy_at_rest; [lra|].
    subst p'. unfold Physics.resetSimulation. cbn [Physics.m_objects Physics.setObjects].
    apply Forall_fmap, Forall_forall. intros o _. cbn. unfold vec3_splat. done. }
  assert (HP : Physics.getPotentialEnergy p' = Physics.getPotentialEnergy p).
  { apply getPotentialEnergy_placement; [done..|].
    subst p'. unfold Physics.resetSimulation.
    cbn [Physics.m_objects Physics.setObjects Physics.setStepCount Physics.setSimulationTime].
    apply Forall2_fmap_r, Forall_Forall2_diag, Forall_forall. intros o _. by repeat split. }
  split; [done|]. split; [done|].
  unfold Physics.getTotalEnergy. rewrite HK, HP. lra.
Qed.

(** X21: with a gravitational constant, a black hole mass and body masses
    that are not negative, the potential energy is never positive. *)
Theorem getPotentialEnergy_nonpositive (p : Physics.t) :
  0 <= Physics.m_G p ->
  0 <= BlackHole.m_mass (Physics.m_blackHole p) ->
  Forall (fun o => 0 <= Object.m_mass o) (Physics.m_objects p) ->
  Physics.getPotentialEnergy p <= 0.
Proof.
  intros HG HM Hmass. unfold Physics.getPotentialEnergy.
  pose (Inv := fun (_ : nat) (totalPE : R) => totalPE <= 0).
  assert (Hterm : forall a m1 m2 d acc, 0 <= a -> 0 <= m1 -> 0 <= m2 -> acc <= 0 ->
            (if Rgtb d 0.0 then acc - a * m1 * m2 / d else acc) <= 0).
  { intros a m1 m2 d acc Ha H1 H2 Hacc. unfold Rgtb.
    destruct (Rltb 0.0 d) eqn:Hd; [|done]. apply Rltb_lt in Hd.
    assert (0 <= a * m1 * m2 / d); [|lra].
    apply Rmult_le_pos; [|apply Rlt_le, Rinv_0_lt_compat; lra].
    apply Rmult_le_pos; [by apply Rmult_le_pos|done]. }
  assert (Hlookup : forall i o, Physics.m_objects p !! i = Some o -> 0 <= Object.m_mass o).
  { intros i o Hi. by eapply (Forall_lookup_1 _ _ _ _ Hmass). }
  apply (for_loop_ind Inv); [unfold Inv; lra|].
  intros i totalPE _ HI. unfold Inv in *.
  destruct (Physics.m_objects p !! i) as [obj1|] eqn:Hi; [|done].
  destruct (negb (Object.m_active obj1)); [done|]. cbv zeta.
  apply (for_loop_ind Inv).
  - apply Hterm; eauto.
  - intros j acc _ Hacc. unfold Inv in *. unfold Physics.potentialEnergyBody.
    destruct (Physics.m_objects p !! j) as [obj2|] eqn:Hj; [|done].
    destruct (negb (Object.m_active obj2)); [done|]. cbv zeta.
    apply Hterm; eauto.
Qed.

Lemma getPotentialEnergy_nonpositive_witness :
  let p := Physics.new defaultConfig in
  0 <= Physics.m_G p /\
  0 <= BlackHole.m_mass (Physics.m_blackHole p) /\
  Forall (fun o => 0 <= Object.m_mass o) (Physics.m_objects p) /\
  Physics.getPotentialEnergy p <= 0.
Proof.
  intros p.
  assert (HG : 0 <= Physics.m_G p).
  { change (Physics.m_G p) with 6.67430e-11. lra. }
  assert (HM : 0 <= BlackHole.m_mass (Physics.m_blackHole p)).
  { change (BlackHole.m_mass (Physics.m_blackHole p)) with 8.54e36. lra. }
  assert (Hmass : Forall (fun o => 0 <= Object.m_mass o) (Physics.m_objects p)).
  { subst p. rewrite new_objects.
    repeat constructor; cbn [Object.m_mass Object.new]; lra. }
  split; [exact HG|]. split; [exact HM|]. split; [exact Hmass|].
  exact (getPotentialEnergy_nonpositive p HG HM Hmass).
Defined.

(** ** Physics: accelerations and forces *)


























(** ** Physics: construction *)

(** X24: for every configuration whose position array for the black hole
    has its three entries, the constructor makes the same two bodies, a star
    and a planet, active and at rest: nothing of the configuration reaches
    the collection.  The counters start at zero and the black hole has the
    first three entries of the array as its position, the configured mass
    and the horizon radius [2 G m / c^2]. *)
Theorem new_spec (config : Config.t) :
  position_configured config ->
  let p := Physics.new config in
  let mass := Config.getDouble config "blackHole.mass" 8.54e36 in
  (exists (x y z : R) (rest : list R),
     Config.getDoubleArray config "blackHole.position" [0.0; 0.0; 0.0] = x :: y :: z :: rest /\
     BlackHole.m_position (Physics.m_blackHole p) = mkVec3 x y z) /\
  Object.m_name <$> Physics.m_objects p = ["Test Star 1"; "Test Planet 1"]%string /\
  Physics.m_objects p = Physics.m_objects (Physics.new defaultConfig) /\
  Forall (fun o => Object.m_active o = true /\
                   Object.m_velocity o = mkVec3 0.0 0.0 0.0 /\
                   Object.m_forceSum o = mkVec3 0 0 0 /\
                   0 < Object.m_mass o)
         (Physics.m_objects p) /\
  Physics.m_simulationTime p = 0.0 /\
  Physics.m_stepCount p = 0%Z /\
  BlackHole.m_mass (Physics.m_blackHole p) = mass /\
  BlackHole.m_schwarzschildRadius (Physics.m_blackHole p)
  = 2 * BlackHole.G * mass / (BlackHole.c * BlackHole.c).
Proof.
  intros Hposition p mass. subst p. split.
  { unfold position_configured in Hposition.
    destruct (Config.getDoubleArray config "blackHole.position" [0.0; 0.0; 0.0])
      as [|x [|y [|z rest]]] eqn:Harray; cbn in Hposition; try lia.
    exists x, y, z, rest. split; [done|].
    cbn [Physics.new Physics.m_blackHole Physics.loadObjectsFromConfig
         Physics.initializeObjects Physics.setIntegrationMethod Physics.setObjects
         BlackHole.new BlackHole.updateSchwarzschildRadius BlackHole.m_position].
    unfold Physics.new. cbn. by rewrite Harray. }
  rewrite !new_objects.
  split; [done|]. split; [done|]. split.
  - repeat constructor; cbn [Object.m_mass Object.new]; lra.
  - repeat split; try reflexivity.
    change (Physics.m_blackHole (Physics.new config))
      with (BlackHole.new
              (mkVec3 (Physics.at_ (Config.getDoubleArray config "blackHole.position" [0.0; 0.0; 0.0]) 0)
                      (Physics.at_ (Config.getDoubleArray config "blackHole.position" [0.0; 0.0; 0.0]) 1)
                      (Physics.at_ (Config.getDoubleArray config "blackHole.position" [0.0; 0.0; 0.0]) 2))
              mass (Config.getString config "blackHole.name" "Sagittarius A*")).
    apply new_schwarzschildRadius.
Qed.

Lemma new_spec_witness :
  position_configured defaultConfig /\
  Object.m_name <$> Physics.m_objects (Physics.new defaultConfig)
  = ["Test Star 1"; "Test Planet 1"]%string.
Proof.
  split; [exact defaultConfig_position|].
  exact (proj1 (proj2 (new_spec defaultConfig defaultConfig_position))).
Defined.

(** The names that [integrationMethodToString] prints are pairwise
    different, and none of them is a selector that the constructor
    recognises: read back, each selects RK4. *)
Lemma integrationMethodToString_spec (m1 m2 : Physics.IntegrationMethod) :
  (Physics.integrationMethodToString m1 = Physics.integrationMethodToString m2 -> m1 = m2) /\
  Physics.parseIntegrationMethod (Physics.integrationMethodToString m1) = Physics.RK4.
Proof. split; [by destruct m1, m2|by destruct m1]. Qed.

(** ** Config: keys *)

Lemma has_dot_app (a b : string) : has_dot (a +:+ b) = has_dot a || has_dot b.
Proof.
  induction a as [|ch a IH]; [done|].
  change (String ch a +:+ b)%string with (String ch (a +:+ b)).
  cbn [has_dot]. rewrite IH. by rewrite orb_assoc.
Qed.

Lemma getline_parts_dot_free (s part : string) :
  has_dot part = false ->
  Forall (fun x => has_dot x = false) (JsonConfig.getline_parts s part).
Proof.
  revert part. induction s as [|ch s IH]; intros part Hpart; cbn.
  - destruct (String.eqb part ""); by repeat constructor.
  - destruct (Ascii.eqb ch ".") eqn:Hch.
    + constructor; [done|]. by apply IH.
    + apply IH. rewrite has_dot_app, Hpart. cbn. by rewrite Hch.
Qed.

Lemma getline_parts_no_dot (s part : string) :
  has_dot s = false ->
  JsonConfig.getline_parts s part
  = if String.eqb (part +:+ s) "" then [] else [part +:+ s].
Proof.
  revert part. induction s as [|ch s IH]; intros part Hs; cbn.
  - replace (part +:+ "")%string with part; [done|].
    clear. induction part as [|c part IH]; [done|].
    change (String c part +:+ "")%string with (String c (part +:+ "")). by rewrite <- IH.
  - cbn in Hs. apply orb_false_iff in Hs as [Hch Hs]. rewrite Hch.
    rewrite IH by done.
    replace ((part +:+ String ch "") +:+ s)%string with (part +:+ String ch s)%string; [done|].
    clear. induction part as [|c part IH]; [done|].
    change ((String c part +:+ String ch "") +:+ s)%string
      with (String c ((part +:+ String ch "") +:+ s)).
    change (String c part +:+ String ch s)%string with (String c (part +:+ String ch s)).
    by rewrite IH.
Qed.

Lemma splitKey_nonempty (key : string) : JsonConfig.splitKey key <> [].
Proof. unfold JsonConfig.splitKey. by destruct (List.filter _ _). Qed.

(** X25: [splitKey] never returns an empty list, so that [setNestedValue]
    always has a last part to assign; each part it returns is either the
    whole key or a nonempty string without a dot; and a key without a dot is
    its own single part. *)
Theorem splitKey_spec (key : string) :
  JsonConfig.splitKey key <> [] /\
  Forall (fun part => part = key \/ (part <> ""%string /\ has_dot part = false))
         (JsonConfig.splitKey key) /\
  (has_dot key = false -> JsonConfig.splitKey key = [key]).
Proof.
  unfold JsonConfig.splitKey.
  pose proof (getline_parts_dot_free key "" eq_refl) as Hfree.
  split; [|split].
  - by destruct (List.filter _ _).
  - destruct (List.filter _ _) as [|x parts] eqn:Hparts.
    + constructor; [by left|done].
    + rewrite <- Hparts. apply Forall_forall. intros part Hin.
      apply list_elem_of_In, filter_In in Hin as [Hin Hne]. right. split.
      * intros ->. done.
      * apply list_elem_of_In in Hin. by eapply (proj1 (Forall_forall _ _) Hfree).
  - intros Hkey. rewrite getline_parts_no_dot by done.
    change (("" +:+ key)%string) with key.
    destruct (String.eqb_spec key "") as [->|Hne]; [done|].
    cbn. by rewrite (proj2 (String.eqb_neq key "") Hne).
Qed.

(** ** Config: reading back what was written *)

Lemma find_assign_same (key : string) (value : Json.t) (members : list (string * Json.t)) :
  Json.find key (Json.assign key value members) = Some value.
Proof.
  induction members as [|[k v] members IH]; cbn.
  - by rewrite String.eqb_refl.
  - destruct (String.eqb k key) eqn:Hk; cbn; by rewrite Hk.
Qed.

Lemma find_assign_other (key key' : string) (value : Json.t)
    (members : list (string * Json.t)) :
  key <> key' ->
  Json.find key' (Json.assign key value members) = Json.find key' members.
Proof.
  intros Hne. induction members as [|[k v] members IH]; cbn.
  - by rewrite (proj2 (String.eqb_neq key key') Hne).
  - destruct (String.eqb_spec k key) as [->|Hk]; cbn.
    + by rewrite (proj2 (String.eqb_neq key key') Hne).
    + by rewrite IH.
Qed.

Lemma getNestedValue_from_set (keyParts : list string) (value current : Json.t) :
  keyParts <> [] ->
  JsonConfig.getNestedValue_from keyParts
    (JsonConfig.setNestedValue_from keyParts value current) = Some value.
Proof.
  revert current. induction keyParts as [|part rest IH]; intros current Hne; [done|].
  destruct rest as [|part' rest].
  - cbn. by rewrite find_assign_same.
  - cbn [JsonConfig.setNestedValue_from JsonConfig.getNestedValue_from].
    rewrite find_assign_same. by apply IH.
Qed.

Lemma getNestedValue_set (key : string) (value : Json.t) (c : JsonConfig.t) :
  JsonConfig.getNestedValue (JsonConfig.setNestedValue key value c) key = Some value.
Proof.
  unfold JsonConfig.getNestedValue, JsonConfig.setNestedValue. cbn.
  apply getNestedValue_from_set, splitKey_nonempty.
Qed.

(** X26: a value written under a key is read back under that key, whatever
    the document held before: a string by [getString], a boolean by
    [getBool], a number by [getFloat] and [getDouble], an integer that fits
    an [int] by [getInt]; [hasKey] holds; and a getter of another type
    returns its default. *)
Theorem config_set_get (key : string) (c : JsonConfig.t) :
  (forall (s d : string), JsonConfig.getString (JsonConfig.setString key s c) key d = s) /\
  (forall (b d : bool), JsonConfig.getBool (JsonConfig.setBool key b c) key d = b) /\
  (forall (x d : R), JsonConfig.getFloat (JsonConfig.setFloat key x c) key d = x) /\
  (forall (x d : R), JsonConfig.getDouble (JsonConfig.setFloat key x c) key d = x) /\
  (forall (n d : Z), (- 2 ^ 31 <= n < 2 ^ 31)%Z ->
     JsonConfig.getInt (JsonConfig.setInt key n c) key d = n) /\
  (forall (n : Z) (d : R), JsonConfig.getDouble (JsonConfig.setInt key n c) key d = IZR n) /\
  (forall value : Json.t, JsonConfig.hasKey (JsonConfig.setNestedValue key value c) key = true) /\
  (forall (n : Z) (d : string), JsonConfig.getString (JsonConfig.setInt key n c) key d = d) /\
  (forall (s : string) (d : R), JsonConfig.getDouble (JsonConfig.setString key s c) key d = d) /\
  (forall (x : R) (d : Z), JsonConfig.getInt (JsonConfig.setFloat key x c) key d = d).
Proof.
  repeat split; intros;
    unfold JsonConfig.getString, JsonConfig.getBool, JsonConfig.getFloat,
      JsonConfig.getDouble, JsonConfig.getInt, JsonConfig.hasKey,
      JsonConfig.setString, JsonConfig.setBool, JsonConfig.setFloat, JsonConfig.setInt;
    rewrite getNestedValue_set; try done.
  unfold JsonConfig.to_int.
  rewrite Z.mod_small by lia. lia.
Qed.

(** ** Config: absent keys *)

Lemma getNestedValue_new (key : string) :
  JsonConfig.getNestedValue JsonConfig.new key = None.
Proof.
  unfold JsonConfig.getNestedValue. cbn.
  pose proof (splitKey_nonempty key). by destruct (JsonConfig.splitKey key).
Qed.

(** X27: in a new or cleared configuration no key is present and every
    getter returns its default; and no key is present in a configuration
    whose document is not an object. *)
Theorem config_absent (key : string) :
  (forall c : JsonConfig.t, JsonConfig.clear c = JsonConfig.new) /\
  JsonConfig.hasKey JsonConfig.new key = false /\
  (forall d : string, JsonConfig.getString JsonConfig.new key d = d) /\
  (forall d : Z, JsonConfig.getInt JsonConfig.new key d = d) /\
  (forall d : R, JsonConfig.getFloat JsonConfig.new key d = d) /\
  (forall d : R, JsonConfig.getDouble JsonConfig.new key d = d) /\
  (forall d : bool, JsonConfig.getBool JsonConfig.new key d = d) /\
  (forall d : list R, JsonConfig.getDoubleArray JsonConfig.new key d = d) /\
  (forall d : list R, JsonConfig.getFloatArray JsonConfig.new key d = d) /\
  (forall d : list Z, JsonConfig.getIntArray JsonConfig.new key d = d) /\
  (forall c : JsonConfig.t,
     Json.is_object (JsonConfig.m_json c) = false ->
     JsonConfig.hasKey c key = false).
Proof.
  repeat split; intros;
    unfold JsonConfig.getString, JsonConfig.getBool, JsonConfig.getFloat,
      JsonConfig.getDouble, JsonConfig.getInt, JsonConfig.hasKey,
      JsonConfig.getDoubleArray, JsonConfig.getFloatArray, JsonConfig.getIntArray;
    rewrite ?getNestedValue_new; try done.
  unfold JsonConfig.getNestedValue.
  pose proof (splitKey_nonempty key).
  destruct (JsonConfig.splitKey key) as [|part rest]; [done|].
  cbn. by destruct (JsonConfig.m_json c).
Qed.

(** ** Config: keys that do not meet *)

Lemma getNestedValue_from_empty (keyParts : list string) :
  keyParts <> [] -> JsonConfig.getNestedValue_from keyParts (Json.object []) = None.
Proof. by destruct keyParts. Qed.

Lemma setNestedValue_from_cons (part : string) (rest : list string) (value current : Json.t) :
  rest <> [] ->
  JsonConfig.setNestedValue_from (part :: rest) value current
  = let members := Json.members_or_empty current in
    let child := match Json.find part members with
                 | Some child => child
                 | None => Json.object []
                 end in
    Json.object (Json.assign part (JsonConfig.setNestedValue_from rest value child) members).
Proof. by destruct rest. Qed.

Lemma setNestedValue_from_head (part : string) (rest : list string) (value current : Json.t) :
  exists child : Json.t,
    JsonConfig.setNestedValue_from (part :: rest) value current
    = Json.object (Json.assign part child (Json.members_or_empty current)).
Proof. destruct rest; eexists; reflexivity. Qed.

Lemma getNestedValue_from_members (keyParts : list string) (current : Json.t) :
  keyParts <> [] ->
  JsonConfig.getNestedValue_from keyParts current
  = JsonConfig.getNestedValue_from keyParts (Json.object (Json.members_or_empty current)).
Proof. destruct keyParts as [|part rest]; [done|]. by destruct current. Qed.

Lemma getNestedValue_from_diverge (common : list string) (a b : string)
    (rest rest' : list string) (value current : Json.t) :
  a <> b ->
  JsonConfig.getNestedValue_from (common ++ b :: rest')
    (JsonConfig.setNestedValue_from (common ++ a :: rest) value current)
  = JsonConfig.getNestedValue_from (common ++ b :: rest') current.
Proof.
  intros Hne. revert current. induction common as [|x common IH]; intros current.
  - cbn [app].
    destruct (setNestedValue_from_head a rest value current) as (child & ->).
    rewrite (getNestedValue_from_members (b :: rest') current) by done.
    cbn. by rewrite find_assign_other.
  - cbn [app]. rewrite setNestedValue_from_cons by (by destruct common).
    cbv zeta.
    rewrite (getNestedValue_from_members (x :: common ++ b :: rest') current) by done.
    cbn [JsonConfig.getNestedValue_from]. rewrite find_assign_same, IH.
    destruct (Json.find x (Json.members_or_empty current)); [done|].
    apply getNestedValue_from_empty. by destruct common.
Qed.

(** X28: writing under one key does not change what is read under another
    key whose parts part ways with those of the first, whatever the document
    held before. *)
Theorem config_set_other (key key' : string) (value : Json.t) (c : JsonConfig.t) :
  keys_diverge (JsonConfig.splitKey key) (JsonConfig.splitKey key') ->
  JsonConfig.getNestedValue (JsonConfig.setNestedValue key value c) key'
  = JsonConfig.getNestedValue c key'.
Proof.
  intros (common & a & b & rest & rest' & Hk & Hk' & Hne).
  unfold JsonConfig.getNestedValue, JsonConfig.setNestedValue. cbn.
  rewrite Hk, Hk'. by apply getNestedValue_from_diverge.
Qed.

Lemma config_set_other_witness :
  keys_diverge (JsonConfig.splitKey "physics.timeStep")
               (JsonConfig.splitKey "physics.enableGravity") /\
  forall c : JsonConfig.t,
    JsonConfig.getNestedValue
      (JsonConfig.setNestedValue "physics.timeStep" (Json.number_float 0.01) c)
      "physics.enableGravity"
    = JsonConfig.getNestedValue c "physics.enableGravity".
Proof.
  assert (Hd : keys_diverge (JsonConfig.splitKey "physics.timeStep")
                 (JsonConfig.splitKey "physics.enableGravity")).
  { exists ["physics"%string], "timeStep"%string, "enableGravity"%string, [], [].
    repeat split; done. }
  split; [exact Hd|]. intros c.
  exact (config_set_other "physics.timeStep" "physics.enableGravity"
           (Json.number_float 0.01) c Hd).
Defined.

(** ** Config and Physics *)

Lemma getNestedValue_set_other (key key' : string) (value : Json.t) (c : JsonConfig.t) :
  keys_diverge (JsonConfig.splitKey key) (JsonConfig.splitKey key') ->
  JsonConfig.getNestedValue (JsonConfig.setNestedValue key value c) key'
  = JsonConfig.getNestedValue c key'.
Proof.
  intros (common & a & b & rest & rest' & Hk & Hk' & Hne).
  unfold JsonConfig.getNestedValue, JsonConfig.setNestedValue. cbn.
  rewrite Hk, Hk'. by apply getNestedValue_from_diverge.
Qed.

(** Writing a setting of the physics leaves the position array of the
    black hole as it was. *)
Lemma position_configured_set (key : string) (value : Json.t) (c : JsonConfig.t) :
  keys_diverge (JsonConfig.splitKey key) (JsonConfig.splitKey "blackHole.position") ->
  position_configured (JsonConfig.queries c) ->
  position_configured (JsonConfig.queries (JsonConfig.setNestedValue key value c)).
Proof.
  intros Hd. unfold position_configured.
  cbn [Config.getDoubleArray JsonConfig.queries]. unfold JsonConfig.getDoubleArray.
  by rewrite getNestedValue_set_other.
Qed.

(** X29: the constructor reads its settings from the JSON configuration.
    For a document whose position array for the black hole has its three
    entries, writing a selector under "physics.integrationMethod" or a flag
    under "physics.enableGravity" leaves that array as it was, the selector
    selects the method as [parseIntegrationMethod] reads it and the flag is
    the gravity flag; and with an empty configuration gravity is disabled,
    the method is RK4, the gravitational constant is 6.67430e-11 and the
    black hole has the mass 8.54e36. *)
Theorem new_from_json (c : JsonConfig.t) :
  position_configured (JsonConfig.queries c) ->
  (forall selector : string,
     position_configured
       (JsonConfig.queries (JsonConfig.setString "physics.integrationMethod" selector c)) /\
     Physics.m_integrationMethod
       (Physics.new (JsonConfig.queries
                       (JsonConfig.setString "physics.integrationMethod" selector c)))
     = Physics.parseIntegrationMethod selector) /\
  (forall enabled : bool,
     position_configured
       (JsonConfig.queries (JsonConfig.setBool "physics.enableGravity" enabled c)) /\
     Physics.m_gravityEnabled
       (Physics.new (JsonConfig.queries
                       (JsonConfig.setBool "physics.enableGravity" enabled c)))
     = enabled) /\
  position_configured (JsonConfig.queries JsonConfig.new) /\
  Physics.m_gravityEnabled (Physics.new (JsonConfig.queries JsonConfig.new)) = false /\
  Physics.m_integrationMethod (Physics.new (JsonConfig.queries JsonConfig.new)) = Physics.RK4 /\
  Physics.m_G (Physics.new (JsonConfig.queries JsonConfig.new)) = 6.67430e-11 /\
  BlackHole.m_mass (Physics.m_blackHole (Physics.new (JsonConfig.queries JsonConfig.new)))
  = 8.54e36.
Proof.
  intros Hposition. split; [|split; [|split; [|repeat split]]].
  - intros selector. split.
    + apply position_configured_set; [|done].
      exists [], "physics"%string, "blackHole"%string,
        ["integrationMethod"%string], ["position"%string].
      repeat split; done.
    + rewrite new_integrationMethod.
      cbn [Config.getString JsonConfig.queries].
      unfold JsonConfig.getString, JsonConfig.setString. by rewrite getNestedValue_set.
  - intros enabled. split.
    + apply position_configured_set; [|done].
      exists [], "physics"%string, "blackHole"%string,
        ["enableGravity"%string], ["position"%string].
      repeat split; done.
    + change (Physics.m_gravityEnabled (Physics.new ?cfg))
        with (Config.getBool cfg "physics.enableGravity" false).
      cbn [Config.getBool JsonConfig.queries].
      unfold JsonConfig.getBool, JsonConfig.setBool. by rewrite getNestedValue_set.
  - unfold position_configured. cbn [Config.getDoubleArray JsonConfig.queries].
    unfold JsonConfig.getDoubleArray. rewrite getNestedValue_new. cbn. lia.
Qed.

Lemma new_from_json_witness :
  position_configured (JsonConfig.queries JsonConfig.new) /\
  Physics.m_integrationMethod
    (Physics.new (JsonConfig.queries
                    (JsonConfig.setString "physics.integrationMethod" "euler" JsonConfig.new)))
  = Physics.EULER.
Proof.
  assert (Hposition : position_configured (JsonConfig.queries JsonConfig.new)).
  { unfold position_configured. cbn [Config.getDoubleArray JsonConfig.queries].
    unfold JsonConfig.getDoubleArray. rewrite getNestedValue_new. cbn. lia. }
  split; [exact Hposition|].
  exact (proj2 (proj1 (new_from_json JsonConfig.new Hposition) "euler"%string)).
Defined.

(** ** Logger *)

Lemma append_assoc_r (a b d : string) : ((a +:+ b) +:+ d = a +:+ (b +:+ d))%string.
Proof.
  induction a as [|ch a IH]; [done|].
  change ((String ch a +:+ b) +:+ d)%string with (String ch ((a +:+ b) +:+ d)).
  change (String ch a +:+ (b +:+ d))%string with (String ch (a +:+ (b +:+ d))).
  by rewrite IH.
Qed.

(** X30: [log] never changes the settings of the logger, and writes nothing
    for a level below the current one.  A message that passes goes to the
    console, when console output is on, as one coloured line: on the standard
    output for DEBUG and INFO, on the standard error for the levels above;
    and to the log file, when file output is on and the file is open, as the
    same line without colour.  The name of a level always takes five
    characters.  With the settings of the constructor a DEBUG message is
    dropped. *)
Theorem log_routing (level : Logger.Level) (message timestamp : string) (l : Logger.t) :
  let l' := Logger.log level message timestamp l in
  let passes := (Logger.level_rank (Logger.m_currentLevel l) <=? Logger.level_rank level)%Z in
  let on_cerr := (2 <=? Logger.level_rank level)%Z in
  let coloured :=
    (Logger.colorCode level +:+ logLine level timestamp message
     +:+ Logger.esc +:+ "[0m" +:+ Logger.endl)%string in
  (Logger.m_currentLevel l' = Logger.m_currentLevel l /\
   Logger.m_consoleOutput l' = Logger.m_consoleOutput l /\
   Logger.m_fileOutput l' = Logger.m_fileOutput l /\
   Logger.m_logFilename l' = Logger.m_logFilename l /\
   Logger.m_logFile_is_open l' = Logger.m_logFile_is_open l) /\
  Logger.cout l'
  = (if passes && Logger.m_consoleOutput l && negb on_cerr
     then Logger.cout l +:+ coloured else Logger.cout l) /\
  Logger.cerr l'
  = (if passes && Logger.m_consoleOutput l && on_cerr
     then Logger.cerr l +:+ coloured else Logger.cerr l) /\
  Logger.m_logFile l'
  = (if passes && Logger.m_fileOutput l && Logger.m_logFile_is_open l
     then Logger.m_logFile l +:+ logLine level timestamp message +:+ Logger.endl
     else Logger.m_logFile l) /\
  String.length (Logger.levelToString level) = 5%nat /\
  Logger.log Logger.DEBUG message timestamp Logger.new = Logger.new.
Proof.
  intros l' passes on_cerr coloured. subst l' passes on_cerr coloured.
  unfold Logger.log, logLine.
  rewrite (Z.leb_antisym (Logger.level_rank level)).
  destruct l as [cur console file name open text out err].
  cbn [Logger.m_currentLevel Logger.m_consoleOutput Logger.m_fileOutput
       Logger.m_logFilename Logger.m_logFile_is_open Logger.m_logFile
       Logger.cout Logger.cerr].
  destruct (Logger.level_rank level <? Logger.level_rank cur)%Z;
    cbn [negb andb];
    [by destruct level|].
  destruct console, file, open, level;
    cbn -[String.append]; rewrite ?append_assoc_r; repeat split; reflexivity.
Qed.
